(** * PDF-checkmaker: a shallow embedding of [main.py]

    The script loads invoice rows from a CSV or JSON file, groups them by
    [invoice_id], lets the user pick records, fills an HTML template by
    literal substitution and hands the result to a PDF engine.

    Conventions of the embedding.
    - A Python [str] is a [string]: the bytes of its UTF-8 encoding.  The
      tokens searched for by the program are ASCII, so searching,
      splitting and replacing on the bytes agrees with doing so on the
      code points.  Where Python looks at characters ([str.strip], [int],
      [float], iteration over a [str]) the bytes are first cut into
      characters; white space and decimal digits are those of Unicode
      14.0, the tables of CPython 3.11.
    - [int] refuses a numeral of more than 4300 digits, the default of
      [sys.int_max_str_digits], which the program does not change.  An
      [int] held in a record comes from [json.load], which reads numbers
      with [int], so the text of such a number always exists.
    - Python values are the type [pyval]; a [dict] is an association list
      in insertion order, looked up from the left.
    - What the interpreter and the libraries do on behalf of the program
      ([csv.DictReader], [json.load], the file system, the PDF engine, the
      console) enters as data: the rows a reader yields, the value a parser
      returns, the outcome of each write, the lines typed by the user.
    - [print] becomes a list of [msg] values, one constructor per call
      site. *)

From Stdlib Require Import String Ascii List ZArith NArith Bool Lia Sorted.
From Stdlib Require Import Permutation.
From Stdlib Require Import Decimal DecimalString DecimalN DecimalZ.
Import ListNotations.

Open Scope list_scope.
Open Scope string_scope.

(* ================================================================== *)
(** ** Characters *)

Module Unicode.

Definition byte (c : ascii) : N := N_of_ascii c.

(** A continuation byte of UTF-8, [10xxxxxx]. *)
Definition is_continuation (c : ascii) : bool :=
  ((128 <=? byte c) && (byte c <? 192))%N.

(** The characters of [s], each as the bytes that encode it: a byte
    with the continuation bytes behind it. *)
Fixpoint chars (s : string) : list string :=
  match s with
  | EmptyString => []
  | String c s' =>
      match chars s' with
      | String c' ch :: chs =>
          if is_continuation c' then String c (String c' ch) :: chs
          else String c "" :: String c' ch :: chs
      | chs => String c "" :: chs
      end
  end.

(** The payload of the continuation bytes [rest], after [acc]. *)
Fixpoint continued (acc : N) (rest : string) : option N :=
  match rest with
  | EmptyString => Some acc
  | String c rest' =>
      if is_continuation c
      then continued (acc * 64 + (byte c - 128))%N rest'
      else None
  end.

Definition between (lo hi : N) (cp : option N) : option N :=
  match cp with
  | Some n => if ((lo <=? n) && (n <=? hi))%N then Some n else None
  | None => None
  end.

(** The code point of one character; [None] for bytes that are not the
    encoding of one. *)
Definition code (ch : string) : option N :=
  match ch with
  | EmptyString => None
  | String c rest =>
      let b := byte c in
      match String.length rest with
      | 0 => if (b <? 128)%N then Some b else None
      | 1 => if ((192 <=? b) && (b <? 224))%N
             then between 128 2047 (continued (b - 192) rest) else None
      | 2 => if ((224 <=? b) && (b <? 240))%N
             then between 2048 65535 (continued (b - 224) rest) else None
      | 3 => if ((240 <=? b) && (b <? 248))%N
             then between 65536 1114111 (continued (b - 240) rest) else None
      | _ => None
      end
  end.

(** [str.isspace] of a character ([Py_UNICODE_ISSPACE]). *)
Definition is_whitespace (cp : N) : bool :=
  (((9 <=? cp) && (cp <=? 13))
   || ((28 <=? cp) && (cp <=? 32))
   || (cp =? 133) || (cp =? 160) || (cp =? 5760)
   || ((8192 <=? cp) && (cp <=? 8202))
   || (cp =? 8232) || (cp =? 8233) || (cp =? 8239) || (cp =? 8287)
   || (cp =? 12288))%N.

(** The digit zero of every script that has decimal digits; the
    digits one to nine follow it. *)
Definition decimal_zeros : list N :=
  [ 48; 1632; 1776; 1984; 2406; 2534; 2662; 2790; 2918; 3046; 3174; 3302;
    3430; 3558; 3664; 3792; 3872; 4160; 4240; 6112; 6160; 6470; 6608;
    6784; 6800; 6992; 7088; 7232; 7248; 42528; 43216; 43264; 43472;
    43504; 43600; 44016; 65296; 66720; 68912; 69734; 69872; 69942; 70096;
    70384; 70736; 70864; 71248; 71360; 71472; 71904; 72016; 72784; 73040;
    73120; 92768; 92864; 93008; 120782; 120792; 120802; 120812; 120822;
    123200; 123632; 125264; 130032 ]%N.

(** The value of a decimal digit ([Py_UNICODE_TODECIMAL]). *)
Definition decimal (cp : N) : option N :=
  match List.find (fun z => ((z <=? cp) && (cp <? z + 10))%N) decimal_zeros with
  | Some z => Some (cp - z)%N
  | None => None
  end.

Fixpoint all_ascii (s : string) : bool :=
  match s with
  | EmptyString => true
  | String c s' => (byte c <? 128)%N && all_ascii s'
  end.

(** What [int] and [float] make of one character of a text that is not
    all ASCII: white space becomes a space and a decimal digit the ASCII
    digit of its value; a character below DEL stays; any other one makes
    the text unreadable. *)
Definition ascii_char (ch : string) : option ascii :=
  match code ch with
  | None => None
  | Some cp =>
      if (cp <? 127)%N then Some (ascii_of_N cp)
      else if is_whitespace cp then Some " "%char
      else match decimal cp with
           | Some d => Some (ascii_of_N (48 + d))
           | None => None
           end
  end.

Fixpoint ascii_chars (chs : list string) : option string :=
  match chs with
  | [] => Some EmptyString
  | ch :: chs' =>
      match ascii_char ch, ascii_chars chs' with
      | Some c, Some s => Some (String c s)
      | _, _ => None
      end
  end.

(** The text [int] and [float] parse in place of [s]; [None] stands for
    the [ValueError] of a character they cannot read. *)
Definition ascii_form (s : string) : option string :=
  if all_ascii s then Some s else ascii_chars (chars s).

End Unicode.

(* ================================================================== *)
(** ** Strings *)

Module Str.

Fixpoint rev_onto (s acc : string) : string :=
  match s with
  | EmptyString => acc
  | String c s' => rev_onto s' (String c acc)
  end.

Definition rev (s : string) : string := rev_onto s "".

Fixpoint forallb (p : ascii -> bool) (s : string) : bool :=
  match s with
  | EmptyString => true
  | String c s' => p c && forallb p s'
  end.

(** A character that [str.strip] removes. *)
Definition blank (ch : string) : bool :=
  match Unicode.code ch with
  | Some cp => Unicode.is_whitespace cp
  | None => false
  end.

Fixpoint drop_blank (chs : list string) : list string :=
  match chs with
  | [] => []
  | ch :: chs' => if blank ch then drop_blank chs' else chs
  end.

(** [s.strip()] *)
Definition strip (s : string) : string :=
  String.concat ""
    (List.rev (drop_blank (List.rev (drop_blank (Unicode.chars s))))).

(** White space as the parsers of [int] and [float] skip it
    ([Py_ISSPACE]): TAB, LF, VT, FF, CR and SPACE. *)
Definition is_space (c : ascii) : bool :=
  let n := nat_of_ascii c in
  (((9 <=? n) && (n <=? 13)) || (n =? 32))%nat.

Fixpoint skip_space (s : string) : string :=
  match s with
  | EmptyString => EmptyString
  | String c s' => if is_space c then skip_space s' else s
  end.

(** The text between the white space the parsers skip at both ends. *)
Definition trim (s : string) : string :=
  rev (skip_space (rev (skip_space s))).

Definition lower_char (c : ascii) : ascii :=
  let n := nat_of_ascii c in
  if ((65 <=? n) && (n <=? 90))%nat then ascii_of_nat (n + 32) else c.

(** [s.lower()].  Outside ASCII the bytes stay as they are, where
    Python lowers the cased letters.  The program compares the lowered
    text with [all] and with [y] and reads numbers in it: no character
    outside ASCII has [a], [l] or [y] as its lower case, and lowering
    neither makes nor unmakes a digit, a sign, an underscore, a comma or
    white space, so each of these tests comes out as in Python. *)
Fixpoint lower (s : string) : string :=
  match s with
  | EmptyString => EmptyString
  | String c s' => String (lower_char c) (lower s')
  end.

(** [s.split(sep)] for a one-character separator: the current field is
    accumulated in [cur]. *)
Fixpoint split_from (sep : ascii) (cur : string) (s : string) : list string :=
  match s with
  | EmptyString => [rev cur]
  | String c s' =>
      if Ascii.eqb c sep then rev cur :: split_from sep "" s'
      else split_from sep (String c cur) s'
  end.

Definition split (sep : ascii) (s : string) : list string :=
  split_from sep "" s.

(** [sep.join(parts)] *)
Fixpoint join (sep : string) (parts : list string) : string :=
  match parts with
  | [] => ""
  | [p] => p
  | p :: ps => p ++ sep ++ join sep ps
  end.

(** The scan of [str.replace]: left to right, an occurrence of [old]
    is replaced and the scan resumes behind it.  [skip] counts the
    characters of the occurrence still to be passed over. *)
Fixpoint replace_from (old new : string) (skip : nat) (s : string) : string :=
  match s with
  | EmptyString => EmptyString
  | String c s' =>
      match skip with
      | S k => replace_from old new k s'
      | O =>
          if prefix old s
          then new ++ replace_from old new (String.length old - 1) s'
          else String c (replace_from old new 0 s')
      end
  end.

Fixpoint intersperse (new : string) (s : string) : string :=
  match s with
  | EmptyString => new
  | String c s' => new ++ String c (intersperse new s')
  end.

(** [s.replace(old, new)]; an empty [old] matches between characters. *)
Definition replace (old new s : string) : string :=
  match old with
  | EmptyString => intersperse new s
  | _ => replace_from old new 0 s
  end.

(** [sub in s] *)
Fixpoint contains (sub s : string) : bool :=
  prefix sub s ||
  match s with
  | EmptyString => false
  | String _ s' => contains sub s'
  end.

Definition is_digit (c : ascii) : bool :=
  let n := nat_of_ascii c in ((48 <=? n) && (n <=? 57))%nat.

Definition digit_val (c : ascii) : Z := Z.of_nat (nat_of_ascii c) - 48.

Fixpoint map (f : ascii -> ascii) (s : string) : string :=
  match s with
  | EmptyString => EmptyString
  | String c s' => String (f c) (map f s')
  end.

Definition tail (s : string) : string :=
  match s with
  | EmptyString => EmptyString
  | String _ s' => s'
  end.

End Str.

(* ================================================================== *)
(** ** Floating point numbers

    A Python [float] is an IEEE binary64.  Every finite binary64 is an
    integer multiple of [2^-1074] with at most 53 significant bits, so a
    finite value is a sign and a magnitude counted in that unit; sums and
    roundings are then exact integer computations. *)

Module Float.

Inductive float64 : Type :=
| FFin (neg : bool) (mag : N)     (* (-1)^neg * mag * 2^-1074 *)
| FInf (neg : bool)
| FNan.

Definition ulp_exp : Z := 1074.
Definition unit_scale : Z := 2 ^ ulp_exp.
Definition overflow_threshold : Z := 2 ^ 2098.   (* 2^1024 in units *)

Definition bit_length (n : Z) : Z :=
  if (n <=? 0)%Z then 0%Z else (Z.log2 n + 1)%Z.

(** Round the non-negative rational [p / d] (in units of [2^-1074]) to
    the nearest binary64, ties to even; beyond the largest finite value
    the result is an infinity. *)
Definition round_units (neg : bool) (p d : Z) : float64 :=
  let fl := (p / d)%Z in
  let sh := Z.max 0 (bit_length fl - 53) in
  let u := (d * 2 ^ sh)%Z in
  let m := (p / u)%Z in
  let r := (p mod u)%Z in
  let m' := if ((2 * r >? u) || ((2 * r =? u) && Z.odd m))%Z
            then (m + 1)%Z else m in
  let n := (m' * 2 ^ sh)%Z in
  if (overflow_threshold <=? n)%Z then FInf neg else FFin neg (Z.to_N n).

(** The signed magnitude of a finite value, in units. *)
Definition units (neg : bool) (mag : N) : Z :=
  if neg then (- Z.of_N mag)%Z else Z.of_N mag.

(** [x + y] on floats. *)
Definition add (x y : float64) : float64 :=
  match x, y with
  | FNan, _ | _, FNan => FNan
  | FInf a, FInf b => if Bool.eqb a b then FInf a else FNan
  | FInf a, _ => FInf a
  | _, FInf b => FInf b
  | FFin a m, FFin b n =>
      let z := (units a m + units b n)%Z in
      if (z =? 0)%Z then FFin (a && b) 0%N
      else round_units (z <? 0)%Z (Z.abs z) 1
  end.

(** [float(z)] for an [int]; [None] stands for [OverflowError]. *)
Definition of_int (z : Z) : option float64 :=
  match round_units (z <? 0)%Z (Z.abs z * unit_scale) 1 with
  | FInf _ => None
  | f => Some f
  end.

Definition zero : float64 := FFin false 0.

Definition is_finite (x : float64) : bool :=
  match x with FFin _ _ => true | _ => false end.

(** *** [float(s)] for a [str]

    The literal, between the white space at both ends: an optional
    sign, then [inf], [infinity] or [nan] in any case, or a decimal
    numeral [digits [. [digits]] [e [sign] digits]] or
    [. digits [e ...]], where single underscores may separate digits.
    [None] stands for [ValueError]. *)

(** Digits following a digit already read; [acc] is the value so far and
    [n] the number of digits. *)
Fixpoint digit_run (acc : Z) (n : nat) (s : string) : Z * nat * string :=
  match s with
  | EmptyString => (acc, n, s)
  | String c s' =>
      if Str.is_digit c
      then digit_run (10 * acc + Str.digit_val c)%Z (S n) s'
      else if Ascii.eqb c "_"
      then match s' with
           | String d s'' =>
               if Str.is_digit d
               then digit_run (10 * acc + Str.digit_val d)%Z (S n) s''
               else (acc, n, s)
           | EmptyString => (acc, n, s)
           end
      else (acc, n, s)
  end.

Definition digit_part (s : string) : option (Z * nat * string) :=
  match s with
  | String c s' =>
      if Str.is_digit c then Some (digit_run (Str.digit_val c) 1 s') else None
  | EmptyString => None
  end.

(** An optional sign: [(negative, rest)]. *)
Definition sign_part (s : string) : bool * string :=
  match s with
  | String c s' =>
      if Ascii.eqb c "-" then (true, s')
      else if Ascii.eqb c "+" then (false, s')
      else (false, s)
  | EmptyString => (false, s)
  end.

(** The exponent, when [s] starts with [e] or [E]; it must then be
    complete and end the literal. *)
Definition exponent_part (s : string) : option Z :=
  match s with
  | EmptyString => Some 0%Z
  | String c s' =>
      if Ascii.eqb (Str.lower_char c) "e"
      then let '(neg, s1) := sign_part s' in
           match digit_part s1 with
           | Some (v, _, EmptyString) => Some (if neg then (- v)%Z else v)
           | _ => None
           end
      else None
  end.

(** The binary64 nearest to [mant * 10^e10]. *)
Definition of_decimal (neg : bool) (mant e10 : Z) : float64 :=
  if (mant =? 0)%Z then FFin neg 0
  else if (0 <=? e10)%Z
  then round_units neg (mant * 10 ^ e10 * unit_scale) 1
  else round_units neg (mant * unit_scale) (10 ^ (- e10)).

Definition numeral (neg : bool) (s : string) : option float64 :=
  match digit_part s with
  | Some (ip, _, rest) =>
      match rest with
      | String "." rest' =>
          match digit_part rest' with
          | Some (fp, fn, rest'') =>
              match exponent_part rest'' with
              | Some e =>
                  Some (of_decimal neg (ip * 10 ^ Z.of_nat fn + fp)
                                   (e - Z.of_nat fn))
              | None => None
              end
          | None =>
              match exponent_part rest' with
              | Some e => Some (of_decimal neg ip e)
              | None => None
              end
          end
      | _ =>
          match exponent_part rest with
          | Some e => Some (of_decimal neg ip e)
          | None => None
          end
      end
  | None =>
      match s with
      | String "." rest' =>
          match digit_part rest' with
          | Some (fp, fn, rest'') =>
              match exponent_part rest'' with
              | Some e => Some (of_decimal neg fp (e - Z.of_nat fn))
              | None => None
              end
          | None => None
          end
      | _ => None
      end
  end.

Definition of_string (s : string) : option float64 :=
  match Unicode.ascii_form s with
  | None => None
  | Some text =>
      let '(neg, body) := sign_part (Str.trim text) in
      let word := Str.lower body in
      if (word =? "inf") || (word =? "infinity") then Some (FInf neg)
      else if word =? "nan" then Some FNan
      else numeral neg body
  end.

(** *** [format(x, ",.2f")] *)

(** [p / d] rounded to the nearest integer, ties to even. *)
Definition round_half_even (p d : Z) : Z :=
  let q := (p / d)%Z in
  let r := (p mod d)%Z in
  if ((2 * r >? d) || ((2 * r =? d) && Z.odd q))%Z then (q + 1)%Z else q.

(** Hundredths of the magnitude. *)
Definition cents (mag : N) : Z :=
  round_half_even (Z.of_N mag * 100) unit_scale.

Definition dec_of_Z (z : Z) : string := NilEmpty.string_of_int (Z.to_int z).

Definition digit_char (d : Z) : ascii := ascii_of_nat (48 + Z.to_nat d).

Definition two_digits (n : Z) : string :=
  String (digit_char (n / 10)) (String (digit_char (n mod 10)) "").

(** The comma grouping, on the reversed digits: [k] digits have been
    emitted since the last separator. *)
Fixpoint group_rev (k : nat) (rdigits : string) : string :=
  match rdigits with
  | EmptyString => EmptyString
  | String c s' =>
      match k with
      | 3 => String "," (String c (group_rev 1 s'))
      | _ => String c (group_rev (S k) s')
      end
  end.

Definition group_thousands (digits : string) : string :=
  Str.rev (group_rev 0 (Str.rev digits)).

Definition format_comma_2f (x : float64) : string :=
  match x with
  | FNan => "nan"
  | FInf neg => (if neg then "-" else "") ++ "inf"
  | FFin neg mag =>
      let c := cents mag in
      (if neg then "-" else "")
        ++ group_thousands (dec_of_Z (c / 100))
        ++ "." ++ two_digits (c mod 100)
  end.

End Float.
Export Float.

(* ================================================================== *)
(** ** Python values, exceptions and results *)

Module Py.

#[warnings="-register-all"]
Inductive pyval : Type :=
| VNone
| VBool (b : bool)
| VInt (z : Z)
| VFloat (f : float64)
| VStr (s : string)
| VList (l : list pyval)
| VDict (d : list (string * pyval)).

(** A [dict] with [str] keys, in insertion order. *)
Definition dict : Type := list (string * pyval).

(** The exception classes the program can meet. *)
Inductive exn : Type :=
| IOError                       (* alias of OSError *)
| JSONDecodeError
| CsvError
| KeyError (key : string)
| TypeError
| ValueError
| UnicodeDecodeError            (* a ValueError, not a JSONDecodeError *)
| AttributeError
| OverflowError
| IndexError
| EOFError
| RuntimeError (what : string). (* anything else deriving from Exception *)

Inductive result (A : Type) : Type :=
| Ok (a : A)
| Raise (e : exn).
Arguments Ok {A} a.
Arguments Raise {A} e.

Definition bind {A B : Type} (r : result A) (k : A -> result B) : result B :=
  match r with
  | Ok a => k a
  | Raise e => Raise e
  end.

(** [d.get(key)], as an option *)
Fixpoint dict_find (d : dict) (key : string) : option pyval :=
  match d with
  | [] => None
  | (k, v) :: d' => if k =? key then Some v else dict_find d' key
  end.

(** [d.get(key, default)] *)
Definition dict_get (d : dict) (key : string) (default : pyval) : pyval :=
  match dict_find d key with
  | Some v => v
  | None => default
  end.

(** [float(v)] *)
Definition py_float (v : pyval) : result float64 :=
  match v with
  | VNone => Raise TypeError
  | VBool b => Ok (FFin false (if b then Z.to_N unit_scale else 0%N))
  | VInt z =>
      match Float.of_int z with
      | Some f => Ok f
      | None => Raise OverflowError
      end
  | VFloat f => Ok f
  | VStr s =>
      match Float.of_string s with
      | Some f => Ok f
      | None => Raise ValueError
      end
  | VList _ | VDict _ => Raise TypeError
  end.

(** [sys.int_max_str_digits], at its default. *)
Definition max_str_digits : Z := 4300.

(** [int(s)] for a [str], base 10: white space around, an optional
    sign, digits with single underscores between them, no more than
    [max_str_digits] of them.  [None] stands for [ValueError]. *)
Definition py_int (s : string) : option Z :=
  match Unicode.ascii_form s with
  | None => None
  | Some text =>
      let '(neg, body) := Float.sign_part (Str.trim text) in
      match Float.digit_part body with
      | Some (v, n, EmptyString) =>
          if (Z.of_nat n <=? max_str_digits)%Z
          then Some (if neg then (- v)%Z else v)
          else None
      | _ => None
      end
  end.

(** What a [for] loop over [v] visits; [None] stands for the
    [TypeError] of a value that is not iterable.  A [str] yields its
    characters and a [dict] its keys. *)
Definition chars (s : string) : list pyval :=
  List.map VStr (Unicode.chars s).

Definition py_iter (v : pyval) : option (list pyval) :=
  match v with
  | VList l => Some l
  | VStr s => Some (chars s)
  | VDict d => Some (map (fun kv => VStr (fst kv)) d)
  | VNone | VBool _ | VInt _ | VFloat _ => None
  end.

(** The key under which a value is filed in a [dict]: values that
    compare equal (and so hash alike) share a key, [True == 1 == 1.0].
    Lists and dicts are unhashable.  The NaN that [json.load] yields is
    one object, found again by identity. *)
Inductive hkey : Type :=
| KNone
| KNum (units : Z)
| KInf (neg : bool)
| KNan
| KStr (s : string).

Definition hash_key (v : pyval) : option hkey :=
  match v with
  | VNone => Some KNone
  | VBool b => Some (KNum (if b then unit_scale else 0%Z))
  | VInt z => Some (KNum (z * unit_scale)%Z)
  | VFloat (FFin neg mag) => Some (KNum (Float.units neg mag))
  | VFloat (FInf neg) => Some (KInf neg)
  | VFloat FNan => Some KNan
  | VStr s => Some (KStr s)
  | VList _ | VDict _ => None
  end.

Definition hkey_eqb (a b : hkey) : bool :=
  match a, b with
  | KNone, KNone => true
  | KNum x, KNum y => (x =? y)%Z
  | KInf x, KInf y => Bool.eqb x y
  | KNan, KNan => true
  | KStr x, KStr y => (x =? y)%string
  | _, _ => false
  end.

End Py.
Export Py.

Notation "x <- r ;; k" := (Py.bind r (fun x => k))
  (at level 61, r at next level, right associativity).

(* ================================================================== *)
(** ** Console output: one constructor per [print] or [input] prompt *)

Inductive msg : Type :=
  (* load_data *)
| MLoadError (file : string) (e : exn)
  (* select_records *)
| MSelectHeader
| MNoRecords
| MRecordLine (i : nat) (invoice_id customer_name : pyval)
| MSelectHelp
| MChoicePrompt
| MEmptyChoice
| MInvalidNumbers (numbers : string) (available : nat)
| MNothingSelected
| MNotNumbers
  (* main *)
| MStartGeneration
| MTempSaveError (e : exn)
| MCreated (dir name : string)
| MPdfError (invoice_id : string) (e : exn)
| MDone
| MOpenPrompt
| MNoneGenerated.

(* ================================================================== *)
(** ** [load_data] *)

Module Loader.

(** One invoice under construction: the dict built at the first row of
    an id, whose ["items"] list later rows append to. *)
Record invoice : Type := {
  inv_id : pyval;
  inv_customer : pyval;
  inv_date : pyval;
  inv_items : list pyval
}.

(** The [invoices] dict: keys in order of first insertion. *)
Definition invoices : Type := list (hkey * invoice).

Fixpoint has_key (k : hkey) (m : invoices) : bool :=
  match m with
  | [] => false
  | (k', _) :: m' => hkey_eqb k k' || has_key k m'
  end.

(** [invoices[k]["items"] += new_items] (in place) *)
Fixpoint add_items (k : hkey) (new_items : list pyval) (m : invoices)
  : invoices :=
  match m with
  | [] => []
  | (k', inv) :: m' =>
      if hkey_eqb k k'
      then (k', {| inv_id := inv_id inv;
                   inv_customer := inv_customer inv;
                   inv_date := inv_date inv;
                   inv_items := (inv_items inv ++ new_items)%list |}) :: m'
      else (k', inv) :: add_items k new_items m'
  end.

(** The line item of a flat row. *)
Definition flat_item (row : dict) : pyval :=
  VDict [ ("item_name", dict_get row "item_name" VNone);
          ("quantity", dict_get row "quantity" (VInt 1));
          ("price", dict_get row "price" (VInt 0));
          ("amount", dict_get row "amount" (VInt 0)) ].

(** [if invoice_id not in invoices: invoices[invoice_id] = {...}] *)
Definition ensure (k : hkey) (invoice_id : pyval) (row : dict)
                  (m : invoices) : invoices :=
  if has_key k m then m
  else (m ++ [(k, {| inv_id := invoice_id;
                    inv_customer := dict_get row "customer_name" VNone;
                    inv_date := dict_get row "date" VNone;
                    inv_items := [] |})])%list.

(** What one source row contributes to its invoice.  [nested] is the
    JSON mode, where a list under ["items"] is taken as it is. *)
Definition contribution (nested : bool) (row : dict) : list pyval :=
  if nested then
    match dict_find row "items" with
    | Some (VList l) => l
    | _ => [flat_item row]
    end
  else [flat_item row].

(** The body of either [for] loop, for a row that is a dict. *)
Definition step_row (nested : bool) (row : dict) (m : invoices)
  : result invoices :=
  match dict_find row "invoice_id" with
  | None => Raise (KeyError "invoice_id")
  | Some invoice_id =>
      match hash_key invoice_id with
      | None => Raise TypeError
      | Some k =>
          Ok (add_items k (contribution nested row)
                        (ensure k invoice_id row m))
      end
  end.

(** The body of the JSON loop, for whatever [data] yields:
    [record["invoice_id"]] needs a dict. *)
Definition step_json (record : pyval) (m : invoices) : result invoices :=
  match record with
  | VDict d => step_row true d m
  | _ => Raise TypeError
  end.

Fixpoint run_csv (rows : list dict) (m : invoices) : result invoices :=
  match rows with
  | [] => Ok m
  | row :: rows' => m' <- step_row false row m ;; run_csv rows' m'
  end.

Fixpoint run_json (records : list pyval) (m : invoices) : result invoices :=
  match records with
  | [] => Ok m
  | r :: records' => m' <- step_json r m ;; run_json records' m'
  end.

Definition invoice_dict (inv : invoice) : dict :=
  [ ("invoice_id", inv_id inv);
    ("customer_name", inv_customer inv);
    ("date", inv_date inv);
    ("items", VList (inv_items inv)) ].

(** [list(invoices.values())] *)
Definition values (m : invoices) : list dict :=
  map (fun kv => invoice_dict (snd kv)) m.

(** A row as [csv.DictReader] yields it: each header field mapped to
    the cell text, or to [None] where the line was too short. *)
Definition csv_row : Type := list (string * option string).

Definition cell (c : option string) : pyval :=
  match c with
  | Some s => VStr s
  | None => VNone
  end.

Definition row_dict (r : csv_row) : dict :=
  map (fun kc => (fst kc, cell (snd kc))) r.

(** The file behind [file_path], as the libraries present it. *)
Record data_file : Type := {
  file_name : string;
  file_suffix : string;
  (** the exception of [file_path.open], if it fails *)
  open_error : option exn;
  (** the rows the reader yields, then the exception that ends the
      iteration early, if any *)
  csv_rows : list csv_row;
  csv_error : option exn;
  (** what [json.load] returns or raises *)
  json_value : result pyval
}.

(** [except (IOError, json.JSONDecodeError, csv.Error, KeyError)] *)
Definition handled (e : exn) : bool :=
  match e with
  | IOError | JSONDecodeError | CsvError | KeyError _ => true
  | _ => false
  end.

(** The [try] body: [Ok None] is falling off the end. *)
Definition load_body (f : data_file) : result (option (list dict)) :=
  match open_error f with
  | Some e => Raise e
  | None =>
      if file_suffix f =? ".csv" then
        m <- run_csv (map row_dict (csv_rows f)) [] ;;
        match csv_error f with
        | Some e => Raise e
        | None => Ok (Some (values m))
        end
      else if file_suffix f =? ".json" then
        data <- json_value f ;;
        match py_iter data with
        | None => Raise TypeError
        | Some records =>
            m <- run_json records [] ;; Ok (Some (values m))
        end
      else Ok None
  end.

(** [load_data(file_path)]: what is printed, and what is returned or
    raised. *)
Definition load_data (f : data_file)
  : list msg * result (option (list dict)) :=
  match load_body f with
  | Ok r => ([], Ok r)
  | Raise e =>
      if handled e then ([MLoadError (file_name f) e], Ok None)
      else ([], Raise e)
  end.

End Loader.
Export Loader.

(* ================================================================== *)
(** ** [select_records] *)

Module Selection.

(** A run of an interactive function: what it printed, what it
    returned or raised, and the typed lines it left unread. *)
Record run (A : Type) : Type := {
  printed : list msg;
  outcome : result A;
  unread : list string
}.
Arguments printed {A} r.
Arguments outcome {A} r.
Arguments unread {A} r.

Definition say {A : Type} (ms : list msg) (r : run A) : run A :=
  {| printed := (ms ++ printed r)%list; outcome := outcome r; unread := unread r |}.

(** The numbered list shown before the prompt. *)
Fixpoint record_lines (i : nat) (records : list dict) : list msg :=
  match records with
  | [] => []
  | r :: rs =>
      MRecordLine i (dict_get r "invoice_id" (VStr "N/A"))
                    (dict_get r "customer_name" (VStr "N/A"))
        :: record_lines (S i) rs
  end.

(** [[int(item.strip()) - 1 for item in choice.split(',')]]; [None]
    stands for the [ValueError] of the first token that is no number. *)
Fixpoint indices_of (tokens : list string) : option (list Z) :=
  match tokens with
  | [] => Some []
  | t :: ts =>
      match py_int (Str.strip t) with
      | None => None
      | Some n =>
          match indices_of ts with
          | None => None
          | Some l => Some ((n - 1)%Z :: l)
          end
      end
  end.

Definition in_range (n : nat) (index : Z) : bool :=
  ((0 <=? index) && (index <? Z.of_nat n))%Z.

(** The loop that sorts indices into [valid_indices] and
    [invalid_numbers]. *)
Fixpoint classify (n : nat) (selected : list Z) : list Z * list string :=
  match selected with
  | [] => ([], [])
  | index :: rest =>
      let '(valid, invalid) := classify n rest in
      if in_range n index then (index :: valid, invalid)
      else (valid, Float.dec_of_Z (index + 1) :: invalid)
  end.

(** [sorted(list(set(l)))]: the distinct members in ascending order. *)
Fixpoint insert_new (x : Z) (l : list Z) : list Z :=
  match l with
  | [] => [x]
  | y :: l' =>
      if (x <? y)%Z then x :: l
      else if (x =? y)%Z then l
      else y :: insert_new x l'
  end.

Definition sorted_set (l : list Z) : list Z :=
  fold_right insert_new [] l.

(** [[records[i] for i in idx]]; [None] stands for [IndexError]. *)
Fixpoint pick (records : list dict) (idx : list Z) : option (list dict) :=
  match idx with
  | [] => Some []
  | i :: idx' =>
      match nth_error records (Z.to_nat i), pick records idx' with
      | Some r, Some rs => Some (r :: rs)
      | _, _ => None
      end
  end.

(** The [while True] loop, one typed line per round. *)
Fixpoint choose (records : list dict) (inputs : list string)
  : run (list dict) :=
  match inputs with
  | [] => {| printed := [MChoicePrompt]; outcome := Raise EOFError;
             unread := [] |}
  | line :: rest =>
      let choice := Str.lower (Str.strip line) in
      if choice =? "all"
      then {| printed := [MChoicePrompt]; outcome := Ok records;
              unread := rest |}
      else if choice =? ""
      then say [MChoicePrompt; MEmptyChoice] (choose records rest)
      else
        match indices_of (Str.split "," choice) with
        | None => say [MChoicePrompt; MNotNumbers] (choose records rest)
        | Some selected_indices =>
            let '(valid_indices, invalid_numbers) :=
              classify (length records) selected_indices in
            match invalid_numbers with
            | _ :: _ =>
                say [MChoicePrompt;
                     MInvalidNumbers (Str.join ", " invalid_numbers)
                                     (length records)]
                    (choose records rest)
            | [] =>
                match pick records (sorted_set valid_indices) with
                | None => {| printed := [MChoicePrompt];
                             outcome := Raise IndexError;
                             unread := rest |}
                | Some [] =>
                    say [MChoicePrompt; MNothingSelected]
                        (choose records rest)
                | Some selected_records =>
                    {| printed := [MChoicePrompt];
                       outcome := Ok selected_records;
                       unread := rest |}
                end
            end
        end
  end.

(** [select_records(records)], reading from [inputs]. *)
Definition select_records (records : list dict) (inputs : list string)
  : run (list dict) :=
  match records with
  | [] => {| printed := [MSelectHeader; MNoRecords]; outcome := Ok [];
             unread := inputs |}
  | _ =>
      say (MSelectHeader :: record_lines 1 records ++ [MSelectHelp])%list
          (choose records inputs)
  end.

End Selection.
Export Selection.

(* ================================================================== *)
(** ** [generate_html] *)

Module Renderer.

Definition tok_invoice_id : string := "{{ invoice_id }}".
Definition tok_customer_name : string := "{{ customer_name }}".
Definition tok_date : string := "{{ date }}".
Definition tok_item_rows : string := "{{ item_rows }}".
Definition tok_total_amount : string := "{{ total_amount }}".

Definition newline : string := String (ascii_of_nat 10) "".

Section WithRepr.

(** The text Python gives a float, a list or a dict ([repr]) is the
    interpreter's business; the program only passes it on. *)
Variable repr_opaque : pyval -> string.

(** [str(v)], which is also [format(v, "")] *)
Definition py_str (v : pyval) : string :=
  match v with
  | VNone => "None"
  | VBool true => "True"
  | VBool false => "False"
  | VInt z => Float.dec_of_Z z
  | VStr s => s
  | VFloat _ | VList _ | VDict _ => repr_opaque v
  end.

Definition td (v : pyval) : string := "<td>" ++ py_str v ++ "</td>".

(** The body of the loop over the items.  The state is
    [(item_rows, total_amount)]; the total starts as the int [0],
    which the first float added turns into [0.0 + x], and formats
    like [0.0] if nothing is added. *)
Definition item_step (st : string * float64) (item : pyval)
  : result (string * float64) :=
  match item with
  | VDict d =>
      let item_rows :=
        ((((((fst st ++ "<tr>")
               ++ td (dict_get d "item_name" (VStr "")))
              ++ td (dict_get d "quantity" (VInt 0)))
             ++ td (dict_get d "price" (VInt 0)))
            ++ td (dict_get d "amount" (VInt 0)))
           ++ "</tr>" ++ newline) in
      match py_float (dict_get d "amount" (VInt 0)) with
      | Ok x => Ok (item_rows, Float.add (snd st) x)
      | Raise ValueError | Raise TypeError => Ok (item_rows, snd st)
      | Raise e => Raise e
      end
  | _ => Raise AttributeError   (* item.get on a non-dict *)
  end.

Fixpoint item_loop (st : string * float64) (items : list pyval)
  : result (string * float64) :=
  match items with
  | [] => Ok st
  | item :: items' => st' <- item_step st item ;; item_loop st' items'
  end.

(** [(item_rows, total_amount)] once the loop is over. *)
Definition render_items (record : dict) : result (string * float64) :=
  match py_iter (dict_get record "items" (VList [])) with
  | None => Raise TypeError
  | Some items => item_loop ("", Float.zero) items
  end.

(** [f"{total_amount:,.2f}".replace(",", " ")] *)
Definition total_text (total_amount : float64) : string :=
  Str.replace "," " " (Float.format_comma_2f total_amount).

(** The three header substitutions. *)
Definition fill_header (template_content : string) (record : dict)
  : string :=
  let content := template_content in
  let content :=
    Str.replace tok_invoice_id
                (py_str (dict_get record "invoice_id" (VStr ""))) content in
  let content :=
    Str.replace tok_customer_name
                (py_str (dict_get record "customer_name" (VStr ""))) content in
  let content :=
    Str.replace tok_date
                (py_str (dict_get record "date" (VStr ""))) content in
  content.

Definition generate_html (template_content : string) (record : dict)
  : result string :=
  let content := fill_header template_content record in
  st <- render_items record ;;
  let content := Str.replace tok_item_rows (fst st) content in
  let content := Str.replace tok_total_amount (total_text (snd st)) content in
  Ok content.

End WithRepr.

End Renderer.
Export Renderer.

(* ================================================================== *)
(** ** The export loop of [main] *)

Module Pipeline.

(** What the world does to one pass through the loop body. *)
Inductive fate : Type :=
| WriteRaises (e : exn)     (* temp_html_path.write_text raises *)
| RenderRaises (e : exn)    (* HTML(...).write_pdf raises *)
| Produced.

(** A path below one of the working directories. *)
Definition path : Type := (string * string)%type.

Section WithRepr.

Variable repr_opaque : pyval -> string.

Definition temp_name (invoice_id : pyval) (template_name : string)
  : string :=
  py_str repr_opaque invoice_id ++ "_" ++ template_name ++ ".html".

Definition pdf_filename (invoice_id : pyval) (template_name : string)
  : string :=
  "(" ++ py_str repr_opaque invoice_id ++ ")_" ++ template_name ++ ".pdf".

Definition prepend (ms : list msg) (r : list msg * result (list path))
  : list msg * result (list path) :=
  ((ms ++ fst r)%list, snd r).

(** [for record in selected_records: ...]; [fates] gives the fate of
    each pass in turn and [generated_files] is the list so far. *)
Fixpoint export_loop (template_name template_content : string)
         (selected_records : list dict) (fates : list fate)
         (generated_files : list path)
  : list msg * result (list path) :=
  match selected_records with
  | [] => ([], Ok generated_files)
  | record :: records' =>
      let invoice_id := dict_get record "invoice_id" (VStr "unknown") in
      let fate_now := hd Produced fates in
      let later := tl fates in
      match generate_html repr_opaque template_content record with
      | Raise e => ([], Raise e)
      | Ok html_content =>
          match fate_now with
          | WriteRaises IOError =>
              prepend [MTempSaveError IOError]
                (export_loop template_name template_content records'
                             later generated_files)
          | WriteRaises e => ([], Raise e)
          | RenderRaises e =>
              prepend [MPdfError (py_str repr_opaque invoice_id) e]
                (export_loop template_name template_content records'
                             later generated_files)
          | Produced =>
              let output_pdf_path :=
                ("output", pdf_filename invoice_id template_name) in
              prepend [MCreated (fst output_pdf_path) (snd output_pdf_path)]
                (export_loop template_name template_content records'
                             later (generated_files ++ [output_pdf_path])%list)
          end
      end
  end.

(** Step 6 of [main]: the closing report, and the file handed to
    [open_file], if any. *)
Definition closing (generated_files : list path) (inputs : list string)
  : list msg * result (option path) :=
  match generated_files with
  | first :: _ =>
      match inputs with
      | [] => ([MDone; MOpenPrompt], Raise EOFError)
      | answer :: _ =>
          ([MDone; MOpenPrompt],
           Ok (if Str.lower answer =? "y" then Some first else None))
      end
  | [] => ([MNoneGenerated], Ok None)
  end.

(** Steps 4 to 6 of [main]. *)
Definition main_export (template_name template_content : string)
           (selected_records : list dict) (fates : list fate)
           (inputs : list string)
  : list msg * result (list path * option path) :=
  let '(out, r) :=
    export_loop template_name template_content selected_records fates [] in
  match r with
  | Raise e => (MStartGeneration :: out, Raise e)
  | Ok generated_files =>
      let '(out', opened) := closing generated_files inputs in
      ((MStartGeneration :: out ++ out')%list,
       o <- opened ;; Ok (generated_files, o))
  end.

End WithRepr.

End Pipeline.
Export Pipeline.

(* ================================================================== *)
(** ** [select_item] *)

Module ItemChoice.

(** What [select_item] prints or prompts. *)
Inductive item_msg : Type :=
| IHeader (title : string)
| INoFiles
| ILine (i : nat) (shown : string)
| IPrompt (n : nat)
| IBadNumber
| INotNumber.

(** A run of [select_item]: what it printed, what it returned or
    raised, and the typed lines it left unread. *)
Record session (A : Type) : Type := {
  shown : list item_msg;
  answer : result A;
  left_over : list string
}.
Arguments shown {A} s.
Arguments answer {A} s.
Arguments left_over {A} s.

Definition tell {A : Type} (ms : list item_msg) (s : session A) : session A :=
  {| shown := (ms ++ shown s)%list; answer := answer s;
     left_over := left_over s |}.

Section WithItems.

(** The items are paths; [show] is their [str]. *)
Variable A : Type.
Variable show : A -> string.

Fixpoint item_lines (i : nat) (items : list A) : list item_msg :=
  match items with
  | [] => []
  | item :: items' => ILine i (show item) :: item_lines (S i) items'
  end.

(** The [while True] loop, one typed line per round. *)
Fixpoint ask (items : list A) (inputs : list string) : session A :=
  match inputs with
  | [] => {| shown := [IPrompt (length items)]; answer := Raise EOFError;
             left_over := [] |}
  | line :: rest =>
      match py_int line with
      | None => tell [IPrompt (length items); INotNumber] (ask items rest)
      | Some choice =>
          if ((1 <=? choice) && (choice <=? Z.of_nat (length items)))%Z
          then {| shown := [IPrompt (length items)];
                  answer :=
                    match nth_error items (Z.to_nat (choice - 1)) with
                    | Some item => Ok item
                    | None => Raise IndexError
                    end;
                  left_over := rest |}
          else tell [IPrompt (length items); IBadNumber] (ask items rest)
      end
  end.

(** [select_item(items, title)], reading from [inputs]; [Ok None] is the
    [None] returned for an empty list. *)
Definition select_item (items : list A) (title : string)
           (inputs : list string) : session (option A) :=
  match items with
  | [] => {| shown := [IHeader title; INoFiles]; answer := Ok None;
             left_over := inputs |}
  | _ =>
      let s := ask items inputs in
      {| shown := (IHeader title :: item_lines 1 items ++ shown s)%list;
         answer := (x <- answer s ;; Ok (Some x));
         left_over := left_over s |}
  end.

(** The complaint a rejected line draws. *)
Definition complaint (line : string) : item_msg :=
  match py_int line with
  | None => INotNumber
  | Some _ => IBadNumber
  end.

(** The line does not name one of [n] items. *)
Definition misread (n : nat) (line : string) : Prop :=
  match py_int line with
  | None => True
  | Some k => ~ (1 <= k <= Z.of_nat n)%Z
  end.

End WithItems.

End ItemChoice.

(* ================================================================== *)
(** ** [find_files], [open_file] and [main] *)

Module Program.

(** [find_files(directory, extensions)]; [rglob directory pattern] is
    what [Path(directory).rglob(pattern)] yields. *)
Definition find_files {A : Type} (rglob : string -> string -> list A)
           (directory : string) (extensions : list string) : list A :=
  flat_map (fun ext => rglob directory ("*." ++ ext)) extensions.

(** How [open_file] hands a path to the system. *)
Inductive launcher : Type :=
| Startfile                 (* os.startfile(path) *)
| Run (command : string).   (* subprocess.run([command, path], check=True) *)

Definition launcher_for (system : string) : launcher :=
  if system =? "Windows" then Startfile
  else if system =? "Darwin" then Run "open"
  else Run "xdg-open".

(** What becomes of the launch. *)
Inductive launch_outcome : Type :=
| Launched
| LaunchOSError
| LaunchCalledProcessError
| LaunchRaises (e : exn).   (* anything the handler does not list *)

(** A template file: its path, its stem, and what [read_text] gives. *)
Record template_file : Type := {
  tpl_path : string;
  tpl_stem : string;
  tpl_text : result string
}.

(** What [main] prints, by origin. *)
Inductive main_msg : Type :=
| FromItem (m : ItemChoice.item_msg)   (* select_item *)
| FromCore (m : msg)                   (* load_data, select_records, export *)
| MLoadFailed
| MTemplateError (template : string) (e : exn)
| MNoSelection
| MOpenFailed (file : path) (what : launch_outcome).

(** The surroundings of one run. *)
Record world : Type := {
  (** the exception of a [mkdir] in [setup_directories], if any *)
  mkdir_error : option exn;
  rglob_data : string -> string -> list data_file;
  rglob_templates : string -> string -> list template_file;
  (** the fate of each pass of the export loop *)
  fates : list fate;
  (** [platform.system()] *)
  system : string;
  launch : launcher -> path -> launch_outcome
}.

(** [open_file(path)]: what is printed, and whether it raises. *)
Definition open_file (w : world) (file : path)
  : list main_msg * result unit :=
  match launch w (launcher_for (system w)) file with
  | Launched => ([], Ok tt)
  | LaunchOSError => ([MOpenFailed file LaunchOSError], Ok tt)
  | LaunchCalledProcessError =>
      ([MOpenFailed file LaunchCalledProcessError], Ok tt)
  | LaunchRaises e => ([], Raise e)
  end.

(** The titles [main] gives the two menus. *)
Definition title_data : string := "Выберите файл с данными".
Definition title_template : string := "Выберите HTML-шаблон".

(** The outcome of [main]: what it printed; the files it produced and
    the file it handed to [open_file], or the exception that ended it. *)
Record main_run : Type := {
  said : list main_msg;
  ended : result (list path * option path)
}.

Definition stop (ms : list main_msg) : main_run :=
  {| said := ms; ended := Ok ([], None) |}.

Definition fail (ms : list main_msg) (e : exn) : main_run :=
  {| said := ms; ended := Raise e |}.

Section WithRepr.
Variable repr_opaque : pyval -> string.

(** Steps 4 to 6, once records are selected. *)
Definition main_finish (w : world) (template : template_file)
           (template_content : string) (selected_records : list dict)
           (inputs : list string) (before : list main_msg) : main_run :=
  let '(out, r) :=
    main_export repr_opaque (tpl_stem template) template_content
                selected_records (fates w) inputs in
  let printed_so_far := (before ++ map FromCore out)%list in
  match r with
  | Raise e => fail printed_so_far e
  | Ok (generated_files, None) =>
      {| said := printed_so_far; ended := Ok (generated_files, None) |}
  | Ok (generated_files, Some first) =>
      let '(out', opened) := open_file w first in
      match opened with
      | Raise e => fail (printed_so_far ++ out')%list e
      | Ok _ =>
          {| said := (printed_so_far ++ out')%list;
             ended := Ok (generated_files, Some first) |}
      end
  end.

(** [main()], reading from [inputs]. *)
Definition main (w : world) (inputs : list string) : main_run :=
  match mkdir_error w with
  | Some e => fail [] e
  | None =>
  (* 1. the data *)
  let data_files := find_files (rglob_data w) "data" ["csv"; "json"] in
  let s1 := ItemChoice.select_item data_file file_name data_files
                                   title_data inputs in
  let said1 := map FromItem (ItemChoice.shown s1) in
  match ItemChoice.answer s1 with
  | Raise e => fail said1 e
  | Ok None => stop said1
  | Ok (Some data_file_path) =>
  let '(out2, loaded) := load_data data_file_path in
  let said2 := (said1 ++ map FromCore out2)%list in
  match loaded with
  | Raise e => fail said2 e
  | Ok None | Ok (Some []) => stop (said2 ++ [MLoadFailed])%list
  | Ok (Some records) =>
  (* 2. the template *)
  let template_files :=
    find_files (rglob_templates w) "templates" ["html"] in
  let s3 := ItemChoice.select_item template_file tpl_path template_files
                                   title_template (ItemChoice.left_over s1) in
  let said3 := (said2 ++ map FromItem (ItemChoice.shown s3))%list in
  match ItemChoice.answer s3 with
  | Raise e => fail said3 e
  | Ok None => stop said3
  | Ok (Some template_file_path) =>
  match tpl_text template_file_path with
  | Raise IOError =>
      stop (said3 ++ [MTemplateError (tpl_path template_file_path) IOError])%list
  | Raise e => fail said3 e
  | Ok template_content =>
  (* 3. the records *)
  let s4 := select_records records (ItemChoice.left_over s3) in
  let said4 := (said3 ++ map FromCore (printed s4))%list in
  match outcome s4 with
  | Raise e => fail said4 e
  | Ok [] => stop (said4 ++ [MNoSelection])%list
  | Ok selected_records =>
  (* 4 to 6. HTML, PDF, opening *)
  main_finish w template_file_path template_content selected_records
              (unread s4) said4
  end end end end end
  end.

End WithRepr.

End Program.

(* ================================================================== *)
(** ** Vocabulary of the statements about the loader *)

Module Grouping.

(** The dict key of a row's (or a record's) [invoice_id]. *)
Definition row_key (row : dict) : option hkey :=
  match dict_find row "invoice_id" with
  | Some v => hash_key v
  | None => None
  end.

(** The row has an [invoice_id] that can serve as a dict key. *)
Definition keyed (row : dict) : Prop := row_key row <> None.

(** The row's [invoice_id] is, as a dict key, [k]. *)
Definition same_key (k : hkey) (row : dict) : bool :=
  match row_key row with
  | Some k' => hkey_eqb k k'
  | None => false
  end.

(** The rows of one invoice, in source order. *)
Definition rows_of (k : hkey) (rows : list dict) : list dict :=
  filter (same_key k) rows.

(** A JSON object without a list under ["items"]. *)
Definition flat (row : dict) : Prop :=
  match dict_find row "items" with
  | Some (VList _) => False
  | _ => True
  end.

(** The entry of [k] in the [invoices] dict. *)
Fixpoint find (k : hkey) (m : invoices) : option invoice :=
  match m with
  | [] => None
  | (k', inv) :: m' => if hkey_eqb k k' then Some inv else find k m'
  end.

(** [invoices] after the rows [done]: one entry per key met, filed
    under the key of its own [invoice_id], holding what the rows of
    that key contribute, in order. *)
Definition grouped (nested : bool) (done : list dict) (m : invoices)
  : Prop :=
  NoDup (map fst m)
  /\ (forall k inv, In (k, inv) m -> hash_key (inv_id inv) = Some k)
  /\ (forall k,
         match rows_of k done with
         | [] => find k m = None
         | mine =>
             exists inv,
               find k m = Some inv
               /\ inv_items inv = flat_map (contribution nested) mine
         end).

(** An entry with further items appended. *)
Definition extend (c : list pyval) (inv : invoice) : invoice :=
  {| inv_id := inv_id inv;
     inv_customer := inv_customer inv;
     inv_date := inv_date inv;
     inv_items := (inv_items inv ++ c)%list |}.

(** Either loop, over rows that are dicts. *)
Fixpoint run_rows (nested : bool) (rows : list dict) (m : invoices)
  : result invoices :=
  match rows with
  | [] => Ok m
  | row :: rows' => m' <- step_row nested row m ;; run_rows nested rows' m'
  end.

(** The failures of reading and parsing that [load_data] reports: the
    file cannot be opened or read, the CSV reader or the JSON parser
    rejects the syntax, or a row (an object, in an array of objects
    whose earlier members were in order) has no [invoice_id]. *)
Definition reported_failure (f : data_file) : Prop :=
  open_error f = Some IOError
  \/ (open_error f = None /\ file_suffix f = ".csv"
      /\ (csv_error f = Some CsvError
          \/ csv_error f = Some IOError
          \/ exists row, In row (csv_rows f)
                         /\ dict_find (row_dict row) "invoice_id" = None))
  \/ (open_error f = None /\ file_suffix f = ".json"
      /\ (json_value f = Raise JSONDecodeError
          \/ json_value f = Raise IOError
          \/ exists good d rest,
               json_value f = Ok (VList (map VDict good ++ VDict d :: rest))
               /\ Forall keyed good
               /\ dict_find d "invoice_id" = None)).

End Grouping.

(* ================================================================== *)
(** ** Vocabulary of further statements about the loader *)

Module Ledger.

(** The dict keys of the rows, in source order. *)
Definition keys_of (rows : list dict) : list hkey :=
  flat_map (fun row => match Grouping.row_key row with
                       | Some k => [k]
                       | None => []
                       end) rows.

(** Each key once, at the place of its first occurrence. *)
Fixpoint first_seen (ks : list hkey) : list hkey :=
  match ks with
  | [] => []
  | k :: ks' => k :: filter (fun k' => negb (hkey_eqb k' k)) (first_seen ks')
  end.

(** The line items of a record. *)
Definition record_items (r : dict) : list pyval :=
  match dict_find r "items" with
  | Some (VList l) => l
  | _ => []
  end.

(** The line items held in the [invoices] dict. *)
Definition held (m : invoices) : list pyval :=
  flat_map (fun kv => inv_items (snd kv)) m.

(** Every entry carries the header of the first row of its key. *)
Definition headed (done : list dict) (m : invoices) : Prop :=
  forall k,
    match Grouping.rows_of k done with
    | [] => True
    | first :: _ =>
        exists inv,
          Grouping.find k m = Some inv
          /\ Some (inv_id inv) = dict_find first "invoice_id"
          /\ inv_customer inv = dict_get first "customer_name" VNone
          /\ inv_date inv = dict_get first "date" VNone
    end.

(** The rows the loop of [load_data] visits in the file: those of the
    CSV reader, or the members of the JSON document. *)
Definition rows_read (f : data_file) (rows : list dict) : Prop :=
  (file_suffix f = ".csv" /\ rows = map row_dict (csv_rows f))
  \/ (file_suffix f = ".json"
      /\ exists data, json_value f = Ok data
                      /\ py_iter data = Some (map VDict rows)).

(** Whether the loop takes nested item lists: the JSON mode. *)
Definition nested_mode (f : data_file) : bool := file_suffix f =? ".json".

(** A JSON document that is not an array and over which the loop has
    something to visit or cannot iterate at all. *)
Definition not_iterable_as_rows (data : pyval) : Prop :=
  match data with
  | VList _ => False
  | VDict [] => False
  | VStr EmptyString => False
  | _ => True
  end.

(** The failures of reading and parsing that [load_data] does not
    report, with the exception each ends in: a file whose bytes are not
    UTF-8, met while reading, and a JSON document that is no array. *)
Definition unreported_failure (f : data_file) (e : exn) : Prop :=
  open_error f = None
  /\ ((e = UnicodeDecodeError
       /\ ((file_suffix f = ".csv"
            /\ Forall (fun row =>
                         dict_find (row_dict row) "invoice_id" <> None)
                      (csv_rows f)
            /\ csv_error f = Some UnicodeDecodeError)
           \/ (file_suffix f = ".json"
               /\ json_value f = Raise UnicodeDecodeError)))
      \/ (e = TypeError
          /\ file_suffix f = ".json"
          /\ exists data,
               json_value f = Ok data /\ not_iterable_as_rows data)).

End Ledger.

(* ================================================================== *)
(** ** Vocabulary of the statements about the selection *)

Module Choice.

(** The typed line, cut at the commas, reads as the numbers [ns]. *)
Definition reads_as (line : string) (ns : list Z) : Prop :=
  Forall2 (fun tok n => py_int (Str.strip tok) = Some n)
          (Str.split "," (Str.lower (Str.strip line))) ns.

(** The word [all], in any mix of upper and lower case. *)
Definition spells_all (w : string) : Prop :=
  In w ["all"; "alL"; "aLl"; "aLL"; "All"; "AlL"; "ALl"; "ALL"].

(** A 1-based number that names one of [n] records. *)
Definition in_bounds (n : nat) (x : Z) : bool :=
  ((1 <=? x) && (x <=? Z.of_nat n))%Z.

(** The 0-based positions picked by the numbers [ns]: distinct and
    ascending. *)
Definition positions (ns : list Z) : list Z :=
  sorted_set (map (fun n => (n - 1)%Z) ns).

(** What is shown before the first prompt. *)
Definition menu (records : list dict) : list msg :=
  (MSelectHeader :: record_lines 1 records ++ [MSelectHelp])%list.

End Choice.

(* ================================================================== *)
(** ** Vocabulary of the statements about the total *)

Module Money.

(** The amounts that take part in the sum: those of the items that
    [float] accepts. *)
Definition coerced (item : pyval) : list float64 :=
  match item with
  | VDict d =>
      match py_float (dict_get d "amount" (VInt 0)) with
      | Ok x => [x]
      | Raise _ => []
      end
  | _ => []
  end.

(** The sum, taken from left to right starting at zero. *)
Definition sum_of (items : list pyval) : float64 :=
  fold_left Float.add (flat_map coerced items) Float.zero.

(** The integer part read from its last digit backwards: groups of
    three digits parted by one space, a last group of one to three
    digits, then possibly the minus sign.  [k] digits of the current
    group have been read. *)
Fixpoint groups_rev (k : nat) (s : string) : bool :=
  match s with
  | EmptyString => (1 <=? k)%nat
  | String c s' =>
      if Str.is_digit c then (k <? 3)%nat && groups_rev (S k) s'
      else if Ascii.eqb c " " then (k =? 3)%nat && groups_rev 0 s'
      else if Ascii.eqb c "-" then (1 <=? k)%nat && (s' =? "")
      else false
  end.

(** Exactly two decimals behind a point, and an integer part grouped
    in thousands by spaces. *)
Definition well_formed (s : string) : bool :=
  match Str.rev s with
  | String d2 (String d1 (String "." g)) =>
      Str.is_digit d2 && Str.is_digit d1 && groups_rev 0 g
  | _ => false
  end.

End Money.

(* ================================================================== *)
(** ** Vocabulary of the statements about templates *)

Module Template.

(** The five placeholders. *)
Inductive placeholder : Type :=
| PInvoiceId | PCustomerName | PDate | PItemRows | PTotalAmount.

Definition token (p : placeholder) : string :=
  match p with
  | PInvoiceId => tok_invoice_id
  | PCustomerName => tok_customer_name
  | PDate => tok_date
  | PItemRows => tok_item_rows
  | PTotalAmount => tok_total_amount
  end.

Definition placeholder_eqb (p q : placeholder) : bool :=
  match p, q with
  | PInvoiceId, PInvoiceId | PCustomerName, PCustomerName
  | PDate, PDate | PItemRows, PItemRows
  | PTotalAmount, PTotalAmount => true
  | _, _ => false
  end.

Definition all_placeholders : list placeholder :=
  [PInvoiceId; PCustomerName; PDate; PItemRows; PTotalAmount].

(** One string starts the other. *)
Definition comparable (u t : string) : bool := prefix u t || prefix t u.

(** No occurrence of [tok] can start inside [s], whatever follows
    [s]: no non-empty suffix of [s] starts [tok] or is started by it. *)
Fixpoint inert_for (tok s : string) : bool :=
  match s with
  | EmptyString => true
  | String _ s' => negb (comparable s tok) && inert_for tok s'
  end.

(** Text that cannot take part in any occurrence of a placeholder
    that starts inside it. *)
Definition inert (s : string) : bool :=
  List.forallb (fun p => inert_for (token p) s) all_placeholders.

(** A template cut into plain text and placeholders. *)
Inductive piece : Type :=
| Text (s : string)
| Hole (p : placeholder).

Definition piece_text (x : piece) : string :=
  match x with
  | Text s => s
  | Hole p => token p
  end.

Fixpoint flatten (ps : list piece) : string :=
  match ps with
  | [] => ""
  | x :: ps' => piece_text x ++ flatten ps'
  end.

(** Each placeholder replaced by its value, the text kept. *)
Fixpoint fill (value : placeholder -> string) (ps : list piece) : string :=
  match ps with
  | [] => ""
  | Text s :: ps' => s ++ fill value ps'
  | Hole p :: ps' => value p ++ fill value ps'
  end.

Definition text_inert (x : piece) : bool :=
  match x with
  | Text s => inert s
  | Hole _ => true
  end.

(** One placeholder replaced, the others left standing. *)
Definition fill_one (p : placeholder) (v : string) (x : piece) : piece :=
  match x with
  | Hole q => if placeholder_eqb p q then Text v else Hole q
  | Text s => Text s
  end.

Section Values.
Variable repr_opaque : pyval -> string.

(** What [generate_html] substitutes for each placeholder, given
    the outcome [(item_rows, total_amount)] of its loop. *)
Definition value_of (record : dict) (st : string * float64)
           (p : placeholder) : string :=
  match p with
  | PInvoiceId => py_str repr_opaque (dict_get record "invoice_id" (VStr ""))
  | PCustomerName =>
      py_str repr_opaque (dict_get record "customer_name" (VStr ""))
  | PDate => py_str repr_opaque (dict_get record "date" (VStr ""))
  | PItemRows => fst st
  | PTotalAmount => total_text (snd st)
  end.

(** The substitutions of [generate_html] from the date on, up to and
    including the one for [q]. *)
Definition steps_upto (record : dict) (st : string * float64)
           (q : placeholder) (s : string) : string :=
  let s3 := Str.replace tok_date (value_of record st PDate) s in
  let s4 := Str.replace tok_item_rows (value_of record st PItemRows) s3 in
  let s5 :=
    Str.replace tok_total_amount (value_of record st PTotalAmount) s4 in
  match q with
  | PInvoiceId | PCustomerName => s
  | PDate => s3
  | PItemRows => s4
  | PTotalAmount => s5
  end.

(** The substitutions that follow the one for [q]. *)
Definition steps_after (record : dict) (st : string * float64)
           (q : placeholder) (s : string) : string :=
  match q with
  | PDate =>
      Str.replace tok_total_amount (value_of record st PTotalAmount)
        (Str.replace tok_item_rows (value_of record st PItemRows) s)
  | PItemRows =>
      Str.replace tok_total_amount (value_of record st PTotalAmount) s
  | _ => s
  end.

(** The first two substitutions. *)
Definition steps_first (record : dict) (st : string * float64)
           (s : string) : string :=
  Str.replace tok_customer_name (value_of record st PCustomerName)
    (Str.replace tok_invoice_id (value_of record st PInvoiceId) s).
End Values.

(** The placeholders substituted after the customer name. *)
Definition later (q : placeholder) : bool :=
  match q with
  | PDate | PItemRows | PTotalAmount => true
  | _ => false
  end.

End Template.
Export Template.

(* ================================================================== *)
(** ** Vocabulary of further statements about the renderer *)

Module Rows.

(** An item the loop of [generate_html] gets past: a dict whose amount
    does not make [float] raise [OverflowError]. *)
Definition renderable (item : pyval) : Prop :=
  match item with
  | VDict d => py_float (dict_get d "amount" (VInt 0)) <> Raise OverflowError
  | _ => False
  end.

Section WithRepr.
Variable repr_opaque : pyval -> string.

(** The table row of one item. *)
Definition row_html (item : pyval) : string :=
  match item with
  | VDict d =>
      "<tr>" ++ td repr_opaque (dict_get d "item_name" (VStr ""))
             ++ td repr_opaque (dict_get d "quantity" (VInt 0))
             ++ td repr_opaque (dict_get d "price" (VInt 0))
             ++ td repr_opaque (dict_get d "amount" (VInt 0))
             ++ "</tr>" ++ newline
  | _ => ""
  end.
End WithRepr.

(** An item that adds nothing to the total: a dict whose amount makes
    [float] raise one of the two exceptions the loop catches. *)
Definition uncounted (item : pyval) : Prop :=
  match item with
  | VDict d =>
      py_float (dict_get d "amount" (VInt 0)) = Raise ValueError
      \/ py_float (dict_get d "amount" (VInt 0)) = Raise TypeError
  | _ => False
  end.

(** The strings of a list, one after the other. *)
Fixpoint concat_all (parts : list string) : string :=
  match parts with
  | [] => ""
  | p :: parts' => p ++ concat_all parts'
  end.

End Rows.

(* ================================================================== *)
(** ** Vocabulary of the statements about the export loop *)

Module Batch.

Section WithRepr.
Variable repr_opaque : pyval -> string.
Variable template_name : string.

Definition id_of (record : dict) : pyval :=
  dict_get record "invoice_id" (VStr "unknown").

(** The one line printed for a record, given its fate. *)
Definition report (rf : dict * fate) : msg :=
  match snd rf with
  | Produced =>
      MCreated "output" (pdf_filename repr_opaque (id_of (fst rf))
                                      template_name)
  | RenderRaises e => MPdfError (py_str repr_opaque (id_of (fst rf))) e
  | WriteRaises e => MTempSaveError e
  end.


End WithRepr.

(** A failure the loop survives: any exception of the renderer, and
    an [IOError] of the write. *)
Definition survivable (ft : fate) : Prop :=
  match ft with
  | WriteRaises e => e = IOError
  | _ => True
  end.

End Batch.

(* ================================================================== *)
(** ** Sample inputs *)

Module Samples.

Definition three_records : list dict :=
  [ [("invoice_id", VStr "a")]; [("invoice_id", VStr "b")];
    [("invoice_id", VStr "c")] ].

Definition csv_file : data_file :=
  {| file_name := "data/sales.csv"; file_suffix := ".csv";
     open_error := None;
     csv_rows := [ [("invoice_id", Some "A"); ("amount", Some "1")];
                   [("invoice_id", Some "B"); ("amount", Some "2")];
                   [("invoice_id", Some "A"); ("amount", Some "3")] ];
     csv_error := None;
     json_value := Raise JSONDecodeError |}.

Definition json_file (data : pyval) : data_file :=
  {| file_name := "data/sales.json"; file_suffix := ".json";
     open_error := None; csv_rows := []; csv_error := None;
     json_value := Ok data |}.

(** One object with a nested list of two items. *)
Definition nested_object : dict :=
  [ ("invoice_id", VStr "A");
    ("items", VList [VDict [("item_name", VStr "pen")];
                     VDict [("item_name", VStr "ink")]]) ].

(** One object with a nested list and item fields of its own. *)
Definition mixed_object : dict :=
  [ ("invoice_id", VStr "A"); ("item_name", VStr "ghost");
    ("amount", VStr "9");
    ("items", VList [VDict [("item_name", VStr "pen"); ("sku", VInt 7)]]) ].

(** An array whose second object has no [invoice_id]. *)
Definition headless : pyval :=
  VList [VDict [("invoice_id", VStr "A")];
         VDict [("customer_name", VStr "Bob")]].

Definition no_repr (_ : pyval) : string := "".

(** A CSV file whose bytes are not UTF-8: the reader raises on its
    first read. *)
Definition undecodable_file : data_file :=
  {| file_name := "data/latin1.csv"; file_suffix := ".csv";
     open_error := None; csv_rows := [];
     csv_error := Some UnicodeDecodeError;
     json_value := Raise JSONDecodeError |}.

(** A JSON document that is one object, without [invoice_id]. *)
Definition lone_object : pyval := VDict [("customer_name", VStr "Bob")].

(** [n] times the digit nine. *)
Fixpoint nines (n : nat) : string :=
  match n with
  | O => EmptyString
  | S n' => String "9" (nines n')
  end.

(** Two rows of one invoice that disagree on the customer. *)
Definition two_customers_file : data_file :=
  {| file_name := "data/two.csv"; file_suffix := ".csv";
     open_error := None;
     csv_rows := [ [("invoice_id", Some "7"); ("customer_name", Some "Ann")];
                   [("invoice_id", Some "7"); ("customer_name", Some "Bob")] ];
     csv_error := None; json_value := Raise JSONDecodeError |}.

Definition two_customers_records : list dict :=
  match snd (load_data two_customers_file) with
  | Ok (Some records) => records
  | _ => []
  end.

(** A record with a complete item and an empty one, and the outcome of
    the loop over its items. *)
Definition pen_record : dict :=
  [ ("invoice_id", VStr "A");
    ("items", VList [VDict [("item_name", VStr "pen"); ("quantity", VInt 2);
                            ("price", VStr "1.5"); ("amount", VStr "3")];
                     VDict []]) ].

Definition pen_state : string * float64 :=
  match render_items no_repr pen_record with
  | Ok st => st
  | Raise _ => ("", Float.zero)
  end.

(** A run of [main]: one CSV file, one template, every PDF made. *)
Definition receipt_template : Program.template_file :=
  {| Program.tpl_path := "templates/receipt.html";
     Program.tpl_stem := "receipt";
     Program.tpl_text := Ok "<h1>{{ invoice_id }}</h1>{{ total_amount }}" |}.

Definition quiet_world : Program.world :=
  {| Program.mkdir_error := None;
     Program.rglob_data :=
       fun _ pattern => if pattern =? "*.csv" then [csv_file] else [];
     Program.rglob_templates := fun _ _ => [receipt_template];
     Program.fates := [];
     Program.system := "Linux";
     Program.launch := fun _ _ => Program.Launched |}.

(** The JSON file that holds the rows of [csv_file] as flat objects. *)
Definition csv_file_as_json : data_file :=
  json_file (VList (map VDict (map row_dict (csv_rows csv_file)))).

(** What [load_data] returns for [csv_file]. *)
Definition csv_records : list dict :=
  match snd (load_data csv_file) with
  | Ok (Some records) => records
  | _ => []
  end.

(** A flat object whose amount is an integer beyond the range of a
    float, and the record [load_data] makes of it. *)
Definition huge_amount_object : dict :=
  [ ("invoice_id", VStr "A"); ("amount", VInt (10 ^ 400)) ].

Definition huge_amount_record : dict :=
  [ ("invoice_id", VStr "A"); ("customer_name", VNone); ("date", VNone);
    ("items", VList [VDict [ ("item_name", VNone); ("quantity", VInt 1);
                             ("price", VInt 0);
                             ("amount", VInt (10 ^ 400)) ]]) ].

End Samples.

(* ================================================================== *)
(** * Properties *)

(** ** Strings *)

Section StringFacts.

Lemma append_nil_r (s : string) : s ++ "" = s.
Proof. induction s as [|c s IH]; simpl; [reflexivity | now rewrite IH]. Qed.

Lemma append_assoc (a b c : string) : (a ++ b) ++ c = a ++ (b ++ c).
Proof. induction a as [|x a IH]; simpl; [reflexivity | now rewrite IH]. Qed.

Lemma prefix_nil_l (s : string) : prefix "" s = true.
Proof. destruct s; reflexivity. Qed.

Lemma prefix_cons (a b : ascii) (s t : string) :
  prefix (String a s) (String b t) = true <-> a = b /\ prefix s t = true.
Proof.
  simpl. destruct (ascii_dec a b) as [->|n]; split;
    try tauto; try discriminate.
Qed.

Lemma prefix_refl_app (t rest : string) : prefix t (t ++ rest) = true.
Proof.
  induction t as [|c t IH]; simpl.
  - apply prefix_nil_l.
  - destruct (ascii_dec c c); [exact IH | congruence].
Qed.

Lemma prefix_app_r (t l m : string) :
  prefix t l = true -> prefix t (l ++ m) = true.
Proof.
  revert l; induction t as [|c t IH]; intros l H.
  - apply prefix_nil_l.
  - destruct l as [|d l]; [discriminate|].
    apply prefix_cons in H as [-> H]. simpl.
    destruct (ascii_dec d d); [auto | congruence].
Qed.

(** An occurrence that starts in [l] either lies in [l] or runs over
    its end. *)
Lemma prefix_app_cases (t l m : string) :
  prefix t (l ++ m) = true ->
  prefix t l = true \/
  exists w, w <> "" /\ t = l ++ w /\ prefix w m = true.
Proof.
  revert t; induction l as [|d l IH]; intros t H.
  - destruct t as [|c t]; [left; reflexivity|].
    right. exists (String c t). repeat split; [discriminate | exact H].
  - destruct t as [|c t]; [left; reflexivity|].
    simpl in H. destruct (ascii_dec c d) as [->|]; [|discriminate].
    destruct (IH _ H) as [Hp | (w & Hw & -> & Hm)].
    + left. simpl. destruct (ascii_dec d d); [auto | congruence].
    + right. exists w. repeat split; auto.
Qed.

Lemma prefix_length (t s : string) :
  prefix t s = true -> String.length t <= String.length s.
Proof.
  revert s; induction t as [|c t IH]; intros s H; simpl; [lia|].
  destruct s as [|d s]; [discriminate|].
  apply prefix_cons in H as [_ H]. apply IH in H. simpl. lia.
Qed.

Lemma prefix_split (t s : string) :
  prefix t s = true -> exists rest, s = t ++ rest.
Proof.
  revert s; induction t as [|c t IH]; intros s H.
  - now exists s.
  - destruct s as [|d s]; [discriminate|].
    apply prefix_cons in H as [-> H].
    destruct (IH _ H) as (rest & ->). now exists rest.
Qed.

(** [sub in s] holds exactly when [s] splits around a copy of [sub]. *)
Lemma contains_split (sub s : string) :
  Str.contains sub s = true <-> exists a b, s = a ++ sub ++ b.
Proof.
  split.
  - induction s as [|c s IH]; cbn [Str.contains]; intros H.
    + rewrite orb_false_r in H. apply prefix_split in H as (rest & ->).
      now exists "", rest.
    + apply orb_true_iff in H as [H | H].
      * apply prefix_split in H as (rest & ->). now exists "", rest.
      * destruct (IH H) as (a & b & ->). now exists (String c a), b.
  - intros (a & b & ->). induction a as [|c a IH].
    + cbn [append]. destruct (sub ++ b) eqn:E; cbn [Str.contains];
        rewrite <- E, prefix_refl_app; reflexivity.
    + cbn [append Str.contains]. rewrite IH. apply orb_true_r.
Qed.

End StringFacts.

(** ** Characters *)

Section CharacterFacts.

Lemma concat_cons (x : string) (xs : list string) :
  String.concat "" (x :: xs) = x ++ String.concat "" xs.
Proof.
  destruct xs; cbn [String.concat]; [now rewrite append_nil_r | reflexivity].
Qed.

(** Cutting a text into characters loses and adds no byte. *)
Lemma chars_concat (s : string) : String.concat "" (Unicode.chars s) = s.
Proof.
  induction s as [|c s IH]; [reflexivity|].
  cbn [Unicode.chars].
  destruct (Unicode.chars s) as [|[|c' ch] chs].
  - cbn in IH |- *. now subst.
  - rewrite concat_cons in IH. rewrite !concat_cons.
    cbn [append] in *. now rewrite IH.
  - rewrite concat_cons in IH.
    destruct (Unicode.is_continuation c');
      rewrite !concat_cons; cbn [append] in *; now rewrite IH.
Qed.

End CharacterFacts.

(** ** The scan of [str.replace] *)

Section ReplaceFacts.

Variables old new : string.

Lemma replace_from_skip (t rest : string) :
  Str.replace_from old new (String.length t) (t ++ rest)
  = Str.replace_from old new 0 rest.
Proof.
  induction t as [|c t IH]; simpl.
  - destruct rest; reflexivity.
  - exact IH.
Qed.

Lemma replace_from_skip_all (k : nat) (t : string) :
  String.length t <= k -> Str.replace_from old new k t = "".
Proof.
  revert k; induction t as [|c t IH]; intros k H; simpl; [reflexivity|].
  destruct k as [|k]; simpl in H; [lia|]. apply IH. lia.
Qed.

(** An occurrence at the head is replaced and the scan goes on behind
    it. *)
Lemma replace_from_here (rest : string) :
  old <> "" ->
  Str.replace_from old new 0 (old ++ rest)
  = new ++ Str.replace_from old new 0 rest.
Proof.
  intros Hne. destruct old as [|c t] eqn:E; [congruence|].
  change (String c t ++ rest) with (String c (t ++ rest)).
  cbn [Str.replace_from].
  change (String c (t ++ rest)) with (String c t ++ rest).
  rewrite prefix_refl_app.
  replace (String.length (String c t) - 1) with (String.length t)
    by (simpl; lia).
  f_equal. generalize (String c t) as o. clear.
  intros o. induction t as [|d t IH]; simpl.
  - destruct rest; reflexivity.
  - apply IH.
Qed.

End ReplaceFacts.

(** ** Inert text and templates cut into pieces *)

Section PieceFacts.

Lemma comparable_false (u t : string) :
  comparable u t = false -> prefix u t = false /\ prefix t u = false.
Proof. unfold comparable. apply orb_false_iff. Qed.

Lemma inert_for_suffix (tok a w : string) :
  inert_for tok (a ++ w) = true -> w <> "" -> comparable w tok = false.
Proof.
  induction a as [|c a IH]; simpl; intros H Hw.
  - destruct w as [|d w]; [congruence|]. simpl in H.
    apply andb_true_iff in H as [H _]. now apply negb_true_iff in H.
  - apply andb_true_iff in H as [_ H]. auto.
Qed.

(** The scan passes over inert text without a match. *)
Lemma replace_from_inert (tok v lit rest : string) :
  inert_for tok lit = true ->
  Str.replace_from tok v 0 (lit ++ rest)
  = lit ++ Str.replace_from tok v 0 rest.
Proof.
  induction lit as [|c l IH]; intros H; [reflexivity|].
  simpl in H. apply andb_true_iff in H as [Hc Hl].
  apply negb_true_iff, comparable_false in Hc as [Hlt Htl].
  change (String c l ++ rest) with (String c (l ++ rest)).
  cbn [Str.replace_from].
  destruct (prefix tok (String c (l ++ rest))) eqn:Hp.
  - exfalso.
    change (String c (l ++ rest)) with (String c l ++ rest) in Hp.
    apply prefix_app_cases in Hp as [Hp | (w & _ & -> & _)].
    + congruence.
    + rewrite prefix_refl_app in Hlt. discriminate.
  - cbn [append]. now rewrite IH.
Qed.

Lemma replace_token (p : placeholder) (v s : string) :
  Str.replace (token p) v s = Str.replace_from (token p) v 0 s.
Proof. destruct p; reflexivity. Qed.

Lemma token_nonempty (p : placeholder) : token p <> "".
Proof. destruct p; discriminate. Qed.

Lemma placeholder_eqb_eq (p q : placeholder) :
  placeholder_eqb p q = true <-> p = q.
Proof. destruct p, q; simpl; split; congruence. Qed.

(** A different placeholder is inert for the one being replaced. *)
Lemma token_inert_for_other (p q : placeholder) :
  placeholder_eqb p q = false -> inert_for (token p) (token q) = true.
Proof. destruct p, q; simpl; intros H; try discriminate; reflexivity. Qed.

Lemma inert_inert_for (p : placeholder) (s : string) :
  inert s = true -> inert_for (token p) s = true.
Proof.
  unfold inert, all_placeholders. cbn [List.forallb].
  rewrite !andb_true_iff. intros (H1 & H2 & H3 & H4 & H5 & _).
  destruct p; assumption.
Qed.

(** One step of [generate_html] on a template in pieces: exactly the
    holes of the placeholder are filled. *)
Lemma replace_pieces (p : placeholder) (v : string) (ps : list piece) :
  List.forallb text_inert ps = true ->
  Str.replace (token p) v (flatten ps) = flatten (map (fill_one p v) ps).
Proof.
  rewrite replace_token.
  induction ps as [|x ps IH]; intros H; [reflexivity|].
  cbn [List.forallb] in H. apply andb_true_iff in H as [Hx Hps].
  cbn [flatten map]. destruct x as [s | q]; cbn [piece_text fill_one].
  - rewrite replace_from_inert by (apply inert_inert_for; exact Hx).
    now rewrite IH.
  - destruct (placeholder_eqb p q) eqn:E.
    + apply placeholder_eqb_eq in E as <-. cbn [piece_text].
      rewrite replace_from_here by apply token_nonempty.
      now rewrite IH.
    + cbn [piece_text].
      rewrite replace_from_inert by (now apply token_inert_for_other).
      now rewrite IH.
Qed.

Lemma fill_one_inert (p : placeholder) (v : string) (ps : list piece) :
  List.forallb text_inert ps = true ->
  (In (Hole p) ps -> inert v = true) ->
  List.forallb text_inert (map (fill_one p v) ps) = true.
Proof.
  induction ps as [|x ps IH]; intros H Hv; [reflexivity|].
  cbn [List.forallb] in H. apply andb_true_iff in H as [Hx Hps].
  cbn [map List.forallb]. apply andb_true_iff; split.
  - destruct x as [s | q]; cbn [fill_one]; [exact Hx|].
    destruct (placeholder_eqb p q) eqn:E; [|reflexivity].
    apply placeholder_eqb_eq in E as <-. apply Hv. left; reflexivity.
  - apply IH; [exact Hps|]. intros Hin. apply Hv. right; exact Hin.
Qed.

Lemma in_hole_fill_one (p q : placeholder) (v : string) (ps : list piece) :
  In (Hole q) (map (fill_one p v) ps) -> In (Hole q) ps.
Proof.
  induction ps as [|x ps IH]; simpl; [tauto|].
  intros [H|H]; [left | right; auto].
  destruct x as [s | r]; simpl in H; [discriminate|].
  destruct (placeholder_eqb p r); [discriminate | exact H].
Qed.

(** Filling the five placeholders one after the other fills them
    all. *)
Lemma fill_in_turn (value : placeholder -> string) (ps : list piece) :
  flatten
    (map (fill_one PTotalAmount (value PTotalAmount))
      (map (fill_one PItemRows (value PItemRows))
        (map (fill_one PDate (value PDate))
          (map (fill_one PCustomerName (value PCustomerName))
            (map (fill_one PInvoiceId (value PInvoiceId)) ps)))))
  = fill value ps.
Proof.
  induction ps as [|x ps IH]; [reflexivity|].
  cbn [map flatten fill]. rewrite IH.
  destruct x as [s | q]; [reflexivity | destruct q; reflexivity].
Qed.

End PieceFacts.

(** ** Occurrences that survive or are replaced in arbitrary text *)

Section SplitFacts.

Variables tok v T r : string.
(** No occurrence of [tok] can start before [T] and run into it. *)
Hypothesis no_straddle : inert_for T (Str.tail tok) = true.

Lemma replace_from_split (l : string) (skip : nat) :
  skip <= String.length l ->
  Str.replace_from tok v skip (l ++ T ++ r)
  = Str.replace_from tok v skip l ++ Str.replace_from tok v 0 (T ++ r).
Proof.
  revert skip; induction l as [|c l IH]; intros skip Hs.
  - simpl in Hs. assert (skip = 0) as -> by lia. reflexivity.
  - change (String c l ++ T ++ r) with (String c (l ++ T ++ r)).
    destruct skip as [|k].
    + cbn [Str.replace_from].
      destruct (prefix tok (String c (l ++ T ++ r))) eqn:Hp.
      * change (String c (l ++ T ++ r)) with (String c l ++ (T ++ r)) in Hp.
        apply prefix_app_cases in Hp as [Hp | (w & Hw & Et & Hm)].
        -- rewrite Hp. rewrite append_assoc. f_equal. apply IH.
           apply prefix_length in Hp. simpl in Hp. lia.
        -- exfalso.
           assert (comparable w T = false) as Hc.
           { apply (inert_for_suffix T l w); [|exact Hw].
             rewrite Et in no_straddle. exact no_straddle. }
           apply comparable_false in Hc as [Hc1 Hc2].
           apply prefix_app_cases in Hm as [Hm | (w' & _ & -> & _)].
           ++ congruence.
           ++ rewrite prefix_refl_app in Hc2. discriminate.
      * destruct (prefix tok (String c l)) eqn:Hq.
        -- apply (prefix_app_r _ _ (T ++ r)) in Hq.
           change (String c l ++ (T ++ r)) with (String c (l ++ T ++ r)) in Hq.
           congruence.
        -- cbn [append]. f_equal. apply IH. lia.
    + cbn [Str.replace_from]. apply IH. simpl in Hs. lia.
Qed.

End SplitFacts.

Section TokenSplit.

Lemma token_no_straddle (p q : placeholder) :
  inert_for (token q) (Str.tail (token p)) = true.
Proof. destruct p, q; reflexivity. Qed.

(** Replacing [p] in text around an occurrence of [q]: the occurrence
    is rewritten if [q] is [p] and kept if not, and the text on either
    side is processed on its own. *)
Lemma replace_around (p q : placeholder) (v l r : string) :
  Str.replace (token p) v (l ++ token q ++ r)
  = Str.replace (token p) v l
      ++ (if placeholder_eqb p q then v else token q)
      ++ Str.replace (token p) v r.
Proof.
  rewrite !replace_token.
  rewrite replace_from_split by (apply token_no_straddle || simpl; lia).
  f_equal. destruct (placeholder_eqb p q) eqn:E.
  - apply placeholder_eqb_eq in E as <-.
    apply replace_from_here, token_nonempty.
  - apply replace_from_inert. now apply token_inert_for_other.
Qed.

End TokenSplit.

(** ** [generate_html]: what is replaced and what is kept *)

Section RendererFrame.

Variable repr_opaque : pyval -> string.

Lemma generate_html_steps (template : string) (record : dict)
      (st : string * float64) :
  render_items repr_opaque record = Ok st ->
  generate_html repr_opaque template record
  = Ok (steps_upto repr_opaque record st PTotalAmount
          (steps_first repr_opaque record st template)).
Proof.
  intros H. unfold generate_html. rewrite H. reflexivity.
Qed.

End RendererFrame.

(** The five substitutions on a template in pieces. *)
Lemma generate_html_fills_only_placeholders_aux
        (repr_opaque : pyval -> string) (ps : list piece) (record : dict)
        (st : string * float64) :
  render_items repr_opaque record = Ok st ->
  List.forallb text_inert ps = true ->
  (forall p, In (Hole p) ps -> p <> PTotalAmount ->
             inert (value_of repr_opaque record st p) = true) ->
  generate_html repr_opaque (flatten ps) record
  = Ok (fill (value_of repr_opaque record st) ps).
Proof.
  intros Hst Hps Hv.
  rewrite (generate_html_steps _ _ _ _ Hst). f_equal.
  unfold steps_upto, steps_first.
  set (V := value_of repr_opaque record st).
  change tok_invoice_id with (token PInvoiceId).
  change tok_customer_name with (token PCustomerName).
  change tok_date with (token PDate).
  change tok_item_rows with (token PItemRows).
  change tok_total_amount with (token PTotalAmount).
  assert (H1 : List.forallb text_inert
                 (map (fill_one PInvoiceId (V PInvoiceId)) ps) = true).
  { apply fill_one_inert; [exact Hps|]. intros Hin.
    apply Hv; [exact Hin | discriminate]. }
  assert (H2 : List.forallb text_inert
                 (map (fill_one PCustomerName (V PCustomerName))
                   (map (fill_one PInvoiceId (V PInvoiceId)) ps)) = true).
  { apply fill_one_inert; [exact H1|]. intros Hin.
    apply in_hole_fill_one in Hin. apply Hv; [exact Hin | discriminate]. }
  assert (H3 : List.forallb text_inert
                 (map (fill_one PDate (V PDate))
                   (map (fill_one PCustomerName (V PCustomerName))
                     (map (fill_one PInvoiceId (V PInvoiceId)) ps))) = true).
  { apply fill_one_inert; [exact H2|]. intros Hin.
    do 2 apply in_hole_fill_one in Hin. apply Hv; [exact Hin | discriminate]. }
  assert (H4 : List.forallb text_inert
                 (map (fill_one PItemRows (V PItemRows))
                   (map (fill_one PDate (V PDate))
                     (map (fill_one PCustomerName (V PCustomerName))
                       (map (fill_one PInvoiceId (V PInvoiceId)) ps))))
               = true).
  { apply fill_one_inert; [exact H3|]. intros Hin.
    do 3 apply in_hole_fill_one in Hin. apply Hv; [exact Hin | discriminate]. }
  rewrite (replace_pieces PInvoiceId) by exact Hps.
  rewrite (replace_pieces PCustomerName) by exact H1.
  rewrite (replace_pieces PDate) by exact H2.
  rewrite (replace_pieces PItemRows) by exact H3.
  rewrite (replace_pieces PTotalAmount) by exact H4.
  apply fill_in_turn.
Qed.


(** C9, as amended.  A template that splits into placeholders and inert
    text (text in which no placeholder occurs and which does not end in
    the beginning of one; an unrecognized placeholder such as
    [{{ foo }}] is inert) is returned with exactly its placeholders
    replaced by their values and all other text unchanged, provided the
    values substituted for [invoice_id], [customer_name], [date] and
    [item_rows] are inert too. *)
Theorem generate_html_fills_only_placeholders
        (repr_opaque : pyval -> string) (ps : list piece) (record : dict)
        (st : string * float64) :
  render_items repr_opaque record = Ok st ->
  List.forallb text_inert ps = true ->
  (forall p, In (Hole p) ps -> p <> PTotalAmount ->
             inert (value_of repr_opaque record st p) = true) ->
  generate_html repr_opaque (flatten ps) record
  = Ok (fill (value_of repr_opaque record st) ps).
Proof.
  apply generate_html_fills_only_placeholders_aux.
Qed.

(** The spec's example: only [{{ invoice_id }}] is replaced, by [A1];
    the rest of the template, an unrecognized placeholder included,
    stays. *)
Lemma generate_html_fills_only_placeholders_witness :
  generate_html Samples.no_repr
    (flatten [Text "<h1>"; Hole PInvoiceId; Text "</h1>{{ foo }}"])
    [("invoice_id", VStr "A1")]
  = Ok "<h1>A1</h1>{{ foo }}".
Proof.
  apply (generate_html_fills_only_placeholders Samples.no_repr
           [Text "<h1>"; Hole PInvoiceId; Text "</h1>{{ foo }}"]
           [("invoice_id", VStr "A1")] ("", Float.zero)).
  - reflexivity.
  - reflexivity.
  - intros p [H | [H | [H | []]]]; try discriminate H.
    injection H as <-. intros _. reflexivity.
Defined.

(** C9, as stated, fails: the text [{{ ] and [ate }}] of this template
    is no occurrence of a placeholder, yet it does not survive, because
    the value put in for [{{ invoice_id }}] completes [{{ date }}]. *)
Lemma generate_html_rewrites_template_text :
  generate_html Samples.no_repr ("{{ " ++ tok_invoice_id ++ "ate }}")
                [("invoice_id", VStr "d"); ("date", VStr "2024")]
  = Ok "2024"
  /\ ~ (exists v : string, "2024" = "{{ " ++ v ++ "ate }}").
Proof.
  split; [reflexivity|].
  intros [v H]. discriminate H.
Qed.

(** C10.  The substitutions run one after the other over the whole
    string: when the template contains [{{ customer_name }}] (it splits
    as [a ++ token ++ b], see [contains_split]) and the customer name
    contains one of the later tokens (it splits as [x ++ token ++ y]),
    that token inside the value is replaced by the value computed for
    it, the text on either side going through the same substitutions. *)
Theorem generate_html_substitutes_inside_customer_name
        (repr_opaque : pyval -> string) (a b x y : string) (q : placeholder)
        (record : dict) (st : string * float64) :
  render_items repr_opaque record = Ok st ->
  later q = true ->
  py_str repr_opaque (dict_get record "customer_name" (VStr ""))
  = x ++ token q ++ y ->
  generate_html repr_opaque (a ++ tok_customer_name ++ b) record
  = Ok (steps_after repr_opaque record st q
          (steps_upto repr_opaque record st q
             (steps_first repr_opaque record st a ++ x)
           ++ value_of repr_opaque record st q
           ++ steps_upto repr_opaque record st q
                (y ++ steps_first repr_opaque record st b))).
Proof.
  intros Hst Hq Hc.
  rewrite (generate_html_steps _ _ _ _ Hst). f_equal.
  unfold steps_first.
  change tok_invoice_id with (token PInvoiceId).
  change tok_customer_name with (token PCustomerName).
  rewrite (replace_around PInvoiceId PCustomerName).
  rewrite (replace_around PCustomerName PCustomerName).
  cbn [placeholder_eqb].
  change (value_of repr_opaque record st PCustomerName)
    with (py_str repr_opaque (dict_get record "customer_name" (VStr ""))).
  rewrite Hc.
  set (A := Str.replace (token PCustomerName) (x ++ token q ++ y)
              (Str.replace (token PInvoiceId)
                 (value_of repr_opaque record st PInvoiceId) a)).
  set (B := Str.replace (token PCustomerName) (x ++ token q ++ y)
              (Str.replace (token PInvoiceId)
                 (value_of repr_opaque record st PInvoiceId) b)).
  replace (A ++ (x ++ token q ++ y) ++ B)
    with ((A ++ x) ++ token q ++ (y ++ B))
    by (now rewrite !append_assoc).
  unfold steps_upto, steps_after.
  change tok_date with (token PDate).
  change tok_item_rows with (token PItemRows).
  change tok_total_amount with (token PTotalAmount).
  destruct q; try discriminate Hq.
  - rewrite (replace_around PDate PDate). reflexivity.
  - rewrite (replace_around PDate PItemRows).
    rewrite (replace_around PItemRows PItemRows). reflexivity.
  - rewrite (replace_around PDate PTotalAmount).
    rewrite (replace_around PItemRows PTotalAmount).
    rewrite (replace_around PTotalAmount PTotalAmount). reflexivity.
Qed.

(** A customer called [{{ date }}] is printed as the invoice date. *)
Lemma generate_html_substitutes_inside_customer_name_witness :
  generate_html Samples.no_repr ("<p>" ++ tok_customer_name ++ "</p>")
                [("customer_name", VStr "Mr {{ date }}!");
                 ("date", VStr "2024-01-31")]
  = Ok "<p>Mr 2024-01-31!</p>".
Proof.
  apply (generate_html_substitutes_inside_customer_name Samples.no_repr
           "<p>" "</p>" "Mr " "!" PDate
           [("customer_name", VStr "Mr {{ date }}!");
            ("date", VStr "2024-01-31")] ("", Float.zero));
    reflexivity.
Defined.

(** ** Reversal and character maps *)

Section RevFacts.

Lemma str_rev_onto_app (s acc : string) :
  Str.rev_onto s acc = Str.rev s ++ acc.
Proof.
  unfold Str.rev. revert acc.
  induction s as [|c s IH]; intros acc; simpl; [reflexivity|].
  rewrite IH, (IH (String c "")), append_assoc. reflexivity.
Qed.

Lemma str_rev_cons (c : ascii) (s : string) :
  Str.rev (String c s) = Str.rev s ++ String c "".
Proof. unfold Str.rev at 1. simpl. apply str_rev_onto_app. Qed.

Lemma str_rev_app (a b : string) : Str.rev (a ++ b) = Str.rev b ++ Str.rev a.
Proof.
  induction a as [|c a IH]; simpl.
  - now rewrite append_nil_r.
  - rewrite !str_rev_cons, IH, append_assoc. reflexivity.
Qed.

Lemma str_rev_involutive (s : string) : Str.rev (Str.rev s) = s.
Proof.
  induction s as [|c s IH]; [reflexivity|].
  rewrite str_rev_cons, str_rev_app, IH. reflexivity.
Qed.

Lemma str_map_app (f : ascii -> ascii) (a b : string) :
  Str.map f (a ++ b) = Str.map f a ++ Str.map f b.
Proof. induction a as [|c a IH]; simpl; [reflexivity | now rewrite IH]. Qed.

Lemma str_map_rev (f : ascii -> ascii) (s : string) :
  Str.map f (Str.rev s) = Str.rev (Str.map f s).
Proof.
  induction s as [|c s IH]; [reflexivity|].
  simpl. rewrite !str_rev_cons, str_map_app, IH. reflexivity.
Qed.

Lemma str_forallb_app (p : ascii -> bool) (a b : string) :
  Str.forallb p (a ++ b) = Str.forallb p a && Str.forallb p b.
Proof.
  induction a as [|c a IH]; simpl; [reflexivity|].
  now rewrite IH, andb_assoc.
Qed.

Lemma str_forallb_rev (p : ascii -> bool) (s : string) :
  Str.forallb p (Str.rev s) = Str.forallb p s.
Proof.
  induction s as [|c s IH]; [reflexivity|].
  rewrite str_rev_cons, str_forallb_app, IH. simpl.
  rewrite andb_true_r. apply andb_comm.
Qed.

Lemma str_rev_nonempty (s : string) : s <> "" -> Str.rev s <> "".
Proof.
  destruct s as [|c s]; [congruence|]. intros _.
  rewrite str_rev_cons. destruct (Str.rev s); discriminate.
Qed.

(** Replacing one character by another is a character map. *)
Lemma replace_char (c d : ascii) (s : string) :
  Str.replace (String c "") (String d "") s
  = Str.map (fun x => if Ascii.eqb x c then d else x) s.
Proof.
  unfold Str.replace.
  induction s as [|x s IH]; [reflexivity|].
  cbn [Str.replace_from Str.map].
  destruct (Ascii.eqb_spec x c) as [->|n].
  - change (String c s) with (String c "" ++ s) at 1.
    rewrite (prefix_refl_app (String c "") s). simpl. now rewrite IH.
  - destruct (prefix (String c "") (String x s)) eqn:Hp.
    + apply prefix_cons in Hp as [-> _]. congruence.
    + now rewrite IH.
Qed.

End RevFacts.

(** ** The text of the total *)

Section TotalText.

Let sp (x : ascii) : ascii := if Ascii.eqb x "," then " "%char else x.

Lemma string_of_uint_digits (d : Decimal.uint) :
  Str.forallb Str.is_digit (NilEmpty.string_of_uint d) = true.
Proof. induction d; simpl; try rewrite IHd; reflexivity. Qed.

Lemma dec_of_Z_digits (z : Z) :
  (0 <= z)%Z ->
  Str.forallb Str.is_digit (Float.dec_of_Z z) = true
  /\ Float.dec_of_Z z <> "".
Proof.
  intros Hz. unfold Float.dec_of_Z. destruct z as [|p|p]; [| |lia].
  - split; [reflexivity | discriminate].
  - simpl. split; [apply string_of_uint_digits|].
    pose proof (DecimalPos.Unsigned.to_uint_nonnil p) as Hn.
    destruct (Pos.to_uint p); simpl; congruence.
Qed.

Lemma digit_char_digit (d : Z) :
  (0 <= d < 10)%Z -> Str.is_digit (Float.digit_char d) = true.
Proof.
  intros H.
  assert (d = 0 \/ d = 1 \/ d = 2 \/ d = 3 \/ d = 4 \/ d = 5 \/ d = 6
          \/ d = 7 \/ d = 8 \/ d = 9)%Z as Hd by lia.
  repeat (destruct Hd as [-> | Hd]; [reflexivity|]). subst; reflexivity.
Qed.

Lemma sp_digit (c : ascii) : Str.is_digit c = true -> sp c = c.
Proof.
  intros H. unfold sp. destruct (Ascii.eqb_spec c ","); [|reflexivity].
  subst. discriminate H.
Qed.

Lemma digit_not_space (c : ascii) :
  Str.is_digit c = true -> Ascii.eqb c " " = false.
Proof.
  intros H. destruct (Ascii.eqb_spec c " "); [|reflexivity].
  subst. discriminate H.
Qed.

(** The grouping, read backwards, is accepted from any state [k] in
    which it can be emitted. *)
Lemma groups_rev_group_rev (sgn rd : string) :
  sgn = "" \/ sgn = "-" ->
  forall k : nat,
    Str.forallb Str.is_digit rd = true ->
    k <= 3 -> (rd <> "" \/ 1 <= k) ->
    Money.groups_rev k (Str.map sp (Float.group_rev k rd) ++ sgn) = true.
Proof.
  intros Hsgn. induction rd as [|c rd IH]; intros k Hd Hk Hne.
  - destruct Hne as [Hne | Hne]; [congruence|].
    destruct k as [|k]; [lia|].
    destruct Hsgn as [-> | ->]; reflexivity.
  - simpl in Hd. apply andb_true_iff in Hd as [Hc Hd].
    assert (Hk' : k = 0 \/ k = 1 \/ k = 2 \/ k = 3) by lia.
    destruct Hk' as [-> | [-> | [-> | ->]]];
      cbn [Float.group_rev Str.map append Money.groups_rev];
      rewrite ?(sp_digit c Hc), ?Hc.
    + apply IH; [exact Hd | lia | right; lia].
    + apply IH; [exact Hd | lia | right; lia].
    + apply IH; [exact Hd | lia | right; lia].
    + change (sp ",") with " "%char.
      change (Str.is_digit " ") with false. cbn iota.
      rewrite Ascii.eqb_refl. cbn [Nat.eqb andb Money.groups_rev].
      change (0 <? 3)%nat with true. cbn [andb].
      apply IH; [exact Hd | lia | right; lia].
Qed.

Lemma round_half_even_nonneg (p d : Z) :
  (0 <= p)%Z -> (0 < d)%Z -> (0 <= Float.round_half_even p d)%Z.
Proof.
  intros Hp Hd. unfold Float.round_half_even.
  pose proof (Z.div_pos p d Hp Hd).
  destruct (_ || _); lia.
Qed.

(** A finite total always prints with two decimals and space-grouped
    thousands. *)
Lemma total_text_well_formed (neg : bool) (mag : N) :
  Money.well_formed (total_text (FFin neg mag)) = true.
Proof.
  unfold total_text, Float.format_comma_2f.
  set (c := Float.cents mag).
  assert (Hc : (0 <= c)%Z).
  { apply round_half_even_nonneg; [lia | reflexivity]. }
  destruct (dec_of_Z_digits (c / 100)) as [Hdig Hne].
  { apply Z.div_pos; lia. }
  pose proof (Z.mod_pos_bound c 100 ltac:(lia)) as Hm.
  set (d1 := Float.digit_char (c mod 100 / 10)).
  set (d2 := Float.digit_char ((c mod 100) mod 10)).
  assert (H1 : Str.is_digit d1 = true).
  { apply digit_char_digit. split; [apply Z.div_pos; lia|].
    apply Z.div_lt_upper_bound; lia. }
  assert (H2 : Str.is_digit d2 = true).
  { apply digit_char_digit. apply Z.mod_pos_bound. lia. }
  change (Float.two_digits (c mod 100)) with (String d1 (String d2 "")).
  rewrite (replace_char "," " ").
  change (fun x : ascii => if Ascii.eqb x "," then " "%char else x) with sp.
  unfold Money.well_formed, Float.group_thousands.
  rewrite <- str_map_rev, !str_rev_app, str_rev_involutive.
  change (Str.rev (String d1 (String d2 ""))) with (String d2 (String d1 "")).
  change (Str.rev ".") with ".".
  rewrite !append_assoc, !str_map_app. cbn [Str.map append].
  rewrite (sp_digit d1 H1), (sp_digit d2 H2), H1, H2.
  change (sp ".") with "."%char. cbn [andb].
  assert (Hs : Str.map sp (Str.rev (if neg then "-" else ""))
               = (if neg then "-" else "")) by (destruct neg; reflexivity).
  rewrite Hs.
  apply groups_rev_group_rev.
  - destruct neg; auto.
  - now rewrite str_forallb_rev.
  - lia.
  - left. now apply str_rev_nonempty.
Qed.

End TotalText.

(** ** [generate_html]: the total *)

Section TotalFacts.

Variable repr_opaque : pyval -> string.

Lemma item_step_total (st st' : string * float64) (item : pyval) :
  item_step repr_opaque st item = Ok st' ->
  snd st' = fold_left Float.add (Money.coerced item) (snd st).
Proof.
  unfold item_step, Money.coerced. destruct item; try discriminate.
  destruct (py_float (dict_get d "amount" (VInt 0))) as [x | e].
  - intros [= <-]. reflexivity.
  - destruct e; intros [= <-]; reflexivity.
Qed.

Lemma item_loop_total (items : list pyval) :
  forall st st' : string * float64,
    item_loop repr_opaque st items = Ok st' ->
    snd st' = fold_left Float.add (flat_map Money.coerced items) (snd st).
Proof.
  induction items as [|item items IH]; intros st st' H.
  - injection H as <-. reflexivity.
  - cbn [item_loop] in H. unfold bind in H.
    destruct (item_step repr_opaque st item) as [st1 | e] eqn:E;
      [|discriminate].
    cbn [flat_map]. rewrite fold_left_app.
    rewrite <- (item_step_total _ _ _ E). now apply IH.
Qed.

(** A template that is just the total placeholder yields the text of
    the total. *)
Lemma generate_html_total_only (record : dict) (st : string * float64) :
  render_items repr_opaque record = Ok st ->
  generate_html repr_opaque tok_total_amount record
  = Ok (total_text (snd st)).
Proof.
  intros H.
  change tok_total_amount with (flatten [Hole PTotalAmount]).
  rewrite (generate_html_fills_only_placeholders_aux repr_opaque
             [Hole PTotalAmount] record st H).
  - cbn [fill value_of]. now rewrite append_nil_r.
  - reflexivity.
  - intros p [[= <-] | []] Hp. congruence.
Qed.

End TotalFacts.

(** C5, as amended.  Whenever the loop over the items completes, the
    total is the left-to-right floating-point sum of the amounts that
    [float] accepts, the text put in for [{{ total_amount }}] is that of
    this total, and, the total being finite, it has exactly two decimals
    and space-grouped thousands (after a minus sign below zero); a total
    that is not finite prints as [nan], [inf] or [-inf]. *)
Theorem total_amount_is_formatted_sum
        (repr_opaque : pyval -> string) (record : dict)
        (items : list pyval) (st : string * float64) :
  py_iter (dict_get record "items" (VList [])) = Some items ->
  render_items repr_opaque record = Ok st ->
  snd st = Money.sum_of items
  /\ generate_html repr_opaque tok_total_amount record
     = Ok (total_text (Money.sum_of items))
  /\ (is_finite (Money.sum_of items) = true ->
      Money.well_formed (total_text (Money.sum_of items)) = true)
  /\ (is_finite (Money.sum_of items) = false ->
      In (total_text (Money.sum_of items)) ["nan"; "inf"; "-inf"]).
Proof.
  intros Hi Hst.
  assert (Hsum : snd st = Money.sum_of items).
  { unfold render_items in Hst. rewrite Hi in Hst.
    apply item_loop_total in Hst. exact Hst. }
  split; [exact Hsum|]. split; [|split].
  - rewrite <- Hsum. now apply generate_html_total_only.
  - destruct (Money.sum_of items) as [neg mag | |]; try discriminate.
    intros _. apply total_text_well_formed.
  - destruct (Money.sum_of items) as [neg mag | [|] |]; try discriminate;
      intros _; cbn; auto.
Qed.

(** The spec's example: amounts ["1000"] and ["234.5"] give
    ["1 234.50"]. *)
Lemma total_amount_is_formatted_sum_witness :
  generate_html Samples.no_repr tok_total_amount
    [("items", VList [VDict [("amount", VStr "1000")];
                      VDict [("amount", VStr "234.5")]])]
  = Ok "1 234.50"
  /\ Money.well_formed "1 234.50" = true.
Proof.
  destruct (total_amount_is_formatted_sum Samples.no_repr
              [("items", VList [VDict [("amount", VStr "1000")];
                                VDict [("amount", VStr "234.5")]])]
              [VDict [("amount", VStr "1000")];
               VDict [("amount", VStr "234.5")]]
              (("<tr><td></td><td>0</td><td>0</td><td>1000</td></tr>"
                  ++ newline
                  ++ "<tr><td></td><td>0</td><td>0</td><td>234.5</td></tr>"
                  ++ newline),
               FFin false (2469 * 2 ^ 1073))
              eq_refl ltac:(vm_compute; reflexivity))
    as (_ & Hhtml & Hshape & _).
  split.
  - exact Hhtml.
  - exact (Hshape eq_refl).
Defined.

(** C5, as stated, fails: an amount that reads as not-a-number makes
    the total print as [nan], with no decimals at all. *)
Lemma total_amount_nan_has_no_decimals :
  generate_html Samples.no_repr tok_total_amount
    [("items", VList [VDict [("amount", VStr "nan")]])]
  = Ok "nan"
  /\ Money.well_formed "nan" = false.
Proof. split; reflexivity. Qed.

(** C8, the part that holds: text that is no number is left out of the
    sum. *)
Lemma total_amount_skips_text :
  generate_html Samples.no_repr tok_total_amount
    [("items", VList [VDict [("amount", VStr "x")];
                      VDict [("amount", VStr "10")]])]
  = Ok "10.00".
Proof. vm_compute. reflexivity. Qed.

(** C8 at the failing input: a JSON object whose amount is an integer
    too large for a float is loaded as it is, and on its record [float]
    raises [OverflowError], which the [except] clause does not list, so
    [generate_html] raises instead of skipping the amount. *)
Theorem generate_html_raises_on_huge_amount (repr_opaque : pyval -> string) :
  load_data (Samples.json_file (VList [VDict Samples.huge_amount_object]))
  = ([], Ok (Some [Samples.huge_amount_record]))
  /\ generate_html repr_opaque tok_total_amount Samples.huge_amount_record
     = Raise OverflowError.
Proof. split; vm_compute; reflexivity. Qed.

(** ** [select_records] *)

Section SelectionFacts.

Lemma split_from_nonempty (sep : ascii) (s cur : string) :
  Str.split_from sep cur s <> [].
Proof.
  revert cur; induction s as [|c s IH]; intros cur; simpl; [discriminate|].
  destruct (Ascii.eqb c sep); [discriminate | apply IH].
Qed.

Lemma indices_of_reads (tokens : list string) (ns : list Z) :
  Forall2 (fun tok n => py_int (Str.strip tok) = Some n) tokens ns ->
  indices_of tokens = Some (map (fun n => (n - 1)%Z) ns).
Proof.
  induction 1 as [|tok n tokens ns Htok _ IH]; [reflexivity|].
  cbn [indices_of map]. now rewrite Htok, IH.
Qed.

Lemma in_range_pred (n : nat) (x : Z) :
  in_range n (x - 1) = Choice.in_bounds n x.
Proof.
  unfold in_range, Choice.in_bounds.
  destruct (1 <=? x)%Z eqn:A, (x <=? Z.of_nat n)%Z eqn:B,
           (0 <=? x - 1)%Z eqn:C, (x - 1 <? Z.of_nat n)%Z eqn:D;
    try reflexivity; exfalso;
    rewrite ?Z.leb_le, ?Z.leb_gt, ?Z.ltb_lt, ?Z.ltb_ge in *; lia.
Qed.

(** The sorting loop keeps the in-range indices and names the other
    numbers, both in typed order. *)
Lemma classify_spec (n : nat) (ns : list Z) :
  classify n (map (fun x => (x - 1)%Z) ns)
  = (map (fun x => (x - 1)%Z) (filter (Choice.in_bounds n) ns),
     map Float.dec_of_Z (filter (fun x => negb (Choice.in_bounds n x)) ns)).
Proof.
  induction ns as [|x ns IH]; [reflexivity|].
  cbn [map classify filter]. rewrite IH, in_range_pred.
  destruct (Choice.in_bounds n x); cbn [negb map]; [reflexivity|].
  now rewrite Z.sub_add.
Qed.

Lemma filter_all {A : Type} (f : A -> bool) (l : list A) :
  Forall (fun x => f x = true) l -> filter f l = l.
Proof.
  induction 1 as [|x l Hx _ IH]; [reflexivity|].
  simpl. now rewrite Hx, IH.
Qed.

Lemma filter_none {A : Type} (f : A -> bool) (l : list A) :
  Forall (fun x => f x = true) l -> filter (fun x => negb (f x)) l = [].
Proof.
  induction 1 as [|x l Hx _ IH]; [reflexivity|].
  simpl. now rewrite Hx, IH.
Qed.

Lemma insert_new_In (a x : Z) (l : list Z) :
  In x (insert_new a l) <-> x = a \/ In x l.
Proof.
  induction l as [|y l IH]; simpl; [intuition|].
  destruct (a <? y)%Z eqn:A; [simpl; intuition|].
  destruct (a =? y)%Z eqn:B.
  - apply Z.eqb_eq in B as ->. simpl. intuition.
  - simpl. rewrite IH. intuition.
Qed.

Lemma insert_new_sorted (a : Z) (l : list Z) :
  StronglySorted Z.lt l -> StronglySorted Z.lt (insert_new a l).
Proof.
  induction 1 as [|y l Hs IH Hy]; simpl.
  - constructor; constructor.
  - destruct (a <? y)%Z eqn:A.
    + apply Z.ltb_lt in A. constructor; [now constructor|].
      constructor; [exact A|].
      eapply Forall_impl; [|exact Hy]. intros z Hz. cbv beta in Hz. lia.
    + destruct (a =? y)%Z eqn:B; [now constructor|].
      apply Z.ltb_ge in A. apply Z.eqb_neq in B.
      constructor; [exact IH|].
      apply Forall_forall. intros z Hz.
      apply insert_new_In in Hz as [-> | Hz]; [lia|].
      rewrite Forall_forall in Hy. now apply Hy.
Qed.

Lemma sorted_set_In (x : Z) (l : list Z) :
  In x (sorted_set l) <-> In x l.
Proof.
  induction l as [|a l IH]; simpl; [tauto|].
  rewrite insert_new_In, IH. intuition.
Qed.

Lemma sorted_set_sorted (l : list Z) : StronglySorted Z.lt (sorted_set l).
Proof.
  induction l as [|a l IH]; simpl; [constructor|].
  now apply insert_new_sorted.
Qed.

Lemma pick_in_range (records : list dict) (idx : list Z) :
  Forall (fun i => (0 <= i < Z.of_nat (length records))%Z) idx ->
  pick records idx
  = Some (map (fun i => nth (Z.to_nat i) records []) idx).
Proof.
  induction 1 as [|i idx Hi _ IH]; [reflexivity|].
  cbn [pick map]. rewrite IH.
  rewrite (nth_error_nth' records [] (n := Z.to_nat i)) by lia.
  reflexivity.
Qed.

Lemma positions_In (ns : list Z) (i : Z) :
  In i (Choice.positions ns) <-> In (i + 1)%Z ns.
Proof.
  unfold Choice.positions. rewrite sorted_set_In, in_map_iff. split.
  - intros (n & <- & Hn). now rewrite Z.sub_add.
  - intros Hn. exists (i + 1)%Z. split; [lia | exact Hn].
Qed.

Lemma reads_not_all (line : string) (ns : list Z) :
  Choice.reads_as line ns ->
  Str.lower (Str.strip line) <> "all"
  /\ Str.lower (Str.strip line) <> ""
  /\ ns <> [].
Proof.
  unfold Choice.reads_as. intros H. repeat split.
  - intros E. rewrite E in H. inversion H as [|? ? ? ? Hp]; subst.
    discriminate Hp.
  - intros E. rewrite E in H. inversion H as [|? ? ? ? Hp]; subst.
    discriminate Hp.
  - intros ->. inversion H as [E|].
    symmetry in E. now apply split_from_nonempty in E.
Qed.

(** One round of the loop on a line of numbers, up to the test on
    [invalid_numbers]. *)
Lemma choose_numbers (records : list dict) (line : string)
      (rest : list string) (ns : list Z) :
  Choice.reads_as line ns ->
  choose records (line :: rest)
  = match filter (fun x => negb (Choice.in_bounds (length records) x)) ns with
    | (_ :: _) as bad =>
        say [MChoicePrompt;
             MInvalidNumbers (Str.join ", " (map Float.dec_of_Z bad))
                             (length records)]
            (choose records rest)
    | [] =>
        match pick records
                (sorted_set
                   (map (fun x => (x - 1)%Z)
                        (filter (Choice.in_bounds (length records)) ns))) with
        | None => {| printed := [MChoicePrompt];
                     outcome := Raise IndexError; unread := rest |}
        | Some [] =>
            say [MChoicePrompt; MNothingSelected] (choose records rest)
        | Some selected_records =>
            {| printed := [MChoicePrompt];
               outcome := Ok selected_records; unread := rest |}
        end
    end.
Proof.
  intros H. destruct (reads_not_all _ _ H) as (Hall & Hempty & _).
  cbn [choose].
  destruct (String.eqb_spec (Str.lower (Str.strip line)) "all");
    [contradiction|].
  destruct (String.eqb_spec (Str.lower (Str.strip line)) "");
    [contradiction|].
  rewrite (indices_of_reads _ _ H), classify_spec.
  destruct (filter (fun x => negb (Choice.in_bounds (length records) x)) ns);
    reflexivity.
Qed.

End SelectionFacts.

Section SelectionClaims.

Lemma select_records_nonempty (records : list dict) (inputs : list string) :
  records <> [] ->
  select_records records inputs
  = say (Choice.menu records) (choose records inputs).
Proof. destruct records; [congruence | reflexivity]. Qed.

Lemma positions_in_range (n : nat) (ns : list Z) :
  Forall (fun x => Choice.in_bounds n x = true) ns ->
  Forall (fun i => (0 <= i < Z.of_nat n)%Z) (Choice.positions ns).
Proof.
  intros H. apply Forall_forall. intros i Hi.
  apply positions_In in Hi. rewrite Forall_forall in H.
  specialize (H _ Hi). unfold Choice.in_bounds in H.
  apply andb_true_iff in H as [A B].
  apply Z.leb_le in A, B. lia.
Qed.

Lemma select_numbers (records : list dict) (line : string)
      (rest : list string) (ns : list Z) :
  records <> [] ->
  Choice.reads_as line ns ->
  Forall (fun n => Choice.in_bounds (length records) n = true) ns ->
  select_records records (line :: rest)
  = {| printed := (Choice.menu records ++ [MChoicePrompt])%list;
       outcome := Ok (map (fun i => nth (Z.to_nat i) records [])
                          (Choice.positions ns));
       unread := rest |}.
Proof.
  intros Hrec Hread Hall.
  rewrite (select_records_nonempty _ _ Hrec).
  rewrite (choose_numbers _ _ _ _ Hread).
  rewrite (filter_none _ _ Hall), (filter_all _ _ Hall).
  fold (Choice.positions ns).
  rewrite (pick_in_range _ _ (positions_in_range _ _ Hall)).
  destruct (reads_not_all _ _ Hread) as (_ & _ & Hns).
  destruct (Choice.positions ns) as [|i idx] eqn:E.
  - exfalso. destruct ns as [|n ns]; [congruence|].
    assert (In (n - 1)%Z (Choice.positions (n :: ns))) as Hin.
    { apply positions_In. rewrite Z.sub_add. left; reflexivity. }
    rewrite E in Hin. exact Hin.
  - reflexivity.
Qed.

End SelectionClaims.

(** C6.  On a non-empty list, a line that, stripped, is the word [all]
    in any mix of upper and lower case returns every record; a line of
    in-range numbers returns the records at the typed positions, each
    once and in ascending order of position, whatever the typed order;
    an empty list returns the empty list, with no prompt shown and no
    line read. *)
Theorem select_records_all_numbers_empty :
  (forall (records : list dict) (line : string) (rest : list string),
      records <> [] ->
      Choice.spells_all (Str.strip line) ->
      select_records records (line :: rest)
      = {| printed := (Choice.menu records ++ [MChoicePrompt])%list;
           outcome := Ok records;
           unread := rest |})
  /\ (forall (records : list dict) (line : string) (rest : list string)
             (ns : list Z),
         records <> [] ->
         Choice.reads_as line ns ->
         Forall (fun n => Choice.in_bounds (length records) n = true) ns ->
         StronglySorted Z.lt (Choice.positions ns)
         /\ (forall i, In i (Choice.positions ns) <-> In (i + 1)%Z ns)
         /\ select_records records (line :: rest)
            = {| printed := (Choice.menu records ++ [MChoicePrompt])%list;
                 outcome := Ok (map (fun i => nth (Z.to_nat i) records [])
                                    (Choice.positions ns));
                 unread := rest |})
  /\ (forall inputs : list string,
         select_records [] inputs
         = {| printed := [MSelectHeader; MNoRecords];
              outcome := Ok [];
              unread := inputs |}).
Proof.
  split; [|split].
  - intros records line rest Hrec Hall.
    rewrite (select_records_nonempty _ _ Hrec).
    cbn [choose]. unfold Choice.spells_all in Hall. cbn [In] in Hall.
    repeat (destruct Hall as [<- | Hall]; [reflexivity|]).
    contradiction.
  - intros records line rest ns Hrec Hread Hall. split; [|split].
    + apply sorted_set_sorted.
    + intros i. apply positions_In.
    + now apply select_numbers.
  - reflexivity.
Qed.

(** [" All "] on three records returns the three of them, and the
    spec's example, ["2,2,1"], the first and the second, in that
    order. *)
Lemma select_records_all_numbers_empty_witness :
  select_records Samples.three_records [" All "; "1"]
  = {| printed :=
         [MSelectHeader;
          MRecordLine 1 (VStr "a") (VStr "N/A");
          MRecordLine 2 (VStr "b") (VStr "N/A");
          MRecordLine 3 (VStr "c") (VStr "N/A");
          MSelectHelp; MChoicePrompt];
       outcome := Ok Samples.three_records;
       unread := ["1"] |}
  /\ select_records Samples.three_records ["2,2,1"]
     = {| printed :=
            [MSelectHeader;
             MRecordLine 1 (VStr "a") (VStr "N/A");
             MRecordLine 2 (VStr "b") (VStr "N/A");
             MRecordLine 3 (VStr "c") (VStr "N/A");
             MSelectHelp; MChoicePrompt];
          outcome := Ok [[("invoice_id", VStr "a")];
                         [("invoice_id", VStr "b")]];
          unread := [] |}.
Proof.
  split.
  - refine (proj1 select_records_all_numbers_empty
              Samples.three_records " All " ["1"] _ _).
    + discriminate.
    + change (Str.strip " All ") with "All".
      unfold Choice.spells_all. cbn [In]. do 4 right. left. reflexivity.
  - refine (proj2 (proj2
      (proj1 (proj2 select_records_all_numbers_empty)
         Samples.three_records "2,2,1" [] [2; 2; 1]%Z _ _ _))).
    + discriminate.
    + unfold Choice.reads_as.
      change (Str.split "," (Str.lower (Str.strip "2,2,1")))
        with ["2"; "2"; "1"].
      repeat constructor.
    + repeat constructor.
Defined.

(** C7, as amended.  A line whose tokens [int] all reads as numbers,
    at least one of them out of range, selects nothing: the numbers out
    of range are named, in typed order, and the dialogue goes on with the
    next line as if this one had not been typed. *)
Theorem select_records_rejects_out_of_range
        (records : list dict) (line : string) (rest : list string)
        (ns : list Z) :
  records <> [] ->
  Choice.reads_as line ns ->
  Exists (fun n => Choice.in_bounds (length records) n = false) ns ->
  select_records records (line :: rest)
  = say (Choice.menu records)
      (say [MChoicePrompt;
            MInvalidNumbers
              (Str.join ", "
                 (map Float.dec_of_Z
                    (filter (fun n => negb (Choice.in_bounds (length records) n))
                            ns)))
              (length records)]
           (choose records rest)).
Proof.
  intros Hrec Hread Hbad.
  rewrite (select_records_nonempty _ _ Hrec).
  rewrite (choose_numbers _ _ _ _ Hread).
  destruct (filter (fun x => negb (Choice.in_bounds (length records) x)) ns)
    as [|b bad] eqn:E; [|reflexivity].
  exfalso. apply Exists_exists in Hbad as (n & Hin & Hn).
  assert (In n (filter (fun x => negb (Choice.in_bounds (length records) x)) ns))
    as Hf by (apply filter_In; split; [exact Hin | now rewrite Hn]).
  rewrite E in Hf. exact Hf.
Qed.

(** ["1,5,0"] on three records: record 1 is not taken, [5] and [0] are
    named, and the next line is read. *)
Lemma select_records_rejects_out_of_range_witness :
  select_records Samples.three_records ["1,5,0"; "3"]
  = {| printed :=
         [MSelectHeader;
          MRecordLine 1 (VStr "a") (VStr "N/A");
          MRecordLine 2 (VStr "b") (VStr "N/A");
          MRecordLine 3 (VStr "c") (VStr "N/A");
          MSelectHelp; MChoicePrompt; MInvalidNumbers "5, 0" 3;
          MChoicePrompt];
       outcome := Ok [[("invoice_id", VStr "c")]];
       unread := [] |}.
Proof.
  refine (select_records_rejects_out_of_range
            Samples.three_records "1,5,0" ["3"] [1; 5; 0]%Z _ _ _).
  - discriminate.
  - unfold Choice.reads_as.
    change (Str.split "," (Str.lower (Str.strip "1,5,0")))
      with ["1"; "5"; "0"].
    repeat constructor.
  - apply Exists_cons_tl, Exists_cons_hd. reflexivity.
Defined.

(** C7, as stated, fails: [int] refuses a numeral of 4301 digits, so
    a line that names record 1 and such a number is answered with the
    complaint that it holds no numbers, which names neither.  With one
    digit less the number is read and named. *)
Lemma select_records_long_number_is_not_named :
  select_records Samples.three_records ["1," ++ Samples.nines 4301; "3"]
  = {| printed :=
         [MSelectHeader;
          MRecordLine 1 (VStr "a") (VStr "N/A");
          MRecordLine 2 (VStr "b") (VStr "N/A");
          MRecordLine 3 (VStr "c") (VStr "N/A");
          MSelectHelp; MChoicePrompt; MNotNumbers;
          MChoicePrompt];
       outcome := Ok [[("invoice_id", VStr "c")]];
       unread := [] |}
  /\ select_records Samples.three_records ["1," ++ Samples.nines 4300; "3"]
     = {| printed :=
            [MSelectHeader;
             MRecordLine 1 (VStr "a") (VStr "N/A");
             MRecordLine 2 (VStr "b") (VStr "N/A");
             MRecordLine 3 (VStr "c") (VStr "N/A");
             MSelectHelp; MChoicePrompt;
             MInvalidNumbers (Samples.nines 4300) 3;
             MChoicePrompt];
          outcome := Ok [[("invoice_id", VStr "c")]];
          unread := [] |}.
Proof. split; vm_compute; reflexivity. Qed.

(** ** [load_data]: grouping *)

Section LoaderFacts.

Import Grouping.

Lemma hkey_eqb_spec (a b : hkey) : reflect (a = b) (hkey_eqb a b).
Proof.
  destruct a as [|x|x| |x], b as [|y|y| |y]; simpl;
    try (constructor; congruence).
  - destruct (Z.eqb_spec x y); constructor; congruence.
  - destruct (Bool.eqb_spec x y); constructor; congruence.
  - destruct (String.eqb_spec x y); constructor; congruence.
Qed.

Lemma hkey_eqb_refl (a : hkey) : hkey_eqb a a = true.
Proof. destruct (hkey_eqb_spec a a); congruence. Qed.

Lemma run_csv_rows (rows : list dict) (m : invoices) :
  run_csv rows m = run_rows false rows m.
Proof.
  revert m; induction rows as [|row rows IH]; intros m; [reflexivity|].
  simpl. destruct (step_row false row m); simpl; auto.
Qed.

Lemma run_json_dicts (rows : list dict) (m : invoices) :
  run_json (map VDict rows) m = run_rows true rows m.
Proof.
  revert m; induction rows as [|row rows IH]; intros m; [reflexivity|].
  simpl. destruct (step_row true row m); simpl; auto.
Qed.

Lemma find_add_items (k k' : hkey) (c : list pyval) (m : invoices) :
  find k' (add_items k c m)
  = if hkey_eqb k' k then option_map (extend c) (find k m) else find k' m.
Proof.
  induction m as [|[k0 inv0] m IH]; simpl.
  - destruct (hkey_eqb k' k); reflexivity.
  - destruct (hkey_eqb_spec k k0) as [<-|Hk]; simpl.
    + destruct (hkey_eqb_spec k' k); reflexivity.
    + rewrite IH.
      destruct (hkey_eqb_spec k' k0) as [->|Hk'].
      * destruct (hkey_eqb_spec k0 k); [congruence | reflexivity].
      * reflexivity.
Qed.

Lemma find_snoc (k k' : hkey) (inv : invoice) (m : invoices) :
  find k' (m ++ [(k, inv)])%list
  = match find k' m with
    | Some x => Some x
    | None => if hkey_eqb k' k then Some inv else None
    end.
Proof.
  induction m as [|[k0 inv0] m IH]; simpl; [reflexivity|].
  destruct (hkey_eqb k' k0); [reflexivity | exact IH].
Qed.

Lemma has_key_find (k : hkey) (m : invoices) :
  has_key k m = match find k m with Some _ => true | None => false end.
Proof.
  induction m as [|[k0 inv0] m IH]; simpl; [reflexivity|].
  destruct (hkey_eqb k k0); [reflexivity | exact IH].
Qed.

Lemma find_none_keys (k : hkey) (m : invoices) :
  find k m = None -> ~ In k (map fst m).
Proof.
  induction m as [|[k0 inv0] m IH]; simpl; [tauto|].
  destruct (hkey_eqb_spec k k0) as [->|Hk]; [discriminate|].
  intros H [E | Hin]; [congruence | now apply IH].
Qed.

Lemma keys_add_items (k : hkey) (c : list pyval) (m : invoices) :
  map fst (add_items k c m) = map fst m.
Proof.
  induction m as [|[k0 inv0] m IH]; simpl; [reflexivity|].
  destruct (hkey_eqb k k0); simpl; [reflexivity | now rewrite IH].
Qed.

Lemma in_add_items (k k' : hkey) (c : list pyval) (inv' : invoice)
      (m : invoices) :
  In (k', inv') (add_items k c m) ->
  exists inv, In (k', inv) m /\ inv_id inv' = inv_id inv.
Proof.
  induction m as [|[k0 inv0] m IH]; simpl; [tauto|].
  destruct (hkey_eqb k k0); simpl.
  - intros [[= <- <-] | H]; [exists inv0 | exists inv']; auto.
  - intros [[= <- <-] | H]; [exists inv0; auto|].
    destruct (IH H) as (inv & Hin & E). exists inv; auto.
Qed.

Lemma NoDup_snoc {A : Type} (x : A) (l : list A) :
  NoDup l -> ~ In x l -> NoDup (l ++ [x])%list.
Proof.
  induction 1 as [|y l Hy Hl IH]; intros Hx; simpl.
  - constructor; [tauto | constructor].
  - constructor.
    + rewrite in_app_iff. simpl. intros [H | [H | []]]; [tauto|].
      apply Hx. left; congruence.
    + apply IH. intros H. apply Hx. right; exact H.
Qed.

Lemma rows_of_app (k : hkey) (a b : list dict) :
  rows_of k (a ++ b)%list = (rows_of k a ++ rows_of k b)%list.
Proof. apply filter_app. Qed.

Lemma same_key_of (k k' : hkey) (row : dict) :
  row_key row = Some k -> same_key k' row = hkey_eqb k' k.
Proof. unfold same_key. now intros ->. Qed.

Lemma grouped_nil (nested : bool) : grouped nested [] [].
Proof.
  repeat split; simpl; [constructor | tauto].
Qed.

(** One pass through the loop body keeps the invoices grouped. *)
Lemma step_row_grouped (nested : bool) (done : list dict) (m : invoices)
      (row : dict) :
  grouped nested done m ->
  keyed row ->
  exists m', step_row nested row m = Ok m'
             /\ grouped nested (done ++ [row])%list m'.
Proof.
  intros (I1 & I2 & I3) Hkeyed.
  unfold keyed, row_key in Hkeyed. unfold step_row.
  destruct (dict_find row "invoice_id") as [id|] eqn:Eid; [|congruence].
  destruct (hash_key id) as [k|] eqn:Ek; [|congruence].
  assert (Hrow : row_key row = Some k) by (unfold row_key; now rewrite Eid).
  eexists; split; [reflexivity|].
  set (c := contribution nested row).
  set (new := {| inv_id := id;
                 inv_customer := dict_get row "customer_name" VNone;
                 inv_date := dict_get row "date" VNone;
                 inv_items := [] |}).
  assert (Hfind : forall k', find k' (ensure k id row m)
                             = match find k' m with
                               | Some x => Some x
                               | None => if hkey_eqb k' k then Some new
                                         else None
                               end).
  { intros k'. unfold ensure. rewrite has_key_find.
    destruct (find k m) as [inv|] eqn:Ef.
    - destruct (find k' m) as [x|] eqn:Ef'; [reflexivity|].
      destruct (hkey_eqb_spec k' k); [congruence | reflexivity].
    - apply find_snoc. }
  repeat split.
  - rewrite keys_add_items. unfold ensure. rewrite has_key_find.
    destruct (find k m) as [inv|] eqn:Ef; [exact I1|].
    rewrite map_app. apply NoDup_snoc; [exact I1|].
    now apply find_none_keys.
  - intros k' inv' Hin.
    apply in_add_items in Hin as (inv & Hin & ->).
    unfold ensure in Hin. destruct (has_key k m); [now apply I2|].
    apply in_app_iff in Hin as [Hin | [[= <- <-] | []]];
      [now apply I2 | exact Ek].
  - intros k'. rewrite rows_of_app. cbn [rows_of filter].
    rewrite (same_key_of _ _ _ Hrow), find_add_items, !Hfind.
    specialize (I3 k').
    destruct (hkey_eqb_spec k' k) as [->|Hk].
    + rewrite hkey_eqb_refl.
      destruct (rows_of k done) as [|r mine] eqn:Emine.
      * rewrite I3. cbn. exists (extend c new). split; [reflexivity|].
        cbn. now rewrite app_nil_r.
      * destruct I3 as (inv & -> & Hitems). cbn.
        exists (extend c inv). split; [reflexivity|].
        cbn [extend inv_items]. rewrite Hitems.
        cbn [flat_map]. rewrite flat_map_app. cbn [flat_map].
        now rewrite app_nil_r, app_assoc.
    + rewrite app_nil_r.
      destruct (rows_of k' done) as [|r mine].
      * now rewrite I3.
      * destruct I3 as (inv & -> & Hitems). exists inv; auto.
Qed.

(** The whole loop, on rows that all carry a usable [invoice_id]. *)
Lemma run_rows_grouped (nested : bool) (rows : list dict) :
  forall (done : list dict) (m : invoices),
    grouped nested done m ->
    Forall keyed rows ->
    exists m', run_rows nested rows m = Ok m'
               /\ grouped nested (done ++ rows)%list m'.
Proof.
  induction rows as [|row rows IH]; intros done m Hg Hk.
  - exists m. rewrite app_nil_r. auto.
  - inversion Hk as [|? ? Hrow Hrows]; subst.
    destruct (step_row_grouped _ _ _ _ Hg Hrow) as (m1 & E1 & Hg1).
    destruct (IH _ _ Hg1 Hrows) as (m' & E & Hg').
    exists m'. split.
    + cbn [run_rows]. rewrite E1. exact E.
    + now rewrite <- app_assoc in Hg'.
Qed.

Lemma filter_values_absent (k : hkey) (m : invoices) :
  (forall k' inv, In (k', inv) m -> hash_key (inv_id inv) = Some k') ->
  ~ In k (map fst m) ->
  filter (same_key k) (values m) = [].
Proof.
  induction m as [|[k0 inv0] m IH]; intros I2 Hk; [reflexivity|].
  cbn [values map filter snd].
  assert (E : same_key k (invoice_dict inv0) = hkey_eqb k k0).
  { apply same_key_of. unfold row_key. cbn. apply I2. left; reflexivity. }
  rewrite E. destruct (hkey_eqb_spec k k0) as [->|_].
  - exfalso. apply Hk. left; reflexivity.
  - apply IH.
    + intros k' inv Hin. apply I2. right; exact Hin.
    + intros Hin. apply Hk. right; exact Hin.
Qed.

Lemma filter_values_find (k : hkey) (inv : invoice) (m : invoices) :
  NoDup (map fst m) ->
  (forall k' inv', In (k', inv') m -> hash_key (inv_id inv') = Some k') ->
  find k m = Some inv ->
  filter (same_key k) (values m) = [invoice_dict inv].
Proof.
  induction m as [|[k0 inv0] m IH]; intros I1 I2 Hf; [discriminate|].
  cbn [values map filter snd].
  assert (E : same_key k (invoice_dict inv0) = hkey_eqb k k0).
  { apply same_key_of. unfold row_key. cbn. apply I2. left; reflexivity. }
  rewrite E. cbn [find] in Hf. inversion I1 as [|? ? Hnot Hnd]; subst.
  assert (I2' : forall k' inv', In (k', inv') m ->
                                hash_key (inv_id inv') = Some k').
  { intros k' inv' Hin. apply I2. right; exact Hin. }
  destruct (hkey_eqb_spec k k0) as [->|_].
  - injection Hf as ->. f_equal. now apply filter_values_absent.
  - now apply IH.
Qed.

(** What the records returned say about one invoice. *)
Lemma grouped_record (nested : bool) (rows : list dict) (m : invoices)
      (k : hkey) :
  grouped nested rows m ->
  rows_of k rows <> [] ->
  exists r,
    filter (same_key k) (values m) = [r]
    /\ dict_find r "items"
       = Some (VList (flat_map (contribution nested) (rows_of k rows))).
Proof.
  intros (I1 & I2 & I3) Hne. specialize (I3 k).
  destruct (rows_of k rows) as [|r0 mine]; [congruence|].
  destruct I3 as (inv & Hf & Hitems).
  exists (invoice_dict inv). split.
  - now apply filter_values_find.
  - cbn. now rewrite Hitems.
Qed.

End LoaderFacts.

Section LoaderClaims.

Import Grouping.

Lemma flat_map_singleton {A B : Type} (f : A -> B) (l : list A) :
  flat_map (fun x => [f x]) l = map f l.
Proof. induction l as [|x l IH]; simpl; [reflexivity | now rewrite IH]. Qed.

Lemma flat_map_contribution_flat (rows : list dict) :
  Forall flat rows ->
  flat_map (contribution true) rows = map flat_item rows.
Proof.
  induction 1 as [|row rows Hrow _ IH]; [reflexivity|].
  cbn [flat_map map]. rewrite IH. unfold contribution, flat in *.
  destruct (dict_find row "items") as [[]|]; try reflexivity.
  contradiction.
Qed.

(** A cell of a CSV row can always serve as a dict key. *)
Lemma csv_row_keyed (row : csv_row) :
  dict_find (row_dict row) "invoice_id" <> None -> keyed (row_dict row).
Proof.
  unfold keyed, row_key. intros H.
  destruct (dict_find (row_dict row) "invoice_id") as [v|] eqn:E;
    [clear H | congruence].
  induction row as [|[key c] row IH]; [discriminate|].
  cbn in E. destruct (key =? "invoice_id").
  - injection E as <-. destruct c; discriminate.
  - now apply IH.
Qed.

(** The CSV loop can only stop on a missing [invoice_id]. *)
Lemma run_csv_outcome (rows : list csv_row) :
  forall m : invoices,
    (exists m', run_csv (map row_dict rows) m = Ok m')
    \/ run_csv (map row_dict rows) m = Raise (KeyError "invoice_id").
Proof.
  induction rows as [|row rows IH]; intros m; [left; now exists m|].
  cbn [map run_csv].
  destruct (dict_find (row_dict row) "invoice_id") as [v|] eqn:E.
  - assert (keyed (row_dict row)) as Hk
        by (apply csv_row_keyed; congruence).
    destruct (step_row_grouped false [] [] (row_dict row)
                (grouped_nil false) Hk) as (m0 & E0 & _).
    unfold step_row in E0 |- *. rewrite E in *.
    destruct (hash_key v); [|discriminate]. cbn [bind]. apply IH.
  - right. unfold step_row. now rewrite E.
Qed.

Lemma run_csv_missing (rows : list csv_row) (row : csv_row) :
  In row rows ->
  dict_find (row_dict row) "invoice_id" = None ->
  forall m : invoices,
    run_csv (map row_dict rows) m = Raise (KeyError "invoice_id").
Proof.
  intros Hin Hnone. induction rows as [|r rows IH]; intros m; [contradiction|].
  cbn [map run_csv]. unfold step_row at 1.
  destruct Hin as [-> | Hin].
  - now rewrite Hnone.
  - destruct (dict_find (row_dict r) "invoice_id") as [v|] eqn:E;
      [|reflexivity].
    assert (keyed (row_dict r)) as Hk by (apply csv_row_keyed; congruence).
    unfold keyed, row_key in Hk. rewrite E in Hk.
    destruct (hash_key v); [|congruence]. cbn [bind]. now apply IH.
Qed.

Lemma run_json_app (a b : list pyval) :
  forall m : invoices,
    run_json (a ++ b) m = (m' <- run_json a m ;; run_json b m').
Proof.
  induction a as [|x a IH]; intros m; [reflexivity|].
  rewrite <- app_comm_cons. cbn [run_json].
  destruct (step_json x m) as [m1|e]; cbn [bind]; [apply IH | reflexivity].
Qed.

Lemma load_csv_ok (f : data_file) :
  open_error f = None ->
  file_suffix f = ".csv" ->
  csv_error f = None ->
  Forall keyed (map row_dict (csv_rows f)) ->
  exists m,
    load_data f = ([], Ok (Some (values m)))
    /\ grouped false (map row_dict (csv_rows f)) m.
Proof.
  intros Ho Hs He Hk.
  destruct (run_rows_grouped false _ [] [] (grouped_nil false) Hk)
    as (m & Hrun & Hg).
  exists m. split; [|exact Hg].
  unfold load_data, load_body. rewrite Ho, Hs, He. cbn [String.eqb].
  change (".csv" =? ".csv") with true. cbn iota.
  rewrite run_csv_rows, Hrun. reflexivity.
Qed.

Lemma load_json_ok (f : data_file) (objs : list dict) :
  open_error f = None ->
  file_suffix f = ".json" ->
  json_value f = Ok (VList (map VDict objs)) ->
  Forall keyed objs ->
  exists m,
    load_data f = ([], Ok (Some (values m))) /\ grouped true objs m.
Proof.
  intros Ho Hs Hj Hk.
  destruct (run_rows_grouped true _ [] [] (grouped_nil true) Hk)
    as (m & Hrun & Hg).
  exists m. split; [|exact Hg].
  unfold load_data, load_body. rewrite Ho, Hs, Hj.
  change (".json" =? ".csv") with false.
  change (".json" =? ".json") with true. cbn [bind py_iter].
  rewrite run_json_dicts, Hrun. reflexivity.
Qed.

(** A [str] that is not empty has a first character. *)
Lemma chars_first (c : ascii) (s : string) :
  exists ch rest, chars (String c s) = VStr ch :: rest.
Proof.
  unfold chars. cbn [Unicode.chars].
  destruct (Unicode.chars s) as [|[|c' ch] chs].
  - now eexists _, _.
  - now eexists _, _.
  - destruct (Unicode.is_continuation c'); now eexists _, _.
Qed.

(** A JSON document that is no array: the loop stops at the first thing
    it visits, or cannot start. *)
Lemma load_json_not_array (f : data_file) (data : pyval) :
  open_error f = None ->
  file_suffix f = ".json" ->
  json_value f = Ok data ->
  Ledger.not_iterable_as_rows data ->
  load_data f = ([], Raise TypeError).
Proof.
  intros Ho Hs Hj Hd. unfold load_data, load_body. rewrite Ho, Hs, Hj.
  change (".json" =? ".csv") with false.
  change (".json" =? ".json") with true. cbn [bind].
  destruct data as [| | | |s|l|d]; try reflexivity.
  - destruct s as [|c s]; [contradiction|].
    cbn [py_iter]. destruct (chars_first c s) as (ch & rest & ->).
    reflexivity.
  - contradiction.
  - destruct d as [|[key v] d]; [contradiction | reflexivity].
Qed.

End LoaderClaims.

(** C1, as amended.  From a CSV file, and from a JSON array of objects,
    the rows that share an [invoice_id] yield exactly one record, whose
    items are what these rows contribute, in source order: one line item
    per CSV row and per JSON object without a nested list, so N such rows
    give N items; a JSON object with a list under ["items"] contributes
    the members of that list instead. *)
Theorem load_data_groups_rows_by_invoice_id :
  (forall f : data_file,
      open_error f = None ->
      file_suffix f = ".csv" ->
      csv_error f = None ->
      Forall (fun row => dict_find (row_dict row) "invoice_id" <> None)
             (csv_rows f) ->
      exists records,
        load_data f = ([], Ok (Some records))
        /\ forall k,
             let mine := Grouping.rows_of k (map row_dict (csv_rows f)) in
             mine <> [] ->
             exists r,
               filter (Grouping.same_key k) records = [r]
               /\ dict_find r "items" = Some (VList (map flat_item mine)))
  /\ (forall (f : data_file) (objs : list dict),
         open_error f = None ->
         file_suffix f = ".json" ->
         json_value f = Ok (VList (map VDict objs)) ->
         Forall Grouping.keyed objs ->
         exists records,
           load_data f = ([], Ok (Some records))
           /\ forall k,
                let mine := Grouping.rows_of k objs in
                mine <> [] ->
                exists r,
                  filter (Grouping.same_key k) records = [r]
                  /\ dict_find r "items"
                     = Some (VList (flat_map (contribution true) mine))
                  /\ (Forall Grouping.flat mine ->
                      dict_find r "items"
                      = Some (VList (map flat_item mine)))).
Proof.
  split.
  - intros f Ho Hs He Hrows.
    assert (Hk : Forall Grouping.keyed (map row_dict (csv_rows f))).
    { apply Forall_map. eapply Forall_impl; [|exact Hrows].
      intros row. apply csv_row_keyed. }
    destruct (load_csv_ok f Ho Hs He Hk) as (m & Hload & Hg).
    exists (values m). split; [exact Hload|].
    intros k mine Hne.
    destruct (grouped_record false _ m k Hg Hne) as (r & Hr & Hitems).
    exists r. split; [exact Hr|].
    rewrite Hitems. unfold contribution.
    now rewrite (flat_map_singleton flat_item).
  - intros f objs Ho Hs Hj Hk.
    destruct (load_json_ok f objs Ho Hs Hj Hk) as (m & Hload & Hg).
    exists (values m). split; [exact Hload|].
    intros k mine Hne.
    destruct (grouped_record true _ m k Hg Hne) as (r & Hr & Hitems).
    exists r. split; [exact Hr|]. split; [exact Hitems|].
    intros Hflat. rewrite Hitems. now rewrite flat_map_contribution_flat.
Qed.

(** Three CSV rows, the first and the last for invoice [A]. *)
Lemma load_data_groups_rows_by_invoice_id_witness :
  exists records,
    load_data Samples.csv_file = ([], Ok (Some records))
    /\ forall k,
         let mine :=
           Grouping.rows_of k (map row_dict (csv_rows Samples.csv_file)) in
         mine <> [] ->
         exists r,
           filter (Grouping.same_key k) records = [r]
           /\ dict_find r "items" = Some (VList (map flat_item mine)).
Proof.
  apply (proj1 load_data_groups_rows_by_invoice_id Samples.csv_file
               eq_refl eq_refl eq_refl).
  repeat constructor; discriminate.
Defined.

(** C1, as stated, fails: one JSON object (N = 1) with a nested list of
    two items yields a record with two items. *)
Lemma load_data_nested_list_is_not_one_item :
  length (Grouping.rows_of (KStr "A") [Samples.nested_object]) = 1
  /\ load_data (Samples.json_file (VList [VDict Samples.nested_object]))
     = ([], Ok (Some [ [("invoice_id", VStr "A");
                        ("customer_name", VNone);
                        ("date", VNone);
                        ("items", VList [VDict [("item_name", VStr "pen")];
                                         VDict [("item_name", VStr "ink")]])] ]))
  /\ length [VDict [("item_name", VStr "pen")];
             VDict [("item_name", VStr "ink")]] <> 1.
Proof. repeat split. discriminate. Qed.

(** C2.  A JSON object with a list under ["items"] contributes exactly
    the members of that list, as they are and in their order, to the
    record of its invoice, between what the objects before it and the
    objects after it contribute; its own top-level item fields
    contribute nothing. *)
Theorem load_data_takes_nested_items_verbatim
        (f : data_file) (before after : list dict) (d : dict)
        (l : list pyval) (k : hkey) :
  open_error f = None ->
  file_suffix f = ".json" ->
  json_value f = Ok (VList (map VDict (before ++ d :: after))) ->
  Forall Grouping.keyed (before ++ d :: after) ->
  Grouping.row_key d = Some k ->
  dict_find d "items" = Some (VList l) ->
  exists records r,
    load_data f = ([], Ok (Some records))
    /\ filter (Grouping.same_key k) records = [r]
    /\ dict_find r "items"
       = Some (VList (flat_map (contribution true) (Grouping.rows_of k before)
                        ++ l
                        ++ flat_map (contribution true)
                                    (Grouping.rows_of k after))).
Proof.
  intros Ho Hs Hj Hk Hd Hl.
  destruct (load_json_ok f _ Ho Hs Hj Hk) as (m & Hload & Hg).
  assert (Hmine : Grouping.rows_of k (before ++ d :: after)
                  = (Grouping.rows_of k before
                       ++ d :: Grouping.rows_of k after)%list).
  { rewrite rows_of_app. cbn [Grouping.rows_of filter].
    now rewrite (same_key_of _ _ _ Hd), hkey_eqb_refl. }
  destruct (grouped_record true _ m k Hg) as (r & Hr & Hitems).
  { rewrite Hmine. now destruct (Grouping.rows_of k before). }
  exists (values m), r. split; [exact Hload|]. split; [exact Hr|].
  rewrite Hitems, Hmine, flat_map_app. cbn [flat_map].
  unfold contribution at 2. now rewrite Hl.
Qed.

(** An object with both a nested list and item fields of its own: the
    record holds the nested item alone, with its extra field and without
    defaults added. *)
Lemma load_data_takes_nested_items_verbatim_witness :
  exists records r,
    load_data (Samples.json_file (VList [VDict Samples.mixed_object]))
    = ([], Ok (Some records))
    /\ filter (Grouping.same_key (KStr "A")) records = [r]
    /\ dict_find r "items"
       = Some (VList [VDict [("item_name", VStr "pen"); ("sku", VInt 7)]]).
Proof.
  apply (load_data_takes_nested_items_verbatim
           (Samples.json_file (VList [VDict Samples.mixed_object]))
           [] [] Samples.mixed_object
           [VDict [("item_name", VStr "pen"); ("sku", VInt 7)]] (KStr "A")
           eq_refl eq_refl eq_refl).
  - repeat constructor; discriminate.
  - reflexivity.
  - reflexivity.
Defined.

(** C4, as amended.  When the file cannot be opened or read, the reader
    or the parser rejects its syntax, or a row lacks [invoice_id], [load_data]
    prints one error naming the file and returns [None]: no record of
    the rows read so far is returned.  When the bytes of the file are
    not UTF-8, or the JSON document is no array, nothing is printed and
    [load_data] raises. *)
Theorem load_data_failure_returns_nothing (f : data_file) :
  (Grouping.reported_failure f ->
   exists e, load_data f = ([MLoadError (file_name f) e], Ok None))
  /\ (forall e : exn,
        Ledger.unreported_failure f e -> load_data f = ([], Raise e)).
Proof.
  split.
  - unfold Grouping.reported_failure, load_data, load_body.
    intros [Ho | [(Ho & Hs & H) | (Ho & Hs & H)]]; rewrite Ho.
    + exists IOError. reflexivity.
    + rewrite Hs. change (".csv" =? ".csv") with true. cbn iota.
      destruct H as [He | [He | (row & Hin & Hnone)]].
      * destruct (run_csv_outcome (csv_rows f) []) as [(m & ->) | ->].
        -- rewrite He. exists CsvError. reflexivity.
        -- exists (KeyError "invoice_id"). reflexivity.
      * destruct (run_csv_outcome (csv_rows f) []) as [(m & ->) | ->].
        -- rewrite He. exists IOError. reflexivity.
        -- exists (KeyError "invoice_id"). reflexivity.
      * rewrite (run_csv_missing _ _ Hin Hnone).
        exists (KeyError "invoice_id"). reflexivity.
    + rewrite Hs. change (".json" =? ".csv") with false.
      change (".json" =? ".json") with true. cbn iota.
      destruct H as [-> | [-> | (good & d & rest & -> & Hgood & Hnone)]].
      * exists JSONDecodeError. reflexivity.
      * exists IOError. reflexivity.
      * exists (KeyError "invoice_id"). cbn [bind py_iter].
        rewrite run_json_app, run_json_dicts.
        destruct (run_rows_grouped true good [] [] (grouped_nil true) Hgood)
          as (m & -> & _).
        cbn [bind run_json step_json]. unfold step_row. rewrite Hnone.
        reflexivity.
  - intros e (Ho & [(-> & [(Hs & Hrows & He) | (Hs & Hj)])
                   | (-> & Hs & data & Hj & Hd)]).
    + unfold load_data, load_body. rewrite Ho, Hs, He.
      change (".csv" =? ".csv") with true. cbn iota.
      destruct (run_csv_outcome (csv_rows f) []) as [(m & ->) | E].
      * reflexivity.
      * exfalso. revert E. generalize (@nil (hkey * invoice)).
        induction Hrows as [|row rows Hrow _ IH]; intros m0;
          [discriminate|].
        cbn [map run_csv]. unfold step_row at 1.
        destruct (dict_find (row_dict row) "invoice_id") as [v|] eqn:Ev;
          [|congruence].
        pose proof (csv_row_keyed row ltac:(congruence)) as Hk.
        unfold Grouping.keyed, Grouping.row_key in Hk. rewrite Ev in Hk.
        destruct (hash_key v); [|congruence]. cbn [bind]. apply IH.
    + unfold load_data, load_body. rewrite Ho, Hs, Hj. reflexivity.
    + now apply (load_json_not_array f data).
Qed.

(** A JSON array whose second object has no [invoice_id]: the first
    object's record is not returned.  The same array as the whole of a
    one-key object: the document is no array. *)
Lemma load_data_failure_returns_nothing_witness :
  (exists e,
      load_data (Samples.json_file Samples.headless)
      = ([MLoadError "data/sales.json" e], Ok None))
  /\ load_data (Samples.json_file (VDict [("rows", Samples.headless)]))
     = ([], Raise TypeError).
Proof.
  split.
  - apply (proj1 (load_data_failure_returns_nothing
                    (Samples.json_file Samples.headless))).
    right; right. repeat split.
    right; right.
    exists [[("invoice_id", VStr "A")]], [("customer_name", VStr "Bob")], [].
    repeat split.
    repeat constructor; discriminate.
  - apply (proj2 (load_data_failure_returns_nothing
                    (Samples.json_file (VDict [("rows", Samples.headless)])))).
    split; [reflexivity|]. right. repeat split.
    exists (VDict [("rows", Samples.headless)]). split; [reflexivity|].
    exact I.
Defined.

(** C4, as stated, fails: a file that cannot be decoded, and a JSON
    document that is one object without [invoice_id], are failures of
    reading and parsing for which [load_data] prints nothing and returns
    nothing: it raises. *)
Lemma load_data_lets_failures_escape :
  load_data Samples.undecodable_file = ([], Raise UnicodeDecodeError)
  /\ load_data (Samples.json_file Samples.lone_object)
     = ([], Raise TypeError).
Proof. split; reflexivity. Qed.

(** ** The export loop *)

Section ExportFacts.

Variable repr_opaque : pyval -> string.
Variables template_name template_content : string.



End ExportFacts.




(* ================================================================== *)
(** * Further properties *)

(** ** [select_item] *)

Section ItemFacts.

Import ItemChoice.

Variable A : Type.
Variable show : A -> string.

Lemma ask_rejects (items : list A) (line : string) (rest : list string) :
  misread (length items) line ->
  ask A items (line :: rest)
  = tell [IPrompt (length items); complaint line] (ask A items rest).
Proof.
  unfold misread, complaint. cbn [ask].
  destruct (py_int line) as [k|]; [|reflexivity].
  intros Hk.
  destruct ((1 <=? k) && (k <=? Z.of_nat (length items)))%Z eqn:E;
    [|reflexivity].
  apply andb_true_iff in E as [E1 E2]. apply Z.leb_le in E1, E2. lia.
Qed.

Lemma ask_accepts (items : list A) (line : string) (rest : list string)
      (k : Z) (d : A) :
  py_int line = Some k ->
  (1 <= k <= Z.of_nat (length items))%Z ->
  ask A items (line :: rest)
  = {| shown := [IPrompt (length items)];
       answer := Ok (nth (Z.to_nat (k - 1)) items d);
       left_over := rest |}.
Proof.
  intros Hk Hr. cbn [ask]. rewrite Hk.
  assert (((1 <=? k) && (k <=? Z.of_nat (length items)))%Z = true) as ->.
  { apply andb_true_iff. split; apply Z.leb_le; lia. }
  rewrite (nth_error_nth' items d (n := Z.to_nat (k - 1))) by lia.
  reflexivity.
Qed.

Lemma ask_dialogue (items : list A) (bad : list string) (good : string)
      (rest : list string) (k : Z) (d : A) :
  Forall (misread (length items)) bad ->
  py_int good = Some k ->
  (1 <= k <= Z.of_nat (length items))%Z ->
  ask A items (bad ++ good :: rest)
  = {| shown := (flat_map (fun line => [IPrompt (length items);
                                         complaint line]) bad
                   ++ [IPrompt (length items)])%list;
       answer := Ok (nth (Z.to_nat (k - 1)) items d);
       left_over := rest |}.
Proof.
  intros Hbad Hk Hr. induction Hbad as [|line bad Hline _ IH].
  - now apply ask_accepts.
  - rewrite <- app_comm_cons, (ask_rejects _ _ _ Hline), IH. reflexivity.
Qed.

Lemma ask_answer (items : list A) (inputs : list string) :
  match answer (ask A items inputs) with
  | Ok x => In x items
  | Raise e => e = EOFError
  end.
Proof.
  induction inputs as [|line rest IH]; [reflexivity|].
  cbn [ask]. destruct (py_int line) as [k|]; [|exact IH].
  destruct ((1 <=? k) && (k <=? Z.of_nat (length items)))%Z eqn:E;
    [|exact IH].
  apply andb_true_iff in E as [E1 E2]. apply Z.leb_le in E1, E2.
  cbn [answer].
  destruct (nth_error items (Z.to_nat (k - 1))) as [x|] eqn:En.
  - now apply nth_error_In in En.
  - apply nth_error_None in En. lia.
Qed.

End ItemFacts.

(** X1.  [select_item] on a non-empty list: lines that are no number,
    or a number out of range, each draw their complaint and a new
    prompt; the first line that reads as a number [k] between 1 and the
    length returns the [k]-th item and leaves the later lines unread. *)
Theorem select_item_dialogue
        (A : Type) (show : A -> string) (items : list A) (title : string)
        (bad : list string) (good : string) (rest : list string)
        (k : Z) (d : A) :
  items <> [] ->
  Forall (ItemChoice.misread (length items)) bad ->
  py_int good = Some k ->
  (1 <= k <= Z.of_nat (length items))%Z ->
  ItemChoice.select_item A show items title (bad ++ good :: rest)
  = {| ItemChoice.shown :=
         (ItemChoice.IHeader title :: ItemChoice.item_lines A show 1 items
            ++ flat_map (fun line => [ItemChoice.IPrompt (length items);
                                      ItemChoice.complaint line]) bad
            ++ [ItemChoice.IPrompt (length items)])%list;
       ItemChoice.answer := Ok (Some (nth (Z.to_nat (k - 1)) items d));
       ItemChoice.left_over := rest |}.
Proof.
  intros Hne Hbad Hk Hr.
  destruct items as [|x items]; [congruence|].
  unfold ItemChoice.select_item.
  rewrite (ask_dialogue A _ bad good rest k d Hbad Hk Hr). reflexivity.
Qed.

(** Two files; the user types a word, then 5, then 2. *)
Lemma select_item_dialogue_witness :
  ItemChoice.select_item string (fun s => s) ["data/a.csv"; "data/b.json"]
                         "data" ["first"; "5"; " 2 "; "1"]
  = {| ItemChoice.shown :=
         [ItemChoice.IHeader "data";
          ItemChoice.ILine 1 "data/a.csv"; ItemChoice.ILine 2 "data/b.json";
          ItemChoice.IPrompt 2; ItemChoice.INotNumber;
          ItemChoice.IPrompt 2; ItemChoice.IBadNumber;
          ItemChoice.IPrompt 2];
       ItemChoice.answer := Ok (Some "data/b.json");
       ItemChoice.left_over := ["1"] |}.
Proof.
  refine (select_item_dialogue string (fun s => s)
            ["data/a.csv"; "data/b.json"] "data" ["first"; "5"] " 2 " ["1"]
            2%Z "" _ _ eq_refl _).
  - discriminate.
  - apply Forall_cons; [exact I|]. apply Forall_cons; [|constructor].
    unfold ItemChoice.misread. change (py_int "5") with (Some 5%Z).
    cbn. lia.
  - cbn. lia.
Defined.

(** What [select_item] can answer. *)
Lemma select_item_answer
        (A : Type) (show : A -> string) (items : list A) (title : string)
        (inputs : list string) :
  match ItemChoice.answer (ItemChoice.select_item A show items title inputs) with
  | Ok None =>
      items = []
      /\ ItemChoice.select_item A show items title inputs
         = {| ItemChoice.shown := [ItemChoice.IHeader title;
                                   ItemChoice.INoFiles];
              ItemChoice.answer := Ok None;
              ItemChoice.left_over := inputs |}
  | Ok (Some x) => In x items
  | Raise e => e = EOFError /\ items <> []
  end.
Proof.
  destruct items as [|x0 items]; [split; reflexivity|].
  unfold ItemChoice.select_item. cbn [ItemChoice.answer].
  pose proof (ask_answer A (x0 :: items) inputs) as H.
  destruct (ItemChoice.answer (ItemChoice.ask A (x0 :: items) inputs))
    as [x|e]; cbn [bind].
  - exact H.
  - split; [exact H | discriminate].
Qed.


(** ** [select_records], whatever is typed *)

Section SelectionSafety.

Lemma classify_all_valid (n : nat) (sel : list Z) :
  snd (classify n sel) = [] ->
  fst (classify n sel) = sel
  /\ Forall (fun i => (0 <= i < Z.of_nat n)%Z) sel.
Proof.
  induction sel as [|i sel IH]; [split; [reflexivity | constructor]|].
  cbn [classify]. destruct (classify n sel) as [valid invalid].
  destruct (in_range n i) eqn:E; cbn [fst snd] in *; [|discriminate].
  intros H. destruct (IH H) as [-> Hall]. split; [reflexivity|].
  constructor; [|exact Hall].
  unfold in_range in E. apply andb_true_iff in E as [E1 E2].
  apply Z.leb_le in E1. apply Z.ltb_lt in E2. lia.
Qed.

Lemma indices_of_length (tokens : list string) (sel : list Z) :
  indices_of tokens = Some sel -> length sel = length tokens.
Proof.
  revert sel; induction tokens as [|t ts IH]; intros sel; cbn [indices_of].
  - now intros [= <-].
  - destruct (py_int (Str.strip t)); [|discriminate].
    destruct (indices_of ts) as [l|]; [|discriminate].
    intros [= <-]. cbn [length]. now rewrite (IH l eq_refl).
Qed.

Lemma sorted_set_nonempty (l : list Z) : l <> [] -> sorted_set l <> [].
Proof.
  destruct l as [|x l]; [congruence|]. intros _ E.
  assert (In x (sorted_set (x :: l))) as H
      by (apply sorted_set_In; left; reflexivity).
  rewrite E in H. exact H.
Qed.

Lemma sorted_set_in_range (n : nat) (l : list Z) :
  Forall (fun i => (0 <= i < Z.of_nat n)%Z) l ->
  Forall (fun i => (0 <= i < Z.of_nat n)%Z) (sorted_set l).
Proof.
  intros H. apply Forall_forall. intros i Hi.
  apply (proj1 (Forall_forall _ _) H). now apply sorted_set_In.
Qed.

Lemma map_nth_seq_from {B : Type} (d : B) (l pre : list B) :
  map (fun i => nth i (pre ++ l) d) (seq (length pre) (length l)) = l.
Proof.
  revert pre; induction l as [|x l IH]; intros pre; [reflexivity|].
  cbn [length seq map]. f_equal.
  - rewrite app_nth2 by lia. now rewrite Nat.sub_diag.
  - specialize (IH (pre ++ [x])%list).
    rewrite <- app_assoc, length_app in IH. cbn in IH.
    now rewrite Nat.add_1_r in IH.
Qed.

Lemma seq_sorted (a n : nat) :
  StronglySorted Z.lt (map Z.of_nat (seq a n)).
Proof.
  revert a; induction n as [|n IH]; intros a; [constructor|].
  cbn [seq map]. constructor; [apply IH|].
  apply Forall_forall. intros z Hz.
  apply in_map_iff in Hz as (i & <- & Hi). apply in_seq in Hi. lia.
Qed.

(** All the records, seen as a selection of positions. *)
Lemma all_is_selection (records : list dict) :
  exists pos,
    StronglySorted Z.lt pos
    /\ Forall (fun i => (0 <= i < Z.of_nat (length records))%Z) pos
    /\ records = map (fun i => nth (Z.to_nat i) records []) pos.
Proof.
  exists (map Z.of_nat (seq 0 (length records))). split; [|split].
  - apply seq_sorted.
  - apply Forall_forall. intros z Hz.
    apply in_map_iff in Hz as (i & <- & Hi). apply in_seq in Hi. lia.
  - rewrite map_map. symmetry.
    erewrite map_ext; [apply (map_nth_seq_from [] records [])|].
    intros i. cbv beta. now rewrite Nat2Z.id.
Qed.

Lemma choose_safe (records : list dict) (inputs : list string) :
  records <> [] ->
  ~ In MNothingSelected (printed (choose records inputs))
  /\ match outcome (choose records inputs) with
     | Ok l =>
         l <> []
         /\ exists pos,
              StronglySorted Z.lt pos
              /\ Forall (fun i => (0 <= i < Z.of_nat (length records))%Z) pos
              /\ l = map (fun i => nth (Z.to_nat i) records []) pos
     | Raise e => e = EOFError
     end.
Proof.
  intros Hrec. induction inputs as [|line rest [IHp IHo]].
  - cbn. split; [intros [H | []]; discriminate H | reflexivity].
  - assert (Hskip : forall m, m <> MNothingSelected ->
              ~ In MNothingSelected
                  (printed (say [MChoicePrompt; m] (choose records rest)))).
    { intros m Hm. cbn. intros [H | [H | H]];
        [discriminate H | congruence | now apply IHp]. }
    cbn [choose].
    destruct (Str.lower (Str.strip line) =? "all").
    { cbn. split; [intros [H | []]; discriminate H|].
      split; [exact Hrec | apply all_is_selection]. }
    destruct (Str.lower (Str.strip line) =? "").
    { split; [apply Hskip; discriminate | exact IHo]. }
    destruct (indices_of (Str.split "," (Str.lower (Str.strip line))))
      as [sel|] eqn:Esel.
    2:{ split; [apply Hskip; discriminate | exact IHo]. }
    destruct (classify (length records) sel) as [valid invalid] eqn:Ec.
    destruct invalid as [|b bad].
    2:{ split; [apply Hskip; discriminate | exact IHo]. }
    destruct (classify_all_valid (length records) sel) as [Hv Hall].
    { now rewrite Ec. }
    rewrite Ec in Hv. cbn [fst] in Hv. subst valid.
    rewrite (pick_in_range _ _ (sorted_set_in_range _ _ Hall)).
    assert (Hne : sorted_set sel <> []).
    { apply sorted_set_nonempty. intros ->.
      apply indices_of_length in Esel. cbn in Esel.
      symmetry in Esel. apply length_zero_iff_nil in Esel.
      now apply split_from_nonempty in Esel. }
    destruct (sorted_set sel) as [|i idx] eqn:Ess; [congruence|].
    cbn [map printed outcome]. split; [intros [H | []]; discriminate H|].
    split; [discriminate|].
    exists (i :: idx). rewrite <- Ess. split; [apply sorted_set_sorted|].
    split; [now apply sorted_set_in_range|].
    rewrite Ess. reflexivity.
Qed.

End SelectionSafety.

(** What [select_records] can return. *)
Lemma select_records_safe
        (records : list dict) (inputs : list string) :
  records <> [] ->
  ~ In MNothingSelected (printed (select_records records inputs))
  /\ match outcome (select_records records inputs) with
     | Ok l =>
         l <> []
         /\ exists pos,
              StronglySorted Z.lt pos
              /\ Forall (fun i => (0 <= i < Z.of_nat (length records))%Z) pos
              /\ l = map (fun i => nth (Z.to_nat i) records []) pos
     | Raise e => e = EOFError
     end.
Proof.
  intros Hrec. rewrite (select_records_nonempty _ _ Hrec).
  destruct (choose_safe records inputs Hrec) as [Hp Ho]. split.
  - cbn [say printed]. rewrite in_app_iff. intros [H | H]; [|now apply Hp].
    unfold Choice.menu in H. cbn in H. destruct H as [H | H]; [discriminate|].
    apply in_app_iff in H as [H | [H | []]]; [|discriminate].
    clear -H. revert H. generalize 1. induction records as [|r rs IH];
      intros n H; [exact H|].
    destruct H as [H | H]; [discriminate | now apply (IH (S n))].
  - exact Ho.
Qed.



Section SelectionOrder.

(** A strictly ascending list is determined by its members. *)
Lemma sorted_unique (l1 : list Z) :
  forall l2 : list Z,
    StronglySorted Z.lt l1 -> StronglySorted Z.lt l2 ->
    (forall x, In x l1 <-> In x l2) -> l1 = l2.
Proof.
  induction l1 as [|a l1 IH]; intros l2 H1 H2 Hmem.
  - destruct l2 as [|b l2]; [reflexivity|].
    exfalso. apply (Hmem b). left; reflexivity.
  - destruct l2 as [|b l2].
    { exfalso. apply (Hmem a). left; reflexivity. }
    apply StronglySorted_inv in H1 as [H1 Ha].
    apply StronglySorted_inv in H2 as [H2 Hb].
    rewrite Forall_forall in Ha, Hb.
    assert (a = b) as <-.
    { destruct (proj1 (Hmem a) (or_introl eq_refl)) as [E | Hin];
        [congruence|].
      destruct (proj2 (Hmem b) (or_introl eq_refl)) as [E | Hin'];
        [congruence|].
      specialize (Ha _ Hin'). specialize (Hb _ Hin). lia. }
    f_equal. apply IH; [exact H1 | exact H2|].
    intros x. split; intros Hx.
    + destruct (proj1 (Hmem x) (or_intror Hx)) as [E | Hin]; [|exact Hin].
      specialize (Ha _ Hx). lia.
    + destruct (proj2 (Hmem x) (or_intror Hx)) as [E | Hin]; [|exact Hin].
      specialize (Hb _ Hx). lia.
Qed.

Lemma positions_same_members (ns1 ns2 : list Z) :
  (forall n, In n ns1 <-> In n ns2) ->
  Choice.positions ns1 = Choice.positions ns2.
Proof.
  intros H. apply sorted_unique; try apply sorted_set_sorted.
  intros x. rewrite !positions_In. apply H.
Qed.

Lemma indices_of_none (tokens : list string) :
  Exists (fun tok => py_int (Str.strip tok) = None) tokens ->
  indices_of tokens = None.
Proof.
  induction 1 as [tok tokens H | tok tokens _ IH]; cbn [indices_of].
  - now rewrite H.
  - destruct (py_int (Str.strip tok)); [now rewrite IH | reflexivity].
Qed.

End SelectionOrder.

(** X4.  The order in which the numbers are typed and their repetition
    do not matter: two lines of in-range numbers that name the same set
    of numbers select the same records. *)
Theorem select_records_ignores_order_and_repeats
        (records : list dict) (line1 line2 : string)
        (rest1 rest2 : list string) (ns1 ns2 : list Z) :
  records <> [] ->
  Choice.reads_as line1 ns1 ->
  Choice.reads_as line2 ns2 ->
  Forall (fun n => Choice.in_bounds (length records) n = true) ns1 ->
  (forall n, In n ns1 <-> In n ns2) ->
  outcome (select_records records (line1 :: rest1))
  = outcome (select_records records (line2 :: rest2)).
Proof.
  intros Hrec H1 H2 Hb Hmem.
  assert (Hb2 : Forall (fun n => Choice.in_bounds (length records) n = true)
                       ns2).
  { apply Forall_forall. intros n Hn. rewrite Forall_forall in Hb.
    apply Hb. now apply Hmem. }
  rewrite (select_numbers _ _ _ _ Hrec H1 Hb).
  rewrite (select_numbers _ _ _ _ Hrec H2 Hb2).
  cbn [outcome]. now rewrite (positions_same_members ns1 ns2).
Qed.

(** ["3,1,3"] and ["1, 3"] select the same two of three records. *)
Lemma select_records_ignores_order_and_repeats_witness :
  outcome (select_records Samples.three_records ["3,1,3"])
  = outcome (select_records Samples.three_records ["1, 3"; "2"]).
Proof.
  refine (select_records_ignores_order_and_repeats Samples.three_records
            "3,1,3" "1, 3" [] ["2"] [3; 1; 3]%Z [1; 3]%Z _ _ _ _ _).
  - discriminate.
  - unfold Choice.reads_as.
    change (Str.split "," (Str.lower (Str.strip "3,1,3")))
      with ["3"; "1"; "3"].
    repeat constructor.
  - unfold Choice.reads_as.
    change (Str.split "," (Str.lower (Str.strip "1, 3"))) with ["1"; " 3"].
    repeat constructor.
  - repeat constructor.
  - intros n. cbn. intuition.
Defined.

(** X5.  A line other than [all] with at least one token that is no
    number selects nothing, whatever its other tokens: it draws the
    not-a-number message (the nothing-typed message when it is blank) and
    the dialogue goes on with the next line. *)
Theorem select_records_rejects_non_numbers
        (records : list dict) (line : string) (rest : list string) :
  records <> [] ->
  Str.lower (Str.strip line) <> "all" ->
  Exists (fun tok => py_int (Str.strip tok) = None)
         (Str.split "," (Str.lower (Str.strip line))) ->
  select_records records (line :: rest)
  = say (Choice.menu records)
      (say [MChoicePrompt;
            if Str.lower (Str.strip line) =? "" then MEmptyChoice
            else MNotNumbers]
           (choose records rest)).
Proof.
  intros Hrec Hall Hbad.
  rewrite (select_records_nonempty _ _ Hrec). cbn [choose].
  destruct (String.eqb_spec (Str.lower (Str.strip line)) "all");
    [contradiction|].
  destruct (Str.lower (Str.strip line) =? ""); [reflexivity|].
  now rewrite (indices_of_none _ Hbad).
Qed.

(** ["1,two"] on three records: record 1 is not taken. *)
Lemma select_records_rejects_non_numbers_witness :
  select_records Samples.three_records ["1,two"; "ALL"]
  = {| printed :=
         [MSelectHeader;
          MRecordLine 1 (VStr "a") (VStr "N/A");
          MRecordLine 2 (VStr "b") (VStr "N/A");
          MRecordLine 3 (VStr "c") (VStr "N/A");
          MSelectHelp; MChoicePrompt; MNotNumbers; MChoicePrompt];
       outcome := Ok Samples.three_records;
       unread := [] |}.
Proof.
  refine (select_records_rejects_non_numbers Samples.three_records
            "1,two" ["ALL"] _ _ _).
  - discriminate.
  - discriminate.
  - change (Str.split "," (Str.lower (Str.strip "1,two")))
      with ["1"; "two"].
    apply Exists_cons_tl, Exists_cons_hd. reflexivity.
Defined.

(** ** [load_data]: when it succeeds, and what the records look like *)

Section LedgerFacts.

Import Grouping Ledger.

Lemma run_json_ok_inv (elems : list pyval) :
  forall m m' : invoices,
    run_json elems m = Ok m' ->
    exists objs, elems = map VDict objs /\ Forall keyed objs.
Proof.
  induction elems as [|x elems IH]; intros m m' H.
  - exists []. split; [reflexivity | constructor].
  - cbn [run_json] in H.
    destruct (step_json x m) as [m1|e] eqn:E; [|discriminate].
    cbn [bind] in H. destruct (IH _ _ H) as (objs & -> & Hk).
    destruct x as [| | | | |l|d]; try discriminate E.
    exists (d :: objs). split; [reflexivity|]. constructor; [|exact Hk].
    unfold keyed, row_key. cbn [step_json] in E. unfold step_row in E.
    destruct (dict_find d "invoice_id") as [id|]; [|discriminate].
    destruct (hash_key id); [discriminate | discriminate].
Qed.

(** What one pass through the loop body does to the entry of each
    key. *)
Lemma find_step (nested : bool) (row : dict) (m m' : invoices)
      (id : pyval) (k : hkey) :
  dict_find row "invoice_id" = Some id ->
  hash_key id = Some k ->
  step_row nested row m = Ok m' ->
  forall k',
    find k' m'
    = if hkey_eqb k' k
      then Some (extend (contribution nested row)
                   match find k m with
                   | Some inv => inv
                   | None => {| inv_id := id;
                                inv_customer :=
                                  dict_get row "customer_name" VNone;
                                inv_date := dict_get row "date" VNone;
                                inv_items := [] |}
                   end)
      else find k' m.
Proof.
  intros Eid Ek Hstep k'. unfold step_row in Hstep.
  rewrite Eid, Ek in Hstep. injection Hstep as <-.
  rewrite find_add_items. unfold ensure. rewrite has_key_find.
  destruct (hkey_eqb_spec k' k) as [->|Hk].
  - destruct (find k m) as [inv|] eqn:Ef; [now rewrite Ef|].
    rewrite find_snoc, Ef, hkey_eqb_refl. reflexivity.
  - destruct (find k m) as [inv|] eqn:Ef; [reflexivity|].
    rewrite find_snoc. destruct (find k' m); [reflexivity|].
    destruct (hkey_eqb_spec k' k); [congruence | reflexivity].
Qed.

Lemma step_row_headed (nested : bool) (done : list dict) (m m' : invoices)
      (row : dict) :
  grouped nested done m ->
  headed done m ->
  step_row nested row m = Ok m' ->
  headed (done ++ [row])%list m'.
Proof.
  intros (_ & _ & I3) Hh Hstep k'.
  assert (exists id k, dict_find row "invoice_id" = Some id
                       /\ hash_key id = Some k) as (id & k & Eid & Ek).
  { unfold step_row in Hstep.
    destruct (dict_find row "invoice_id") as [id|]; [|discriminate].
    destruct (hash_key id) as [k|] eqn:Ek; [|discriminate].
    now exists id, k. }
  assert (Hrow : row_key row = Some k) by (unfold row_key; now rewrite Eid).
  rewrite rows_of_app. cbn [rows_of filter].
  rewrite (same_key_of _ _ _ Hrow), (find_step _ _ _ _ _ _ Eid Ek Hstep).
  specialize (I3 k'). specialize (Hh k').
  destruct (hkey_eqb_spec k' k) as [->|Hk].
  - destruct (rows_of k done) as [|first mine].
    + rewrite I3. cbn. eexists. split; [reflexivity|]. cbn. auto.
    + destruct Hh as (inv & -> & H1 & H2 & H3). cbn.
      eexists. split; [reflexivity|]. cbn. auto.
  - rewrite app_nil_r. exact Hh.
Qed.

Lemma run_rows_headed (nested : bool) (rows : list dict) :
  forall (done : list dict) (m m' : invoices),
    grouped nested done m ->
    headed done m ->
    Forall keyed rows ->
    run_rows nested rows m = Ok m' ->
    headed (done ++ rows)%list m'.
Proof.
  induction rows as [|row rows IH]; intros done m m' Hg Hh Hk Hrun.
  - injection Hrun as <-. now rewrite app_nil_r.
  - inversion Hk as [|? ? Hrow Hrows]; subst.
    destruct (step_row_grouped _ _ _ _ Hg Hrow) as (m1 & E1 & Hg1).
    cbn [run_rows] in Hrun. rewrite E1 in Hrun. cbn [bind] in Hrun.
    pose proof (step_row_headed _ _ _ _ _ Hg Hh E1) as Hh1.
    specialize (IH _ _ _ Hg1 Hh1 Hrows Hrun).
    now rewrite <- app_assoc in IH.
Qed.

Lemma headed_nil : headed [] [].
Proof. intros k. exact I. Qed.

(** The keys of the dict depend on the keys met, not on the rows. *)
Lemma has_key_keys (k : hkey) (m : invoices) :
  has_key k m = existsb (hkey_eqb k) (map fst m).
Proof.
  induction m as [|[k0 inv0] m IH]; [reflexivity|].
  cbn. now rewrite IH.
Qed.

Lemma keys_step (nested : bool) (row : dict) (m m' : invoices) (k : hkey) :
  row_key row = Some k ->
  step_row nested row m = Ok m' ->
  map fst m' = (map fst m ++ if has_key k m then [] else [k])%list.
Proof.
  unfold row_key, step_row.
  destruct (dict_find row "invoice_id") as [id|]; [|discriminate].
  intros Ek. rewrite Ek. intros [= <-].
  rewrite keys_add_items. unfold ensure.
  destruct (has_key k m); [now rewrite app_nil_r|].
  now rewrite map_app.
Qed.

Lemma filter_and {B : Type} (f g : B -> bool) (l : list B) :
  filter (fun x => f x && g x) l = filter f (filter g l).
Proof.
  induction l as [|x l IH]; [reflexivity|].
  cbn [filter]. destruct (g x); cbn [filter].
  - rewrite andb_true_r. destruct (f x); now rewrite IH.
  - now rewrite andb_false_r.
Qed.

Lemma run_rows_keys (nested : bool) (rows : list dict) :
  forall m m' : invoices,
    Forall keyed rows ->
    run_rows nested rows m = Ok m' ->
    map fst m'
    = (map fst m
         ++ filter (fun k => negb (has_key k m)) (first_seen (keys_of rows)))%list.
Proof.
  induction rows as [|row rows IH]; intros m m' Hk Hrun.
  - injection Hrun as <-. cbn. now rewrite app_nil_r.
  - inversion Hk as [|? ? Hrow Hrows]; subst.
    unfold keyed in Hrow.
    destruct (row_key row) as [k|] eqn:Ekey; [|congruence].
    cbn [run_rows] in Hrun.
    destruct (step_row nested row m) as [m1|e] eqn:E1; [|discriminate].
    cbn [bind] in Hrun.
    rewrite (IH _ _ Hrows Hrun), (keys_step _ _ _ _ _ Ekey E1).
    unfold keys_of. cbn [flat_map]. rewrite Ekey.
    cbn [app first_seen filter]. fold (keys_of rows).
    rewrite <- app_assoc. f_equal.
    assert (Hfilter :
              filter (fun x => negb (has_key x m1)) (first_seen (keys_of rows))
              = filter (fun x => negb (has_key x m))
                  (filter (fun x => negb (hkey_eqb x k))
                          (first_seen (keys_of rows)))).
    { rewrite <- filter_and. apply filter_ext. intros x.
      rewrite !has_key_keys, (keys_step _ _ _ _ _ Ekey E1), existsb_app.
      rewrite <- !has_key_keys.
      destruct (has_key k m) eqn:Hkm; cbn [existsb].
      - rewrite orb_false_r.
        destruct (hkey_eqb_spec x k) as [->|_]; [now rewrite Hkm|].
        now rewrite andb_true_r.
      - rewrite orb_false_r, negb_orb. reflexivity. }
    rewrite Hfilter. change ([k] ++ keys_of rows)%list with (k :: keys_of rows).
    cbn [first_seen filter]. now destruct (has_key k m).
Qed.

Lemma values_keys (m : invoices) :
  (forall k inv, In (k, inv) m -> hash_key (inv_id inv) = Some k) ->
  map row_key (values m) = map Some (map fst m).
Proof.
  induction m as [|[k0 inv0] m IH]; intros I2; [reflexivity|].
  cbn [values map fst snd]. f_equal.
  - unfold row_key. cbn. apply I2. left; reflexivity.
  - apply IH. intros k inv Hin. apply I2. right; exact Hin.
Qed.

Lemma first_seen_NoDup (ks : list hkey) : NoDup (first_seen ks).
Proof.
  induction ks as [|k ks IH]; cbn [first_seen]; constructor.
  - intros Hin. apply filter_In in Hin as [_ Hin].
    now rewrite hkey_eqb_refl in Hin.
  - now apply NoDup_filter.
Qed.

(** Appending to an entry that exists adds just these items. *)
Lemma held_add_items (k : hkey) (c : list pyval) (m : invoices) :
  has_key k m = true ->
  Permutation (held (add_items k c m)) (held m ++ c).
Proof.
  induction m as [|[k0 inv0] m IH]; [discriminate|].
  cbn [has_key add_items]. destruct (hkey_eqb k k0); cbn [orb].
  - intros _. unfold held. cbn [flat_map snd inv_items].
    rewrite <- !app_assoc. apply Permutation_app_head, Permutation_app_comm.
  - intros H. unfold held in *. cbn [flat_map snd].
    rewrite <- app_assoc. now apply Permutation_app_head, IH.
Qed.

Lemma held_step (nested : bool) (row : dict) (m m' : invoices) :
  step_row nested row m = Ok m' ->
  Permutation (held m') (held m ++ contribution nested row).
Proof.
  unfold step_row.
  destruct (dict_find row "invoice_id") as [id|]; [|discriminate].
  destruct (hash_key id) as [k|]; [|discriminate]. intros [= <-].
  rewrite held_add_items.
  - apply Permutation_app_tail. unfold ensure.
    destruct (has_key k m); [reflexivity|].
    unfold held. rewrite flat_map_app. cbn. now rewrite !app_nil_r.
  - unfold ensure. destruct (has_key k m) eqn:E; [exact E|].
    rewrite has_key_keys, map_app, existsb_app. cbn.
    rewrite hkey_eqb_refl. apply orb_true_r.
Qed.

Lemma held_run (nested : bool) (rows : list dict) :
  forall m m' : invoices,
    run_rows nested rows m = Ok m' ->
    Permutation (held m') (held m ++ flat_map (contribution nested) rows).
Proof.
  induction rows as [|row rows IH]; intros m m' Hrun.
  - injection Hrun as <-. cbn. now rewrite app_nil_r.
  - cbn [run_rows] in Hrun.
    destruct (step_row nested row m) as [m1|e] eqn:E1; [|discriminate].
    cbn [bind] in Hrun. rewrite (IH _ _ Hrun), (held_step _ _ _ _ E1).
    cbn [flat_map]. now rewrite app_assoc.
Qed.

Lemma held_values (m : invoices) :
  flat_map record_items (values m) = held m.
Proof.
  induction m as [|[k0 inv0] m IH]; [reflexivity|].
  unfold held in *. cbn [values map flat_map snd]. now rewrite <- IH.
Qed.

End LedgerFacts.

Section LedgerClaims.

Import Grouping Ledger.

Lemma run_rows_ok_keyed (nested : bool) (rows : list dict) :
  forall m m' : invoices,
    run_rows nested rows m = Ok m' -> Forall keyed rows.
Proof.
  induction rows as [|row rows IH]; intros m m' H; [constructor|].
  cbn [run_rows] in H.
  destruct (step_row nested row m) as [m1|e] eqn:E; [|discriminate].
  constructor; [|exact (IH _ _ H)].
  unfold keyed, row_key. unfold step_row in E.
  destruct (dict_find row "invoice_id") as [id|]; [|discriminate].
  destruct (hash_key id); discriminate.
Qed.

(** A successful load is a completed run of the loop over the rows. *)
Lemma load_ok_run (f : data_file) (out : list msg) (records rows : list dict) :
  load_data f = (out, Ok (Some records)) ->
  rows_read f rows ->
  exists m,
    run_rows (nested_mode f) rows [] = Ok m
    /\ records = values m
    /\ Forall keyed rows.
Proof.
  unfold load_data, nested_mode. intros Hload Hrows.
  destruct (load_body f) as [r|e] eqn:Eb.
  2:{ destruct (Loader.handled e); discriminate. }
  injection Hload as _ ->. unfold load_body in Eb.
  destruct (open_error f); [discriminate|].
  destruct Hrows as [(Hs & ->) | (Hs & data & Hj & Hi)]; rewrite Hs in *.
  - change (".csv" =? ".csv") with true in Eb.
    change (".csv" =? ".json") with false. cbn iota in Eb.
    rewrite run_csv_rows in Eb.
    destruct (run_rows false (map row_dict (csv_rows f)) []) as [m|e] eqn:Er;
      [|discriminate].
    cbn [bind] in Eb. destruct (csv_error f); [discriminate|].
    injection Eb as <-. exists m. repeat split.
    now apply run_rows_ok_keyed in Er.
  - change (".json" =? ".csv") with false in Eb.
    change (".json" =? ".json") with true in *. cbn iota in Eb.
    rewrite Hj in Eb. cbn [bind] in Eb. rewrite Hi, run_json_dicts in Eb.
    destruct (run_rows true rows []) as [m|e] eqn:Er; [|discriminate].
    injection Eb as <-. exists m. repeat split.
    now apply run_rows_ok_keyed in Er.
Qed.

Lemma load_ok_grouped (f : data_file) (out : list msg)
      (records rows : list dict) :
  load_data f = (out, Ok (Some records)) ->
  rows_read f rows ->
  exists m,
    run_rows (nested_mode f) rows [] = Ok m
    /\ records = values m
    /\ grouped (nested_mode f) rows m.
Proof.
  intros Hload Hrows.
  destruct (load_ok_run _ _ _ _ Hload Hrows) as (m & Hrun & -> & Hk).
  destruct (run_rows_grouped (nested_mode f) rows [] []
              (grouped_nil _) Hk) as (m' & Hrun' & Hg).
  rewrite Hrun in Hrun'. injection Hrun' as <-.
  exists m. auto.
Qed.

End LedgerClaims.

(** X6.  [load_data] returns a list exactly when nothing goes wrong on
    the way: for an opened CSV file, when the reader does not fail and
    every row has an [invoice_id]; for an opened and parsed JSON file,
    when every member the loop visits is an object with a hashable
    [invoice_id]. *)
Theorem load_data_succeeds_exactly_when :
  (forall f : data_file,
      open_error f = None ->
      file_suffix f = ".csv" ->
      (exists records, load_data f = ([], Ok (Some records)))
      <-> (csv_error f = None
           /\ Forall (fun row => dict_find (row_dict row) "invoice_id" <> None)
                     (csv_rows f)))
  /\ (forall (f : data_file) (data : pyval),
         open_error f = None ->
         file_suffix f = ".json" ->
         json_value f = Ok data ->
         (exists records, load_data f = ([], Ok (Some records)))
         <-> (exists objs, py_iter data = Some (map VDict objs)
                           /\ Forall Grouping.keyed objs)).
Proof.
  split.
  - intros f Ho Hs. split.
    + intros (records & Hload).
      unfold load_data, load_body in Hload. rewrite Ho, Hs in Hload.
      change (".csv" =? ".csv") with true in Hload. cbn iota in Hload.
      destruct (run_csv (map row_dict (csv_rows f)) []) as [m|e] eqn:Er.
      * cbn [bind] in Hload.
        destruct (csv_error f) as [e|].
        { destruct (Loader.handled e); discriminate. }
        split; [reflexivity|]. apply Forall_forall. intros row Hin Hnone.
        rewrite (run_csv_missing _ _ Hin Hnone) in Er. discriminate.
      * cbn [bind] in Hload. destruct (Loader.handled e); discriminate.
    + intros (He & Hrows).
      assert (Hk : Forall Grouping.keyed (map row_dict (csv_rows f))).
      { apply Forall_map. eapply Forall_impl; [|exact Hrows].
        intros row. apply csv_row_keyed. }
      destruct (load_csv_ok f Ho Hs He Hk) as (m & Hload & _).
      now exists (values m).
  - intros f data Ho Hs Hj. split.
    + intros (records & Hload).
      unfold load_data, load_body in Hload. rewrite Ho, Hs, Hj in Hload.
      change (".json" =? ".csv") with false in Hload.
      change (".json" =? ".json") with true in Hload.
      cbn [bind] in Hload.
      destruct (py_iter data) as [elems|]; [|discriminate].
      destruct (run_json elems []) as [m|e] eqn:Er.
      * destruct (run_json_ok_inv _ _ _ Er) as (objs & -> & Hk).
        now exists objs.
      * cbn [bind] in Hload. destruct (Loader.handled e); discriminate.
    + intros (objs & Hi & Hk).
      destruct (run_rows_grouped true objs [] [] (grouped_nil true) Hk)
        as (m & Hrun & _).
      exists (values m). unfold load_data, load_body.
      rewrite Ho, Hs, Hj.
      change (".json" =? ".csv") with false.
      change (".json" =? ".json") with true. cbn [bind].
      rewrite Hi, run_json_dicts, Hrun. reflexivity.
Qed.

Lemma NoDup_map_Some {B : Type} (l : list B) :
  NoDup l -> NoDup (map Some l).
Proof.
  induction 1 as [|x l Hx _ IH]; cbn [map]; constructor; [|exact IH].
  intros Hin. apply in_map_iff in Hin as (y & [= ->] & Hy). contradiction.
Qed.

(** The CSV sample loads, and does so for the stated reason. *)
Lemma load_data_succeeds_exactly_when_witness :
  (exists records, load_data Samples.csv_file = ([], Ok (Some records)))
  <-> (csv_error Samples.csv_file = None
       /\ Forall (fun row => dict_find (row_dict row) "invoice_id" <> None)
                 (csv_rows Samples.csv_file)).
Proof.
  exact (proj1 load_data_succeeds_exactly_when Samples.csv_file
               eq_refl eq_refl).
Defined.

(** X7.  The records of a successful load come one per [invoice_id], in
    the order in which the ids first appear in the file. *)
Theorem load_data_orders_by_first_appearance
        (f : data_file) (out : list msg) (records rows : list dict) :
  load_data f = (out, Ok (Some records)) ->
  Ledger.rows_read f rows ->
  map Grouping.row_key records
  = map Some (Ledger.first_seen (Ledger.keys_of rows))
  /\ NoDup (map Grouping.row_key records).
Proof.
  intros Hload Hrows.
  destruct (load_ok_grouped _ _ _ _ Hload Hrows)
    as (m & Hrun & -> & (I1 & I2 & _)).
  pose proof (run_rows_ok_keyed _ _ _ _ Hrun) as Hk.
  pose proof (run_rows_keys _ _ _ _ Hk Hrun) as Hkeys.
  cbn [map app] in Hkeys.
  rewrite (filter_all (fun k => negb (has_key k []))) in Hkeys
    by (apply Forall_forall; reflexivity).
  rewrite (values_keys m I2), Hkeys. split; [reflexivity|].
  apply NoDup_map_Some, first_seen_NoDup.
Qed.

(** Ids A, B, A in the file: records A, B. *)
Lemma load_data_orders_by_first_appearance_witness :
  map Grouping.row_key Samples.csv_records = [Some (KStr "A"); Some (KStr "B")]
  /\ NoDup (map Grouping.row_key Samples.csv_records).
Proof.
  refine (load_data_orders_by_first_appearance Samples.csv_file []
            Samples.csv_records
            (map row_dict (csv_rows Samples.csv_file)) eq_refl _).
  left. split; reflexivity.
Defined.

(** X8.  The header of a record is that of the first row of its id: its
    [invoice_id], [customer_name] and [date] are read there, and what
    later rows of the same id say about customer and date is not
    looked at. *)
Theorem load_data_header_from_first_row
        (f : data_file) (out : list msg) (records rows : list dict)
        (k : hkey) (first : dict) (others : list dict) :
  load_data f = (out, Ok (Some records)) ->
  Ledger.rows_read f rows ->
  Grouping.rows_of k rows = first :: others ->
  exists r,
    filter (Grouping.same_key k) records = [r]
    /\ dict_find r "invoice_id" = dict_find first "invoice_id"
    /\ dict_find r "customer_name"
       = Some (dict_get first "customer_name" VNone)
    /\ dict_find r "date" = Some (dict_get first "date" VNone).
Proof.
  intros Hload Hrows Hmine.
  destruct (load_ok_grouped _ _ _ _ Hload Hrows) as (m & Hrun & -> & Hg).
  pose proof (run_rows_ok_keyed _ _ _ _ Hrun) as Hk.
  pose proof (run_rows_headed _ rows [] [] m (grouped_nil _) headed_nil
                Hk Hrun k) as Hh.
  rewrite app_nil_l, Hmine in Hh.
  destruct Hh as (inv & Hf & H1 & H2 & H3).
  destruct Hg as (I1 & I2 & _).
  exists (invoice_dict inv). split; [now apply filter_values_find|].
  cbn. now rewrite H1, H2, H3.
Qed.

(** Two rows of invoice 7 that disagree on the customer: the first
    one's is kept. *)
Lemma load_data_header_from_first_row_witness :
  exists r,
    filter (Grouping.same_key (KStr "7")) Samples.two_customers_records = [r]
    /\ dict_find r "invoice_id" = Some (VStr "7")
    /\ dict_find r "customer_name" = Some (VStr "Ann")
    /\ dict_find r "date" = Some VNone.
Proof.
  refine (load_data_header_from_first_row Samples.two_customers_file []
            Samples.two_customers_records
            (map row_dict (csv_rows Samples.two_customers_file)) (KStr "7")
            [("invoice_id", VStr "7"); ("customer_name", VStr "Ann")]
            [[("invoice_id", VStr "7"); ("customer_name", VStr "Bob")]]
            eq_refl _ eq_refl).
  left. split; reflexivity.
Defined.

(** X9.  Nothing is lost and nothing is doubled: the line items of all
    the records of a successful load are, up to order, what the rows of
    the file contribute; from a CSV file, one line item per row. *)
Theorem load_data_keeps_every_item
        (f : data_file) (out : list msg) (records rows : list dict) :
  load_data f = (out, Ok (Some records)) ->
  Ledger.rows_read f rows ->
  Permutation (flat_map Ledger.record_items records)
              (flat_map (contribution (Ledger.nested_mode f)) rows)
  /\ (Ledger.nested_mode f = false ->
      Permutation (flat_map Ledger.record_items records)
                  (map flat_item rows)).
Proof.
  intros Hload Hrows.
  destruct (load_ok_run _ _ _ _ Hload Hrows) as (m & Hrun & -> & _).
  assert (H : Permutation (flat_map Ledger.record_items (values m))
                (flat_map (contribution (Ledger.nested_mode f)) rows)).
  { rewrite held_values. exact (held_run _ _ _ _ Hrun). }
  split; [exact H|].
  intros Hmode. rewrite Hmode in H. unfold contribution in H.
  now rewrite (flat_map_singleton flat_item) in H.
Qed.

(** The three rows of the CSV sample are the three line items of its
    two records. *)
Lemma load_data_keeps_every_item_witness :
  Permutation (flat_map Ledger.record_items Samples.csv_records)
              (flat_map (contribution false)
                        (map row_dict (csv_rows Samples.csv_file)))
  /\ (Ledger.nested_mode Samples.csv_file = false ->
      Permutation (flat_map Ledger.record_items Samples.csv_records)
                  (map flat_item (map row_dict (csv_rows Samples.csv_file)))).
Proof.
  refine (load_data_keeps_every_item Samples.csv_file [] Samples.csv_records
            (map row_dict (csv_rows Samples.csv_file)) eq_refl _).
  left. split; reflexivity.
Defined.

(** X10.  A JSON document that is not an array is not treated as a
    format error: a single object with at least one key, a non-empty
    string, a number, a boolean or null makes [load_data] raise
    [TypeError] past its handler, with nothing printed. *)
Theorem load_data_raises_on_non_array (f : data_file) (data : pyval) :
  open_error f = None ->
  file_suffix f = ".json" ->
  json_value f = Ok data ->
  Ledger.not_iterable_as_rows data ->
  load_data f = ([], Raise TypeError).
Proof.
  apply load_json_not_array.
Qed.

(** One invoice object where an array of them is expected. *)
Lemma load_data_raises_on_non_array_witness :
  load_data (Samples.json_file (VDict [("invoice_id", VStr "A");
                                       ("amount", VStr "5")]))
  = ([], Raise TypeError).
Proof.
  apply (load_data_raises_on_non_array
           (Samples.json_file (VDict [("invoice_id", VStr "A");
                                      ("amount", VStr "5")]))
           (VDict [("invoice_id", VStr "A"); ("amount", VStr "5")])
           eq_refl eq_refl eq_refl).
  exact I.
Defined.

(** ** [generate_html]: when it returns, and the rows it writes *)

Section RowFacts.

Variable repr_opaque : pyval -> string.

(** [float] raises nothing but these three. *)
Lemma py_float_raises (v : pyval) (e : exn) :
  py_float v = Raise e ->
  e = TypeError \/ e = ValueError \/ e = OverflowError.
Proof.
  destruct v as [|b|z|x|s|l|d]; cbn [py_float].
  - intros [= <-]; auto.
  - discriminate.
  - destruct (Float.of_int z); [discriminate | intros [= <-]; auto].
  - discriminate.
  - destruct (Float.of_string s); [discriminate | intros [= <-]; auto].
  - intros [= <-]; auto.
  - intros [= <-]; auto.
Qed.

Lemma item_step_ok (st : string * float64) (item : pyval) :
  (exists st', item_step repr_opaque st item = Ok st')
  <-> Rows.renderable item.
Proof.
  unfold item_step, Rows.renderable.
  destruct item as [| | | | | |d];
    try (split; [intros (st' & H); discriminate H | contradiction]).
  destruct (py_float (dict_get d "amount" (VInt 0))) as [x|e] eqn:E.
  - split; [discriminate | eauto].
  - destruct (py_float_raises _ _ E) as [-> | [-> | ->]].
    + split; [discriminate | eauto].
    + split; [discriminate | eauto].
    + split; [intros (st' & H); discriminate H | congruence].
Qed.

Lemma item_loop_ok (items : list pyval) :
  forall st : string * float64,
    (exists st', item_loop repr_opaque st items = Ok st')
    <-> Forall Rows.renderable items.
Proof.
  induction items as [|item items IH]; intros st.
  - split; [constructor | intros _; now exists st].
  - cbn [item_loop]. split.
    + intros (st' & H).
      destruct (item_step repr_opaque st item) as [st1|e] eqn:E;
        [|discriminate].
      constructor.
      * apply (item_step_ok st). eauto.
      * apply (IH st1). eauto.
    + intros H. inversion H as [|? ? Hi Hrest]; subst.
      apply (item_step_ok st) in Hi as (st1 & ->). cbn [bind].
      now apply IH.
Qed.

Lemma item_step_row (st st' : string * float64) (item : pyval) :
  item_step repr_opaque st item = Ok st' ->
  fst st' = fst st ++ Rows.row_html repr_opaque item.
Proof.
  unfold item_step, Rows.row_html. destruct item; try discriminate.
  assert (forall x : float64,
             fst (((((((fst st ++ "<tr>")
                  ++ td repr_opaque (dict_get d "item_name" (VStr "")))
                 ++ td repr_opaque (dict_get d "quantity" (VInt 0)))
                ++ td repr_opaque (dict_get d "price" (VInt 0)))
               ++ td repr_opaque (dict_get d "amount" (VInt 0)))
              ++ "</tr>" ++ newline), x)
             = fst st
                 ++ "<tr>" ++ td repr_opaque (dict_get d "item_name" (VStr ""))
                 ++ td repr_opaque (dict_get d "quantity" (VInt 0))
                 ++ td repr_opaque (dict_get d "price" (VInt 0))
                 ++ td repr_opaque (dict_get d "amount" (VInt 0))
                 ++ "</tr>" ++ newline) as H.
  { intros x. cbn [fst]. now rewrite !append_assoc. }
  destruct (py_float (dict_get d "amount" (VInt 0))) as [x|e].
  - intros [= <-]. apply H.
  - destruct e; intros [= <-]; apply (H (snd st)).
Qed.

Lemma item_loop_rows (items : list pyval) :
  forall st st' : string * float64,
    item_loop repr_opaque st items = Ok st' ->
    fst st' = fst st
              ++ Rows.concat_all (map (Rows.row_html repr_opaque) items).
Proof.
  induction items as [|item items IH]; intros st st' H.
  - injection H as <-. cbn. now rewrite append_nil_r.
  - cbn [item_loop] in H.
    destruct (item_step repr_opaque st item) as [st1|e] eqn:E;
      [|discriminate].
    cbn [bind] in H. rewrite (IH _ _ H), (item_step_row _ _ _ E).
    cbn [map Rows.concat_all]. now rewrite append_assoc.
Qed.

(** A string in which the searched text does not occur is left as it
    is. *)
Lemma replace_from_absent (tok v s : string) :
  Str.contains tok s = false -> Str.replace_from tok v 0 s = s.
Proof.
  induction s as [|c s IH]; [reflexivity|].
  cbn [Str.contains Str.replace_from]. intros H.
  apply orb_false_iff in H as [Hp Hc]. rewrite Hp. now rewrite IH.
Qed.

End RowFacts.

(** When the loop over the items completes. *)
Lemma generate_html_ok_iff
        (repr_opaque : pyval -> string) (template_content : string)
        (record : dict) :
  (exists html, generate_html repr_opaque template_content record = Ok html)
  <-> (exists items,
          py_iter (dict_get record "items" (VList [])) = Some items
          /\ Forall Rows.renderable items).
Proof.
  unfold generate_html, render_items.
  destruct (py_iter (dict_get record "items" (VList []))) as [items|].
  - split.
    + intros (html & H). exists items. split; [reflexivity|].
      apply (item_loop_ok repr_opaque items ("", Float.zero)).
      destruct (item_loop repr_opaque ("", Float.zero) items) as [st|e];
        [eauto | discriminate].
    + intros (items' & [= <-] & Hall).
      apply (item_loop_ok repr_opaque items ("", Float.zero)) in Hall
        as (st & ->).
      cbn [bind]. eauto.
  - split; [intros (html & H); discriminate H|].
    intros (items & H & _). discriminate H.
Qed.

(** X11.  [generate_html] returns exactly when the record's items can
    be iterated and each of them is a dict whose amount does not make
    [float] raise [OverflowError]; the template plays no part in it. *)
Theorem generate_html_returns_exactly_when
        (repr_opaque : pyval -> string) (template_content : string)
        (record : dict) :
  (exists html, generate_html repr_opaque template_content record = Ok html)
  <-> (exists items,
          py_iter (dict_get record "items" (VList [])) = Some items
          /\ Forall Rows.renderable items).
Proof.
  apply generate_html_ok_iff.
Qed.

(** X12.  The rows built for [{{ item_rows }}] are one [<tr>] line per
    item, in item order, each made from that item alone, with [''], [0],
    [0] and [0] standing in for a missing name, quantity, price and
    amount. *)
Theorem render_items_rows
        (repr_opaque : pyval -> string) (record : dict)
        (items : list pyval) (st : string * float64) :
  py_iter (dict_get record "items" (VList [])) = Some items ->
  render_items repr_opaque record = Ok st ->
  fst st = Rows.concat_all (map (Rows.row_html repr_opaque) items).
Proof.
  intros Hi Hst. unfold render_items in Hst. rewrite Hi in Hst.
  now rewrite (item_loop_rows repr_opaque _ _ _ Hst).
Qed.

(** A pen, and an item with no field at all. *)
Lemma render_items_rows_witness :
  fst Samples.pen_state
  = "<tr><td>pen</td><td>2</td><td>1.5</td><td>3</td></tr>" ++ newline
    ++ "<tr><td></td><td>0</td><td>0</td><td>0</td></tr>" ++ newline.
Proof.
  exact (render_items_rows Samples.no_repr Samples.pen_record
           [VDict [("item_name", VStr "pen"); ("quantity", VInt 2);
                   ("price", VStr "1.5"); ("amount", VStr "3")];
            VDict []]
           Samples.pen_state eq_refl eq_refl).
Defined.

Section CsvRender.

Import Grouping.

Lemma dict_get_row_dict (row : csv_row) (key : string) (d : pyval) :
  dict_get (row_dict row) key d = d
  \/ exists c, dict_get (row_dict row) key d = cell c.
Proof.
  unfold dict_get. induction row as [|[k0 c0] row IH]; [left; reflexivity|].
  cbn. destruct (k0 =? key); [right; now exists c0 | exact IH].
Qed.

(** The line item of a CSV row never stops the loop of
    [generate_html]. *)
Lemma flat_item_csv_renderable (row : csv_row) :
  Rows.renderable (flat_item (row_dict row)).
Proof.
  unfold Rows.renderable, flat_item.
  change (dict_get
            [("item_name", dict_get (row_dict row) "item_name" VNone);
             ("quantity", dict_get (row_dict row) "quantity" (VInt 1));
             ("price", dict_get (row_dict row) "price" (VInt 0));
             ("amount", dict_get (row_dict row) "amount" (VInt 0))]
            "amount" (VInt 0))
    with (dict_get (row_dict row) "amount" (VInt 0)).
  destruct (dict_get_row_dict row "amount" (VInt 0)) as [-> | (c & ->)].
  - vm_compute. discriminate.
  - destruct c as [s|]; cbn [cell py_float]; [|discriminate].
    destruct (Float.of_string s); discriminate.
Qed.

Lemma in_find (k : hkey) (inv : invoice) (m : invoices) :
  NoDup (map fst m) -> In (k, inv) m -> find k m = Some inv.
Proof.
  induction m as [|[k0 inv0] m IH]; intros Hnd Hin; [contradiction|].
  cbn [map fst] in Hnd. inversion Hnd as [|? ? Hnot Hnd']; subst.
  cbn [find]. destruct Hin as [[= -> ->] | Hin].
  - now rewrite hkey_eqb_refl.
  - destruct (hkey_eqb_spec k k0) as [->|_]; [|now apply IH].
    exfalso. apply Hnot. apply in_map_iff. now exists (k0, inv).
Qed.

(** Every entry holds what the rows of its key contribute. *)
Lemma grouped_entry (nested : bool) (rows : list dict) (m : invoices)
      (k : hkey) (inv : invoice) :
  grouped nested rows m ->
  In (k, inv) m ->
  inv_items inv = flat_map (contribution nested) (rows_of k rows).
Proof.
  intros (I1 & _ & I3) Hin. specialize (I3 k).
  rewrite (in_find _ _ _ I1 Hin) in I3.
  destruct (rows_of k rows) as [|r mine]; [discriminate|].
  destruct I3 as (inv0 & [= <-] & Hitems). exact Hitems.
Qed.

End CsvRender.

(** X13.  Every record [load_data] returns from a CSV file can be
    rendered: on it [generate_html] returns for every template, because
    a CSV cell is text or missing and never an integer too large for a
    float. *)
Theorem csv_records_always_render
        (f : data_file) (out : list msg) (records : list dict) (r : dict)
        (repr_opaque : pyval -> string) (template_content : string) :
  load_data f = (out, Ok (Some records)) ->
  file_suffix f = ".csv" ->
  In r records ->
  exists html, generate_html repr_opaque template_content r = Ok html.
Proof.
  intros Hload Hs Hin.
  destruct (load_ok_grouped f out records (map row_dict (csv_rows f)) Hload)
    as (m & _ & -> & Hg).
  { left. split; [exact Hs | reflexivity]. }
  unfold Ledger.nested_mode in Hg. rewrite Hs in Hg.
  change (".csv" =? ".json") with false in Hg.
  unfold values in Hin. apply in_map_iff in Hin as ([k inv] & <- & Hin).
  apply generate_html_ok_iff. exists (inv_items inv). split; [reflexivity|].
  rewrite (grouped_entry _ _ _ _ _ Hg Hin). unfold contribution.
  rewrite (flat_map_singleton flat_item).
  apply Forall_forall. intros item Hitem.
  apply in_map_iff in Hitem as (row & <- & Hrow).
  unfold Grouping.rows_of in Hrow. apply filter_In in Hrow as [Hrow _].
  apply in_map_iff in Hrow as (raw & <- & _).
  apply flat_item_csv_renderable.
Qed.

(** The first record of the CSV sample, in a template of its own. *)
Lemma csv_records_always_render_witness :
  exists html,
    generate_html Samples.no_repr "<b>{{ total_amount }}</b>"
                  (hd [] Samples.csv_records)
    = Ok html.
Proof.
  apply (csv_records_always_render Samples.csv_file [] Samples.csv_records
           (hd [] Samples.csv_records) Samples.no_repr
           "<b>{{ total_amount }}</b>" eq_refl eq_refl).
  left. reflexivity.
Defined.

(** X14.  A template in which none of the five tokens occurs comes back
    unchanged, whatever else it holds and whatever the record, as long
    as the loop over the items completes. *)
Theorem generate_html_keeps_template_without_tokens
        (repr_opaque : pyval -> string) (template_content : string)
        (record : dict) (st : string * float64) :
  (forall p, Str.contains (token p) template_content = false) ->
  render_items repr_opaque record = Ok st ->
  generate_html repr_opaque template_content record = Ok template_content.
Proof.
  intros Habsent Hst.
  rewrite (generate_html_steps _ _ _ _ Hst). f_equal.
  unfold steps_upto, steps_first.
  change tok_invoice_id with (token PInvoiceId).
  change tok_customer_name with (token PCustomerName).
  change tok_date with (token PDate).
  change tok_item_rows with (token PItemRows).
  change tok_total_amount with (token PTotalAmount).
  rewrite (replace_token PInvoiceId), replace_from_absent by apply Habsent.
  rewrite (replace_token PCustomerName), replace_from_absent by apply Habsent.
  rewrite (replace_token PDate), replace_from_absent by apply Habsent.
  rewrite (replace_token PItemRows), replace_from_absent by apply Habsent.
  rewrite (replace_token PTotalAmount), replace_from_absent by apply Habsent.
  reflexivity.
Qed.

(** Braces, an unknown placeholder and a misspelt one: nothing is
    touched. *)
Lemma generate_html_keeps_template_without_tokens_witness :
  generate_html Samples.no_repr
                "<style>p {}</style>{{ foo }} {{invoice_id}} {{ date"
                Samples.pen_record
  = Ok "<style>p {}</style>{{ foo }} {{invoice_id}} {{ date".
Proof.
  apply (generate_html_keeps_template_without_tokens Samples.no_repr
           "<style>p {}</style>{{ foo }} {{invoice_id}} {{ date"
           Samples.pen_record Samples.pen_state).
  - intros p. destruct p; reflexivity.
  - reflexivity.
Defined.

(** ** The export loop: a record that cannot be rendered *)

Section ExportAbort.

Variable repr_opaque : pyval -> string.
Variables template_name template_content : string.

Lemma export_loop_stops (before : list dict) :
  forall (fates_before later : list fate) (record : dict)
         (after : list dict) (generated_files : list path) (e : exn),
    length fates_before = length before ->
    Forall (fun r => exists html,
                generate_html repr_opaque template_content r = Ok html)
           before ->
    Forall Batch.survivable fates_before ->
    generate_html repr_opaque template_content record = Raise e ->
    export_loop repr_opaque template_name template_content
                (before ++ record :: after) (fates_before ++ later)
                generated_files
    = (map (Batch.report repr_opaque template_name)
           (combine before fates_before),
       Raise e).
Proof.
  induction before as [|r before IH];
    intros fates_before later record after generated_files e
           Hlen Hhtml Hfates Hraise.
  - destruct fates_before; [|discriminate].
    rewrite !app_nil_l. cbn [export_loop]. now rewrite Hraise.
  - destruct fates_before as [|ft fates_before]; [discriminate|].
    inversion Hhtml as [|? ? [html Eh] Hhtml']; subst.
    inversion Hfates as [|? ? Hft Hfates']; subst.
    injection Hlen as Hlen.
    rewrite <- !app_comm_cons.
    cbn [export_loop hd tl combine map]. rewrite Eh.
    destruct ft as [e0 | e0 |]; cbn [Batch.survivable] in Hft.
    + subst e0.
      now rewrite (IH fates_before later record after generated_files e).
    + now rewrite (IH fates_before later record after generated_files e).
    + now rewrite (IH fates_before later record after _ e).
Qed.

End ExportAbort.

(** X15.  A record on which [generate_html] raises ends the whole run
    there: the records before it were handled as usual, but the records
    after it are not looked at, the exception leaves [main], and neither
    the completion line nor the offer to open a file is printed for the
    files already produced. *)
Theorem export_stops_when_rendering_raises
        (repr_opaque : pyval -> string)
        (template_name template_content : string)
        (before after : list dict) (record : dict)
        (fates_before later : list fate) (inputs : list string) (e : exn) :
  length fates_before = length before ->
  Forall (fun r => exists html,
              generate_html repr_opaque template_content r = Ok html)
         before ->
  Forall Batch.survivable fates_before ->
  generate_html repr_opaque template_content record = Raise e ->
  main_export repr_opaque template_name template_content
              (before ++ record :: after) (fates_before ++ later) inputs
  = ((MStartGeneration
        :: map (Batch.report repr_opaque template_name)
               (combine before fates_before))%list,
     Raise e).
Proof.
  intros Hlen Hhtml Hfates Hraise. unfold main_export.
  now rewrite (export_loop_stops repr_opaque template_name template_content
                 before fates_before later record after [] e
                 Hlen Hhtml Hfates Hraise).
Qed.

(** A good record, then the record with the huge amount, then another
    good one: one file is made and the run dies. *)
Lemma export_stops_when_rendering_raises_witness :
  main_export Samples.no_repr "receipt" "<p>{{ total_amount }}</p>"
              ([Samples.pen_record] ++ Samples.huge_amount_record
                 :: [Samples.pen_record])
              ([Produced] ++ [Produced; Produced]) ["y"]
  = ([MStartGeneration; MCreated "output" "(A)_receipt.pdf"],
     Raise OverflowError).
Proof.
  refine (export_stops_when_rendering_raises Samples.no_repr "receipt"
            "<p>{{ total_amount }}</p>" [Samples.pen_record]
            [Samples.pen_record] Samples.huge_amount_record
            [Produced] [Produced; Produced] ["y"] OverflowError
            eq_refl _ _ _).
  - repeat constructor. eexists. reflexivity.
  - repeat constructor.
  - vm_compute. reflexivity.
Defined.

(** ** [main] *)

Section MainFacts.

Import Program.

Variable repr_opaque : pyval -> string.

Lemma export_loop_files (template_name template_content : string)
      (selected_records : list dict) :
  forall (fates : list fate) (generated_files : list path)
         (out : list msg) (files : list path),
    export_loop repr_opaque template_name template_content
                selected_records fates generated_files = (out, Ok files) ->
    exists made,
      files = (generated_files ++ made)%list
      /\ forall p, In p made ->
           exists r, In r selected_records
                     /\ p = ("output",
                             pdf_filename repr_opaque (Batch.id_of r)
                                          template_name).
Proof.
  induction selected_records as [|record records IH];
    intros fates generated_files out files H.
  - injection H as _ <-. exists []. split; [now rewrite app_nil_r|].
    intros p [].
  - cbn [export_loop] in H.
    destruct (generate_html repr_opaque template_content record);
      [|discriminate].
    assert (Hgo : forall gen out' ,
               export_loop repr_opaque template_name template_content
                           records (tl fates) gen = (out', Ok files) ->
               exists made,
                 files = (gen ++ made)%list
                 /\ forall p, In p made ->
                      exists r, In r (record :: records)
                                /\ p = ("output",
                                        pdf_filename repr_opaque
                                          (Batch.id_of r) template_name)).
    { intros gen out' H'. destruct (IH _ _ _ _ H') as (made & -> & Hm).
      exists made. split; [reflexivity|].
      intros p Hp. destruct (Hm p Hp) as (r & Hr & ->).
      exists r. split; [right; exact Hr | reflexivity]. }
    unfold prepend in H.
    destruct (hd Produced fates) as [e | e |].
    + destruct e; cbn iota in H; try discriminate H.
      destruct (export_loop _ _ _ records (tl fates) generated_files)
        as [out' r'] eqn:E.
      cbn [fst snd] in H. injection H as _ ->. exact (Hgo _ _ E).
    + destruct (export_loop _ _ _ records (tl fates) generated_files)
        as [out' r'] eqn:E.
      cbn [fst snd] in H. injection H as _ ->. exact (Hgo _ _ E).
    + destruct (export_loop _ _ _ records (tl fates) _)
        as [out' r'] eqn:E.
      cbn [fst snd] in H. injection H as _ ->.
      destruct (IH _ _ _ _ E) as (made & -> & Hm).
      exists (("output", pdf_filename repr_opaque (Batch.id_of record)
                                      template_name) :: made).
      split; [now rewrite <- app_assoc|].
      intros p [<- | Hp].
      * exists record. split; [left; reflexivity | reflexivity].
      * destruct (Hm p Hp) as (r & Hr & ->).
        exists r. split; [right; exact Hr | reflexivity].
Qed.

Lemma main_export_files (template_name template_content : string)
      (selected_records : list dict) (fates : list fate)
      (inputs : list string) (out : list msg) (files : list path)
      (opened : option path) :
  main_export repr_opaque template_name template_content
              selected_records fates inputs = (out, Ok (files, opened)) ->
  (forall p, In p files ->
     exists r, In r selected_records
               /\ p = ("output",
                       pdf_filename repr_opaque (Batch.id_of r) template_name))
  /\ (forall p, opened = Some p -> hd_error files = Some p).
Proof.
  unfold main_export.
  destruct (export_loop repr_opaque template_name template_content
                        selected_records fates []) as [out0 r0] eqn:E.
  destruct r0 as [generated|e]; [|discriminate].
  destruct (export_loop_files _ _ _ _ _ _ _ E) as (made & -> & Hm).
  rewrite app_nil_l.
  destruct (closing made inputs) as [out' o] eqn:Ec.
  destruct o as [o|e]; [|discriminate]. cbn [bind].
  intros [= _ <- <-]. split; [exact Hm|].
  intros p ->. unfold closing in Ec.
  destruct made as [|first rest]; [discriminate|].
  destruct inputs as [|a inputs]; [discriminate|].
  injection Ec as _ Ho.
  destruct (Str.lower a =? "y"); [|discriminate].
  injection Ho as <-. reflexivity.
Qed.

Lemma selection_members (records : list dict) (pos : list Z) :
  Forall (fun i => (0 <= i < Z.of_nat (length records))%Z) pos ->
  forall r, In r (map (fun i => nth (Z.to_nat i) records []) pos) ->
            In r records.
Proof.
  intros Hpos r Hr. apply in_map_iff in Hr as (i & <- & Hi).
  rewrite Forall_forall in Hpos. specialize (Hpos _ Hi).
  apply nth_In. lia.
Qed.

End MainFacts.

Section MainClaims.

Import Program.

Lemma not_from_item (l : list ItemChoice.item_msg) :
  ~ In MNoSelection (map FromItem l).
Proof. intros H. apply in_map_iff in H as (x & Hx & _). discriminate Hx. Qed.

Lemma not_from_core (l : list msg) : ~ In MNoSelection (map FromCore l).
Proof. intros H. apply in_map_iff in H as (x & Hx & _). discriminate Hx. Qed.

Lemma open_file_quiet (w : world) (file : path) :
  ~ In MNoSelection (fst (open_file w file)).
Proof.
  unfold open_file. destruct (launch w (launcher_for (system w)) file);
    cbn; intros H; try contradiction; destruct H as [H | []]; discriminate H.
Qed.

End MainClaims.

(** X16.  [main] never prints that no records were selected: the test
    behind that message cannot succeed, because for the non-empty list
    of records [main] passes, [select_records] returns no empty
    selection. *)
Theorem main_never_reports_empty_selection
        (repr_opaque : pyval -> string) (w : Program.world)
        (inputs : list string) :
  ~ In Program.MNoSelection (Program.said (Program.main repr_opaque w inputs)).
Proof.
  unfold Program.main. cbv zeta.
  destruct (Program.mkdir_error w); [intros []|].
  set (s1 := ItemChoice.select_item _ _ _ _ inputs).
  destruct (ItemChoice.answer s1) as [[f|]|e];
    try (cbn [Program.said Program.stop Program.fail]; apply not_from_item).
  destruct (load_data f) as [out2 loaded].
  assert (H2 : ~ In Program.MNoSelection
                    (map Program.FromItem (ItemChoice.shown s1)
                       ++ map Program.FromCore out2)%list).
  { rewrite in_app_iff. intros [H | H];
      [now apply not_from_item in H | now apply not_from_core in H]. }
  destruct loaded as [[[|r0 records]|]|e];
    try (cbn [Program.said Program.stop Program.fail];
         first [ exact H2
               | rewrite in_app_iff; intros [H | [H | []]];
                 [now apply H2 | discriminate H] ]).
  set (s3 := ItemChoice.select_item _ _ _ _ (ItemChoice.left_over s1)).
  assert (H3 : ~ In Program.MNoSelection
                    ((map Program.FromItem (ItemChoice.shown s1)
                        ++ map Program.FromCore out2)
                       ++ map Program.FromItem (ItemChoice.shown s3))%list).
  { rewrite in_app_iff. intros [H | H];
      [now apply H2 | now apply not_from_item in H]. }
  destruct (ItemChoice.answer s3) as [[t|]|e];
    try (cbn [Program.said Program.stop Program.fail]; exact H3).
  destruct (Program.tpl_text t) as [template_content|e].
  2:{ destruct e; cbn [Program.said Program.stop Program.fail];
        try exact H3.
      rewrite in_app_iff. intros [H | [H | []]];
        [now apply H3 | discriminate H]. }
  set (s4 := select_records (r0 :: records) (ItemChoice.left_over s3)).
  destruct (select_records_safe (r0 :: records) (ItemChoice.left_over s3))
    as [_ Hsafe]; [discriminate|].
  fold s4 in Hsafe.
  assert (H4 : ~ In Program.MNoSelection
                    (((map Program.FromItem (ItemChoice.shown s1)
                         ++ map Program.FromCore out2)
                        ++ map Program.FromItem (ItemChoice.shown s3))
                       ++ map Program.FromCore (printed s4))%list).
  { rewrite in_app_iff. intros [H | H];
      [now apply H3 | now apply not_from_core in H]. }
  destruct (outcome s4) as [[|r1 selected]|e].
  - destruct Hsafe as [Hne _]. congruence.
  - unfold Program.main_finish.
    destruct (main_export repr_opaque (Program.tpl_stem t) template_content
                          (r1 :: selected) (Program.fates w) (unread s4))
      as [out r].
    assert (H5 : ~ In Program.MNoSelection
                      ((((map Program.FromItem (ItemChoice.shown s1)
                            ++ map Program.FromCore out2)
                           ++ map Program.FromItem (ItemChoice.shown s3))
                          ++ map Program.FromCore (printed s4))
                         ++ map Program.FromCore out)%list).
    { rewrite in_app_iff. intros [H | H];
        [now apply H4 | now apply not_from_core in H]. }
    destruct r as [[files [first|]]|e];
      try (cbn [Program.said Program.fail]; exact H5).
    pose proof (open_file_quiet w first) as Hq.
    destruct (Program.open_file w first) as [out' opened].
    cbn [fst] in Hq.
    destruct opened; cbn [Program.said Program.fail];
      rewrite in_app_iff; intros [H | H]; auto.
  - cbn [Program.said Program.fail]. exact H4.
Qed.

(** X17.  Whatever the surroundings and whatever is typed, the files
    [main] ends with are PDFs in [output], each named after the
    [invoice_id] of a record loaded from one data file found under
    [data] and after the stem of one template found under [templates];
    and the file handed to [open_file], if any, is the first of them. *)
Theorem main_files_come_from_the_data
        (repr_opaque : pyval -> string) (w : Program.world)
        (inputs : list string) (files : list path) (opened : option path) :
  Program.ended (Program.main repr_opaque w inputs) = Ok (files, opened) ->
  (forall p, opened = Some p -> hd_error files = Some p)
  /\ (files = []
      \/ exists f records t,
           In f (Program.find_files (Program.rglob_data w) "data"
                                    ["csv"; "json"])
           /\ snd (load_data f) = Ok (Some records)
           /\ In t (Program.find_files (Program.rglob_templates w)
                                       "templates" ["html"])
           /\ forall p, In p files ->
                exists r, In r records
                          /\ p = ("output",
                                  pdf_filename repr_opaque (Batch.id_of r)
                                               (Program.tpl_stem t))).
Proof.
  unfold Program.main. cbv zeta.
  assert (Hstop : forall ms,
             Program.ended (Program.stop ms) = Ok (files, opened) ->
             (forall p, opened = Some p -> hd_error files = Some p)
             /\ (files = [] \/ exists f records t,
                   In f (Program.find_files (Program.rglob_data w) "data"
                                            ["csv"; "json"])
                   /\ snd (load_data f) = Ok (Some records)
                   /\ In t (Program.find_files (Program.rglob_templates w)
                                               "templates" ["html"])
                   /\ forall p, In p files ->
                        exists r, In r records
                                  /\ p = ("output",
                                          pdf_filename repr_opaque
                                            (Batch.id_of r)
                                            (Program.tpl_stem t)))).
  { intros ms [= <- <-]. split; [discriminate | left; reflexivity]. }
  destruct (Program.mkdir_error w); [discriminate|].
  pose proof (select_item_answer data_file file_name
                (Program.find_files (Program.rglob_data w) "data"
                                    ["csv"; "json"])
                Program.title_data inputs) as H1.
  set (s1 := ItemChoice.select_item _ _ _ _ inputs) in *.
  destruct (ItemChoice.answer s1) as [[f|]|e];
    [| apply Hstop | discriminate].
  destruct (load_data f) as [out2 loaded] eqn:El.
  destruct loaded as [[[|r0 records]|]|e];
    [apply Hstop | | apply Hstop | discriminate].
  pose proof (select_item_answer Program.template_file Program.tpl_path
                (Program.find_files (Program.rglob_templates w) "templates"
                                    ["html"])
                Program.title_template (ItemChoice.left_over s1)) as H3.
  set (s3 := ItemChoice.select_item _ _ _ _ (ItemChoice.left_over s1)) in *.
  destruct (ItemChoice.answer s3) as [[t|]|e];
    [| apply Hstop | discriminate].
  destruct (Program.tpl_text t) as [template_content|e].
  2:{ destruct e; first [apply Hstop | discriminate]. }
  destruct (select_records_safe (r0 :: records) (ItemChoice.left_over s3))
    as [_ Hsafe]; [discriminate|].
  set (s4 := select_records (r0 :: records) (ItemChoice.left_over s3)) in *.
  destruct (outcome s4) as [[|r1 selected]|e];
    [apply Hstop | | discriminate].
  destruct Hsafe as (_ & pos & _ & Hpos & Hsel).
  unfold Program.main_finish.
  destruct (main_export repr_opaque (Program.tpl_stem t) template_content
                        (r1 :: selected) (Program.fates w) (unread s4))
    as [out r] eqn:Ee.
  destruct r as [[made o]|e]; [|discriminate].
  destruct (main_export_files _ _ _ _ _ _ _ _ _ Ee) as (Hfiles & Hopen).
  assert (Hgoal : (forall p, o = Some p -> hd_error made = Some p)
                  /\ (made = [] \/ exists f records t,
                        In f (Program.find_files (Program.rglob_data w) "data"
                                                 ["csv"; "json"])
                        /\ snd (load_data f) = Ok (Some records)
                        /\ In t (Program.find_files
                                   (Program.rglob_templates w)
                                   "templates" ["html"])
                        /\ forall p, In p made ->
                             exists r, In r records
                                       /\ p = ("output",
                                               pdf_filename repr_opaque
                                                 (Batch.id_of r)
                                                 (Program.tpl_stem t)))).
  { split; [exact Hopen|]. right. exists f, (r0 :: records), t.
    split; [exact H1|]. split; [now rewrite El|]. split; [exact H3|].
    intros p Hp. destruct (Hfiles p Hp) as (r & Hr & ->).
    exists r. split; [|reflexivity].
    rewrite Hsel in Hr. exact (selection_members _ _ Hpos r Hr). }
  destruct o as [first|].
  - destruct (Program.open_file w first) as [out' op].
    destruct op; [|discriminate]. intros [= <- <-]. exact Hgoal.
  - intros [= <- <-]. exact Hgoal.
Qed.

(** The CSV sample, the receipt template, all records, no opening. *)
Lemma main_files_come_from_the_data_witness :
  (forall p, None = Some p
             -> hd_error [("output", "(A)_receipt.pdf");
                          ("output", "(B)_receipt.pdf")] = Some p)
  /\ ([("output", "(A)_receipt.pdf"); ("output", "(B)_receipt.pdf")] = []
      \/ exists f records t,
           In f (Program.find_files (Program.rglob_data Samples.quiet_world)
                                    "data" ["csv"; "json"])
           /\ snd (load_data f) = Ok (Some records)
           /\ In t (Program.find_files
                      (Program.rglob_templates Samples.quiet_world)
                      "templates" ["html"])
           /\ forall p, In p [("output", "(A)_receipt.pdf");
                              ("output", "(B)_receipt.pdf")] ->
                exists r, In r records
                          /\ p = ("output",
                                  pdf_filename Samples.no_repr (Batch.id_of r)
                                               (Program.tpl_stem t))).
Proof.
  apply (main_files_come_from_the_data Samples.no_repr Samples.quiet_world
           ["1"; "1"; "all"; "n"]).
  vm_compute. reflexivity.
Defined.

(** ** The two modes of [load_data] on the same rows *)

Section ModeFacts.

Lemma contribution_csv_row (nested : bool) (row : csv_row) :
  contribution nested (row_dict row) = [flat_item (row_dict row)].
Proof.
  unfold contribution. destruct nested; [|reflexivity].
  assert (H : dict_find (row_dict row) "items" = None
              \/ exists c, dict_find (row_dict row) "items" = Some (cell c)).
  { induction row as [|[k0 c0] row IH]; [left; reflexivity|].
    cbn. destruct (k0 =? "items"); [right; now exists c0 | exact IH]. }
  destruct H as [-> | (c & ->)]; [reflexivity|]. now destruct c.
Qed.

Lemma run_rows_mode (rows : list csv_row) :
  forall m : invoices,
    Grouping.run_rows true (map row_dict rows) m
    = Grouping.run_rows false (map row_dict rows) m.
Proof.
  induction rows as [|row rows IH]; intros m; [reflexivity|].
  cbn [map Grouping.run_rows].
  assert (E : step_row true (row_dict row) m
              = step_row false (row_dict row) m).
  { unfold step_row. now rewrite !contribution_csv_row. }
  rewrite E. destruct (step_row false (row_dict row) m); cbn [bind]; auto.
Qed.

End ModeFacts.

(** X18.  The two branches of [load_data] agree: a JSON array whose
    objects hold just the cells of the rows of a CSV file makes
    [load_data] return what it returns for that CSV file (the same
    records in the same order, or [None] in both cases). *)
Theorem load_data_json_agrees_with_csv (fc fj : data_file) :
  open_error fc = None ->
  open_error fj = None ->
  file_suffix fc = ".csv" ->
  file_suffix fj = ".json" ->
  csv_error fc = None ->
  json_value fj = Ok (VList (map VDict (map row_dict (csv_rows fc)))) ->
  snd (load_data fj) = snd (load_data fc).
Proof.
  intros Hoc Hoj Hsc Hsj Hec Hj. unfold load_data, load_body.
  rewrite Hoc, Hoj, Hsc, Hsj, Hec, Hj.
  change (".csv" =? ".csv") with true.
  change (".json" =? ".csv") with false.
  change (".json" =? ".json") with true. cbn [bind py_iter].
  rewrite run_json_dicts, run_csv_rows, run_rows_mode.
  destruct (Grouping.run_rows false (map row_dict (csv_rows fc)) [])
    as [m|e]; cbn [bind]; [reflexivity|].
  destruct (Loader.handled e); reflexivity.
Qed.

(** The CSV sample and its rows written as a JSON array. *)
Lemma load_data_json_agrees_with_csv_witness :
  snd (load_data Samples.csv_file_as_json) = snd (load_data Samples.csv_file).
Proof.
  exact (load_data_json_agrees_with_csv Samples.csv_file
           Samples.csv_file_as_json eq_refl eq_refl eq_refl eq_refl eq_refl
           eq_refl).
Defined.

(** X19.  When no amount counts (there are no items, or every amount is
    text that is no number, [None], a list or a dict) the total is
    printed as [0.00]. *)
Theorem total_of_nothing_is_zero
        (repr_opaque : pyval -> string) (record : dict)
        (items : list pyval) :
  py_iter (dict_get record "items" (VList [])) = Some items ->
  Forall Rows.uncounted items ->
  generate_html repr_opaque tok_total_amount record = Ok "0.00".
Proof.
  intros Hi Hall.
  assert (Hr : Forall Rows.renderable items).
  { eapply Forall_impl; [|exact Hall].
    intros [| | | | | |d]; cbn; try contradiction.
    intros [-> | ->]; discriminate. }
  apply (item_loop_ok repr_opaque items ("", Float.zero)) in Hr as (st & Hst).
  assert (Hrender : render_items repr_opaque record = Ok st).
  { unfold render_items. now rewrite Hi. }
  rewrite (generate_html_total_only repr_opaque record st Hrender).
  rewrite (item_loop_total repr_opaque _ _ _ Hst). cbn [snd].
  assert (E : flat_map Money.coerced items = []).
  { clear -Hall. induction Hall as [|item items Hitem _ IH]; [reflexivity|].
    cbn [flat_map]. rewrite IH, app_nil_r.
    destruct item as [| | | | | |d]; cbn in Hitem; try contradiction.
    unfold Money.coerced. now destruct Hitem as [-> | ->]. }
  rewrite E. reflexivity.
Qed.

(** One item without a number for an amount, one with none at all
    (missing cell). *)
Lemma total_of_nothing_is_zero_witness :
  generate_html Samples.no_repr tok_total_amount
    [("items", VList [VDict [("amount", VStr "n/a")];
                      VDict [("amount", VNone)]])]
  = Ok "0.00".
Proof.
  apply (total_of_nothing_is_zero Samples.no_repr
           [("items", VList [VDict [("amount", VStr "n/a")];
                             VDict [("amount", VNone)]])]
           [VDict [("amount", VStr "n/a")]; VDict [("amount", VNone)]]
           eq_refl).
  apply Forall_cons; [left; reflexivity|].
  apply Forall_cons; [right; reflexivity | apply Forall_nil].
Defined.

(** The record with a pen and an empty item renders; the one with the
    huge amount does not. *)
Lemma generate_html_returns_exactly_when_witness :
  (exists html,
      generate_html Samples.no_repr "{{ item_rows }}" Samples.pen_record
      = Ok html)
  /\ ~ (exists html,
           generate_html Samples.no_repr "{{ item_rows }}"
                         Samples.huge_amount_record = Ok html).
Proof.
  split.
  - apply (proj2 (generate_html_returns_exactly_when Samples.no_repr
                    "{{ item_rows }}" Samples.pen_record)).
    eexists. split; [reflexivity|].
    apply Forall_cons; [|apply Forall_cons; [|apply Forall_nil]];
      vm_compute; discriminate.
  - intros H.
    apply (proj1 (generate_html_returns_exactly_when Samples.no_repr
                    "{{ item_rows }}" Samples.huge_amount_record)) in H.
    destruct H as (items & [= <-] & Hall).
    inversion Hall as [|? ? Hitem _]. apply Hitem. vm_compute. reflexivity.
Defined.

(** The quiet run says nothing about an empty selection. *)
Lemma main_never_reports_empty_selection_witness :
  ~ In Program.MNoSelection
       (Program.said (Program.main Samples.no_repr Samples.quiet_world
                                   ["1"; "1"; "all"; "n"])).
Proof.
  exact (main_never_reports_empty_selection Samples.no_repr
           Samples.quiet_world ["1"; "1"; "all"; "n"]).
Defined.
